(** * OpenSCAD web service: a model of [api/app.py]

    The Flask handlers of [api/app.py] ([RenderScad.post], [GetStl.post],
    [View3D.get], [UploadLibrary.post]) are embedded as functions in a
    state-and-exception monad over a world made of a file-system tree and
    the module-level dictionary [stl_cache].  Everything the handlers
    obtain from outside (the fresh UUID, the outcome of launching the
    OpenSCAD process, I/O faults such as a full disk) is supplied by an
    [environment] record.  Logging calls have no effect on the results
    and are left out. *)

From Stdlib Require Import ZArith String Ascii List Bool Lia.
From stdpp Require Import base option list gmap strings.

Import ListNotations.
Set Warnings "-register-all".
Local Open Scope string_scope.
Local Open Scope list_scope.

(** ** Python string operations used by the handlers *)

Module Str.

(** [s.startswith(pre)] *)
Fixpoint startswith (s pre : string) : bool :=
  match pre with
  | EmptyString => true
  | String c pre' =>
      match s with
      | EmptyString => false
      | String d s' => if Ascii.eqb c d then startswith s' pre' else false
      end
  end.

(** [s.endswith(suf)]: [s] is [suf], or its tail ends with [suf]. *)
Fixpoint endswith (s suf : string) : bool :=
  String.eqb s suf ||
  match s with
  | EmptyString => false
  | String _ s' => endswith s' suf
  end.

(** [sep in s] for the one-character separator ["/"]. *)
Fixpoint has_sep (s : string) : bool :=
  match s with
  | EmptyString => false
  | String c s' => Ascii.eqb c "/" || has_sep s'
  end.

(** [s.split('/')]; the result is never empty. *)
Fixpoint split_sep (s : string) : list string :=
  match s with
  | EmptyString => [EmptyString]
  | String c s' =>
      if Ascii.eqb c "/" then EmptyString :: split_sep s'
      else match split_sep s' with
           | [] => [String c EmptyString]
           | w :: ws => String c w :: ws
           end
  end.

End Str.

(** ** [os.path] *)

(** [posixpath.join(a, b)]: an absolute [b] discards [a]. *)
Definition os_path_join (a b : string) : string :=
  if Str.startswith b "/" then b
  else if String.eqb a "" || Str.endswith a "/" then a ++ b
  else a ++ "/" ++ b.

(** [posixpath.basename(p)]: [p[p.rfind('/') + 1:]], the last field of
    [p.split('/')]. *)
Definition os_path_basename (p : string) : string :=
  List.last (Str.split_sep p) "".

(** [posixpath.normpath] on the fields of a path, kept as a stack of
    names from the root: empty fields and ["."] vanish, [".."] pops. *)
Fixpoint norm_fields (cur : list string) (fields : list string) : list string :=
  match fields with
  | [] => cur
  | f :: fs =>
      if String.eqb f "" || String.eqb f "." then norm_fields cur fs
      else if String.eqb f ".." then norm_fields (removelast cur) fs
      else norm_fields (cur ++ [f]) fs
  end.

Definition normpath (p : string) : list string :=
  norm_fields [] (Str.split_sep p).

(** [q] lies under directory [root] (both normalised). *)
Definition under_root (root q : list string) : bool :=
  bool_decide (root `prefix_of` q).

(** ** Exceptions and Python values *)

(** The exception classes the handlers can meet.  [OSError] stands for
    every [OSError] other than [FileNotFoundError] ([PermissionError],
    [IsADirectoryError], [NotADirectoryError], [FileExistsError], a full
    disk); all of them are subclasses of [Exception]. *)
Inductive exn : Type :=
| BadRequest (msg : string)
| KeyError (key : string)
| TypeError (msg : string)
| FileNotFoundError (msg : string)
| OSError (msg : string)
| CalledProcessError (returncode : Z) (stderr : string)
| UnicodeDecodeError (msg : string).

(** [str(e)] *)
Definition str_exn (e : exn) : string :=
  match e with
  | BadRequest msg => msg
  | KeyError key => "'" ++ key ++ "'"
  | TypeError msg => msg
  | FileNotFoundError msg => msg
  | OSError msg => msg
  | CalledProcessError _ _ => "Command returned non-zero exit status."
  | UnicodeDecodeError msg => msg
  end.

(** The [IsADirectoryError] that opening the directory [p] as a file
    raises. *)
Definition is_a_directory (p : string) : exn :=
  OSError ("[Errno 21] Is a directory: '" ++ p ++ "'").

(** ** Text mode of captured output *)

Module Codec.

(** Strict UTF-8: [need] continuation bytes are still due, the next of
    them within [lo..hi].  Overlong forms, surrogates and code points
    beyond U+10FFFF are refused. *)
Fixpoint utf8_scan (need : nat) (lo hi : N) (s : string) : bool :=
  match s with
  | EmptyString => Nat.eqb need 0
  | String c s' =>
      let b := N_of_ascii c in
      match need with
      | O =>
          if N.leb b 127 then utf8_scan 0 128 191 s'
          else if N.leb 194 b && N.leb b 223 then utf8_scan 1 128 191 s'
          else if N.eqb b 224 then utf8_scan 2 160 191 s'
          else if N.eqb b 237 then utf8_scan 2 128 159 s'
          else if N.leb 225 b && N.leb b 239 then utf8_scan 2 128 191 s'
          else if N.eqb b 240 then utf8_scan 3 144 191 s'
          else if N.leb 241 b && N.leb b 243 then utf8_scan 3 128 191 s'
          else if N.eqb b 244 then utf8_scan 3 128 143 s'
          else false
      | S need' =>
          if N.leb lo b && N.leb b hi then utf8_scan need' 128 191 s' else false
      end
  end.

Definition utf8_valid (s : string) : bool := utf8_scan 0 128 191 s.

(** [data.replace("\r\n", "\n").replace("\r", "\n")] *)
Fixpoint universal_newlines (s : string) : string :=
  match s with
  | EmptyString => EmptyString
  | String c s' =>
      if Ascii.eqb c "013" then
        match s' with
        | String c' s'' =>
            if Ascii.eqb c' "010" then String "010" (universal_newlines s'')
            else String "010" (universal_newlines s')
        | EmptyString => String "010" EmptyString
        end
      else String c (universal_newlines s')
  end.

(** [bytes.decode("utf-8")] followed by the newline translation; a text
    is kept as its UTF-8 bytes. *)
Definition utf8_text (b : string) : option string :=
  if utf8_valid b then Some (universal_newlines b) else None.

End Codec.

(** Values of parsed JSON bodies and of the dictionaries the handlers
    return.  A dictionary is an association list with distinct keys. *)
Inductive pyval : Type :=
| PyNone
| PyBool (b : bool)
| PyNum (n : Z)
| PyStr (s : string)
| PyList (l : list pyval)
| PyDict (d : list (string * pyval)).

Fixpoint dict_get (key : string) (d : list (string * pyval)) : option pyval :=
  match d with
  | [] => None
  | (k, v) :: d' => if String.eqb k key then Some v else dict_get key d'
  end.

(** ** The file system: a tree of directories and regular files *)

Inductive node : Type :=
| File (data : string)
| Dir (entries : list (string * node)).

Module FS.

Fixpoint lookup_entry (name : string) (es : list (string * node)) : option node :=
  match es with
  | [] => None
  | (n, x) :: es' => if String.eqb n name then Some x else lookup_entry name es'
  end.

Fixpoint set_entry (name : string) (x : node) (es : list (string * node))
  : list (string * node) :=
  match es with
  | [] => [(name, x)]
  | (n, y) :: es' =>
      if String.eqb n name then (n, x) :: es' else (n, y) :: set_entry name x es'
  end.

(** The node at a canonical location (a list of names from the root). *)
Fixpoint get_node (t : node) (q : list string) : option node :=
  match q with
  | [] => Some t
  | c :: q' =>
      match t with
      | Dir es =>
          match lookup_entry c es with
          | Some m => get_node m q'
          | None => None
          end
      | File _ => None
      end
  end.

(** Create or replace the node at a canonical location whose parent
    is an existing directory. *)
Fixpoint put_node (t : node) (q : list string) (new : node) : option node :=
  match q with
  | [] => Some new
  | c :: q' =>
      match t with
      | Dir es =>
          match q' with
          | [] => Some (Dir (set_entry c new es))
          | _ :: _ =>
              match lookup_entry c es with
              | Some m =>
                  match put_node m q' new with
                  | Some m' => Some (Dir (set_entry c m' es))
                  | None => None
                  end
              | None => None
              end
          end
      | File _ => None
      end
  end.

Definition is_dir (t : node) (q : list string) : bool :=
  match get_node t q with
  | Some (Dir _) => true
  | _ => false
  end.

(** Path resolution as the kernel does it, field by field: every field
    is looked up in a directory that exists; [".."] goes to the parent.
    The last field itself need not exist. *)
Fixpoint canon (t : node) (cur : list string) (fields : list string)
  : option (list string) :=
  match fields with
  | [] => Some cur
  | f :: fs =>
      if is_dir t cur then
        if String.eqb f "" || String.eqb f "." then canon t cur fs
        else if String.eqb f ".." then canon t (removelast cur) fs
        else canon t (cur ++ [f]) fs
      else None
  end.

(** Every path the handlers build is absolute; resolution starts at the
    root.  The empty path names nothing. *)
Definition resolve (t : node) (p : string) : option (list string) :=
  if String.eqb p "" then None else canon t [] (Str.split_sep p).

Definition stat (t : node) (p : string) : option node :=
  match resolve t p with
  | Some q => get_node t q
  | None => None
  end.

(** [os.path.exists], [os.path.isdir] *)
Definition exists_ (t : node) (p : string) : bool :=
  match stat t p with Some _ => true | None => false end.

Definition isdir (t : node) (p : string) : bool :=
  match stat t p with Some (Dir _) => true | _ => false end.

(** Writing a regular file: [open(p, 'w')] followed by the data. *)
Definition write_file (t : node) (p : string) (data : string) : exn + node :=
  match resolve t p with
  | None => inl (FileNotFoundError p)
  | Some q =>
      match q, get_node t q with
      | [], _ => inl (OSError ("IsADirectoryError: " ++ p))
      | _, Some (Dir _) => inl (OSError ("IsADirectoryError: " ++ p))
      | _, _ =>
          match put_node t q (File data) with
          | Some t' => inr t'
          | None => inl (FileNotFoundError p)
          end
      end
  end.

(** [os.makedirs(p, exist_ok=True)] on the fields of [p]: missing
    directories are created on the way down. *)
Fixpoint makedirs_fields (t : node) (cur : list string) (fields : list string)
  : exn + node :=
  match fields with
  | [] => inr t
  | f :: fs =>
      match get_node t cur with
      | Some (Dir es) =>
          if String.eqb f "" || String.eqb f "." then makedirs_fields t cur fs
          else if String.eqb f ".." then makedirs_fields t (removelast cur) fs
          else
            match lookup_entry f es with
            | Some (Dir _) => makedirs_fields t (cur ++ [f]) fs
            | Some (File _) =>
                inl (OSError (match fs with
                              | [] => "FileExistsError: "
                              | _ :: _ => "NotADirectoryError: "
                              end ++ f))
            | None =>
                match put_node t (cur ++ [f]) (Dir []) with
                | Some t' => makedirs_fields t' (cur ++ [f]) fs
                | None => inl (OSError ("mkdir: " ++ f))
                end
            end
      | _ => inl (OSError ("NotADirectoryError: " ++ f))
      end
  end.

Definition makedirs (t : node) (p : string) : exn + node :=
  if String.eqb p "" then inl (FileNotFoundError p)
  else makedirs_fields t [] (Str.split_sep p).

(** [os.listdir(p)] *)
Definition listdir (t : node) (p : string) : exn + list string :=
  match stat t p with
  | Some (Dir es) => inr (map fst es)
  | Some (File _) => inl (OSError ("NotADirectoryError: " ++ p))
  | None => inl (FileNotFoundError p)
  end.

(** [os.walk(top)], top-down: each directory yields its path, the names
    of its sub-directories and the names of its other entries, then its
    sub-directories are walked in listing order.  A [top] that cannot be
    listed yields nothing. *)
Definition dirnames (es : list (string * node)) : list string :=
  flat_map (fun e => match snd e with Dir _ => [fst e] | File _ => [] end) es.

Definition filenames (es : list (string * node)) : list string :=
  flat_map (fun e => match snd e with Dir _ => [] | File _ => [fst e] end) es.

Fixpoint walk_node (top : string) (t : node)
  : list (string * list string * list string) :=
  match t with
  | File _ => []
  | Dir es =>
      (top, dirnames es, filenames es) ::
      (fix walk_entries (l : list (string * node)) :=
         match l with
         | [] => []
         | (name, child) :: l' =>
             walk_node (os_path_join top name) child ++ walk_entries l'
         end) es
  end.

Definition walk (t : node) (top : string)
  : list (string * list string * list string) :=
  match stat t top with
  | Some d => walk_node top d
  | None => []
  end.

End FS.

(** ** The world, the environment and the handler monad *)

(** The mutable state a request can observe or change: the file system
    and the module-level dictionary [stl_cache]. *)
Record world : Type := World {
  fs : node;
  stl_cache : gmap string string
}.

Inductive outcome (A : Type) : Type :=
| Returned (a : A)
| Raised (e : exn).
Arguments Returned {A} a.
Arguments Raised {A} e.

(** A computation runs in a world and either returns or raises; side
    effects made before a raise persist. *)
Definition M (A : Type) : Type := world -> outcome A * world.

Definition ret {A} (a : A) : M A := fun w => (Returned a, w).

Definition raise {A} (e : exn) : M A := fun w => (Raised e, w).

Definition bind {A B} (m : M A) (k : A -> M B) : M B :=
  fun w =>
    match m w with
    | (Returned a, w') => k a w'
    | (Raised e, w') => (Raised e, w')
    end.

(** [try: body except Exception as e: handler(e)] *)
Definition try_except {A} (body : M A) (handler : exn -> M A) : M A :=
  fun w =>
    match body w with
    | (Returned a, w') => (Returned a, w')
    | (Raised e, w') => handler e w'
    end.

Declare Scope py_scope.
Delimit Scope py_scope with py.
Notation "x <- m ;; k" := (bind m (fun x => k))
  (at level 100, m at next level, right associativity) : py_scope.
Notation "m ;;; k" := (bind m (fun _ => k))
  (at level 100, right associativity) : py_scope.
Local Open Scope py_scope.

(** [for x in l: body(x)] *)
Fixpoint for_each {A} (l : list A) (body : A -> M unit) : M unit :=
  match l with
  | [] => ret tt
  | x :: l' => body x ;;; for_each l' body
  end.

(** File-system calls that the environment may make fail. *)
Inductive io_op : Type :=
| MakeDirs (p : string)
| ListDir (p : string)
| CopyFile (src dst : string)
| OpenWrite (p : string)
| WriteData (p : string)
| SaveUpload (p : string).

(** What launching the process of [subprocess.run(args,
    capture_output=True)] does: it raises (the executable is missing or
    cannot be started; nothing has run), or the process ran to its end,
    wrote the bytes [stdout] and [stderr] and left the file system in
    some state. *)
Inductive run_result : Type :=
| RunRaises (e : exn)
| RunCompleted (returncode : Z) (stdout stderr : string) (fs' : node).

Record environment : Type := {
  tempdir : string;                       (* tempfile.gettempdir() *)
  app_dir : string;                       (* os.path.dirname(os.path.abspath(__file__)) *)
  uuid4 : string;                         (* str(uuid.uuid4()) of this request *)
  io_fault : io_op -> option exn;         (* disk full, permission denied, ... *)
  spawn : list string -> node -> run_result;
  decode_text : string -> string + string
    (* text=True: captured bytes decoded in the locale's encoding, newlines
       translated; on the left the message of the UnicodeDecodeError *)
}.

(** Module-level constants (POSIX deployment). *)
Definition OPENSCAD_PATH : string := "/usr/local/bin/openscad".
Definition MODELS_DIR (env : environment) : string :=
  os_path_join (tempdir env) "openscad_models".
Definition LIBRARIES_DIR (env : environment) : string :=
  os_path_join (app_dir env) "libraries".

Section Primitives.
Variable env : environment.

Definition faulty (op : io_op) : M unit :=
  match io_fault env op with
  | Some e => raise e
  | None => ret tt
  end.

Definition lift_fs (f : node -> exn + node) : M unit :=
  fun w =>
    match f (fs w) with
    | inr t' => (Returned tt, World t' (stl_cache w))
    | inl e => (Raised e, w)
    end.

Definition os_makedirs (p : string) : M unit :=
  faulty (MakeDirs p) ;;; lift_fs (fun t => FS.makedirs t p).

Definition os_listdir (p : string) : M (list string) :=
  faulty (ListDir p) ;;;
  fun w =>
    match FS.listdir (fs w) p with
    | inr names => (Returned names, w)
    | inl e => (Raised e, w)
    end.

Definition os_path_exists (p : string) : M bool :=
  fun w => (Returned (FS.exists_ (fs w) p), w).

Definition os_path_isdir (p : string) : M bool :=
  fun w => (Returned (FS.isdir (fs w) p), w).

(** [os.path.getsize(p)] *)
Definition os_path_getsize (p : string) : M nat :=
  fun w =>
    match FS.stat (fs w) p with
    | Some (File data) => (Returned (String.length data), w)
    | Some (Dir _) => (Returned 4096%nat, w)
    | None => (Raised (FileNotFoundError p), w)
    end.

(** [shutil.copy2(src, dst)]: a [dst] that is a directory receives the
    file under the source's base name. *)
Definition shutil_copy2 (src dst : string) : M unit :=
  faulty (CopyFile src dst) ;;;
  fun w =>
    match FS.stat (fs w) src with
    | Some (File data) =>
        let dst' := if FS.isdir (fs w) dst
                    then os_path_join dst (os_path_basename src) else dst in
        lift_fs (fun t => FS.write_file t dst' data) w
    | Some (Dir _) => (Raised (OSError ("IsADirectoryError: " ++ src)), w)
    | None => (Raised (FileNotFoundError src), w)
    end.

(** [with open(p, 'w', encoding='utf-8') as f: f.write(v)]: the file is
    created or truncated by [open]; [write] wants a [str]. *)
Definition write_text (p : string) (v : pyval) : M unit :=
  faulty (OpenWrite p) ;;;
  lift_fs (fun t => FS.write_file t p "") ;;;
  match v with
  | PyStr s =>
      faulty (WriteData p) ;;;
      lift_fs (fun t => FS.write_file t p s)
  | _ => raise (TypeError "write() argument must be str")
  end.

(** [subprocess.run(args, check=True, capture_output=True, text=True)]:
    once the process has ended, its captured output is decoded, standard
    output first, which raises [UnicodeDecodeError] on bytes that are no
    text; then [check] raises on a non-zero exit.  Returns the text of
    the standard output. *)
Definition subprocess_run_check (args : list string) : M string :=
  fun w =>
    match spawn env args (fs w) with
    | RunRaises e => (Raised e, w)
    | RunCompleted rc out err t' =>
        let w' := World t' (stl_cache w) in
        match decode_text env out with
        | inl msg => (Raised (UnicodeDecodeError msg), w')
        | inr stdout =>
            match decode_text env err with
            | inl msg => (Raised (UnicodeDecodeError msg), w')
            | inr stderr =>
                if Z.eqb rc 0 then (Returned stdout, w')
                else (Raised (CalledProcessError rc stderr), w')
            end
        end
    end.

(** [stl_cache[k] = v] *)
Definition cache_set (k v : string) : M unit :=
  fun w => (Returned tt, World (fs w) (<[k := v]> (stl_cache w))).

End Primitives.

(** ** Uploaded files: werkzeug's [FileStorage.save] *)

Module Upload.

(** [save(dst, buffer_size=16384)] opens [dst] for writing and copies
    the stream with [shutil.copyfileobj], one buffer at a time. *)
Definition buffer_size : nat := 128 * 128.

Fixpoint take (n : nat) (s : string) : string :=
  match n, s with
  | S n', String c s' => String c (take n' s')
  | _, _ => EmptyString
  end.

Fixpoint drop (n : nat) (s : string) : string :=
  match n, s with
  | S n', String _ s' => drop n' s'
  | _, _ => s
  end.

(** The buffers [stream.read(n)] returns until it returns nothing. *)
Fixpoint buffers_fuel (fuel n : nat) (s : string) : list string :=
  match fuel with
  | O => []
  | S fuel' =>
      match s with
      | EmptyString => []
      | String _ _ => take n s :: buffers_fuel fuel' n (drop n s)
      end
  end.

Definition buffers (n : nat) (s : string) : list string :=
  buffers_fuel (String.length s) n s.

End Upload.

Section Handlers.
Variable env : environment.

(** [dst.write(buf)] on the open destination: the buffer is appended. *)
Definition append_data (dst : string) (buf : string) : M unit :=
  faulty env (WriteData dst) ;;;
  lift_fs (fun t =>
    match FS.stat t dst with
    | Some (File d) => FS.write_file t dst (d ++ buf)
    | _ => inl (OSError ("write: " ++ dst))
    end).

(** [open(dst, "wb")] *)
Definition open_wb (dst : string) : M unit :=
  faulty env (SaveUpload dst) ;;;
  lift_fs (fun t => FS.write_file t dst "").

Definition FileStorage_save_buffered (n : nat) (dst : string) (content : string) : M unit :=
  open_wb dst ;;;
  for_each (Upload.buffers n content) (append_data dst).

Definition FileStorage_save (dst : string) (content : string) : M unit :=
  FileStorage_save_buffered Upload.buffer_size dst content.

(** The states of the world a concurrent reader can be scheduled in
    while [body] runs over [l]: the world after each completed step. *)
Fixpoint states_of {A} (l : list A) (body : A -> M unit) (w : world) : list world :=
  match l with
  | [] => []
  | x :: l' =>
      match body x w with
      | (Returned _, w') => w' :: states_of l' body w'
      | (Raised _, w') => [w']
      end
  end.

Definition save_states (n : nat) (dst : string) (content : string) (w : world)
  : list world :=
  match open_wb dst w with
  | (Returned _, w0) => w0 :: states_of (Upload.buffers n content) (append_data dst) w0
  | (Raised _, w0) => [w0]
  end.

(** ** Responses *)

(** What a handler hands back to flask-restful: a dictionary with a
    status (200 when none is given), or the file [send_file] read. *)
Inductive response : Type :=
| Json (status : Z) (body : pyval)
| SendFile (path : string) (data : string) (mimetype : string)
           (as_attachment : bool) (download_name : option string).

(** [flask.send_file(path, ...)] of an absolute path.  The file system
    modelled has no permissions and nothing runs between two statements
    of a handler, so a regular file that exists is read. *)
Definition send_file (path mimetype : string) (as_attachment : bool)
    (download_name : option string) : M response :=
  fun w =>
    match FS.stat (fs w) path with
    | Some (File data) =>
        (Returned (SendFile path data mimetype as_attachment download_name), w)
    | Some (Dir _) => (Raised (is_a_directory path), w)
    | None => (Raised (FileNotFoundError path), w)
    end.

(** [request.get_json()]: a body that is not JSON is refused by Flask
    with an exception. *)
Definition get_json (body : option pyval) : M pyval :=
  match body with
  | Some v => ret v
  | None => raise (BadRequest "Failed to decode JSON object")
  end.

(** [data[key]] *)
Definition getitem (data : pyval) (key : string) : M pyval :=
  match data with
  | PyDict d =>
      match dict_get key d with
      | Some v => ret v
      | None => raise (KeyError key)
      end
  | PyList _ => raise (TypeError "list indices must be integers or slices, not str")
  | PyStr _ => raise (TypeError "string indices must be integers, not 'str'")
  | _ => raise (TypeError "object is not subscriptable")
  end.

(** ** [RenderScad.post] *)
Definition RenderScad_post (body : option pyval) : M response :=
  data <- get_json body ;;
  scad_code <- getitem data "scadCode" ;;
  let model_id := uuid4 env in
  let model_dir := os_path_join (MODELS_DIR env) model_id in
  os_makedirs env model_dir ;;;
  let scad_file_path := os_path_join model_dir (model_id ++ ".scad") in
  let stl_file_path := os_path_join model_dir (model_id ++ ".stl") in
  lib_files <- os_listdir env (LIBRARIES_DIR env) ;;
  for_each lib_files (fun lib_file =>
    if Str.endswith lib_file ".scad" then
      let src_path := os_path_join (LIBRARIES_DIR env) lib_file in
      let dst_path := os_path_join model_dir lib_file in
      shutil_copy2 env src_path dst_path
    else ret tt) ;;;
  write_text env scad_file_path scad_code ;;;
  try_except
    (_ <- subprocess_run_check env [OPENSCAD_PATH; "-o"; stl_file_path; scad_file_path] ;;
     let stl_basename := os_path_basename stl_file_path in
     cache_set stl_basename stl_file_path ;;;
     created <- os_path_exists stl_file_path ;;
     if negb created then
       ret (Json 500 (PyDict [("error", PyStr "Failed to generate STL file")]))
     else
       ret (Json 200 (PyDict [("stlPath", PyStr ("/api/view3d?file=" ++ stl_basename))])))
    (fun e =>
       match e with
       | FileNotFoundError _ =>
           ret (Json 500 (PyDict [("error", PyStr "OpenSCAD executable not found")]))
       | CalledProcessError _ stderr =>
           ret (Json 500 (PyDict [("error", PyStr "OpenSCAD process failed");
                                  ("details", PyStr stderr)]))
       | _ =>
           ret (Json 500 (PyDict [("error", PyStr ("Unexpected error: " ++ str_exn e))]))
       end).

(** ** [GetStl.post] *)
Definition GetStl_post (body : option pyval) : M response :=
  data <- get_json body ;;
  scad_code <- getitem data "scadCode" ;;
  let model_id := uuid4 env in
  let model_dir := os_path_join (MODELS_DIR env) model_id in
  os_makedirs env model_dir ;;;
  let scad_file_path := os_path_join model_dir (model_id ++ ".scad") in
  let stl_file_path := os_path_join model_dir (model_id ++ ".stl") in
  lib_files <- os_listdir env (LIBRARIES_DIR env) ;;
  for_each lib_files (fun lib_file =>
    if Str.endswith lib_file ".scad" then
      let src_path := os_path_join (LIBRARIES_DIR env) lib_file in
      let dst_path := os_path_join model_dir lib_file in
      shutil_copy2 env src_path dst_path
    else ret tt) ;;;
  write_text env scad_file_path scad_code ;;;
  early <- try_except
    (_ <- subprocess_run_check env [OPENSCAD_PATH; "-o"; stl_file_path; scad_file_path] ;;
     created <- os_path_exists stl_file_path ;;
     if negb created then
       ret (Some (Json 500 (PyDict [("error", PyStr "Failed to generate STL file")])))
     else ret None)
    (fun e =>
       match e with
       | FileNotFoundError _ =>
           ret (Some (Json 500 (PyDict [("error", PyStr "OpenSCAD executable not found")])))
       | CalledProcessError _ stderr =>
           ret (Some (Json 500 (PyDict [("error", PyStr "OpenSCAD process failed");
                                        ("details", PyStr stderr)])))
       | _ =>
           ret (Some (Json 500 (PyDict [("error", PyStr ("Unexpected error: " ++ str_exn e))])))
       end) ;;
  match early with
  | Some r => ret r
  | None => send_file stl_file_path "application/octet-stream" true (Some "model.stl")
  end.

(** ** [View3D.get] *)

(** The [after_this_request] hook only sets headers of the response and
    is left out. *)

(** The [for ... in os.walk(MODELS_DIR): ... break / else:] loop. *)
Definition scan_models (filename : string) : M string :=
  fun w =>
    match find (fun e => existsb (String.eqb filename) (snd e))
               (FS.walk (fs w) (MODELS_DIR env)) with
    | Some (root, _, _) => (Returned (os_path_join root filename), w)
    | None => (Returned (os_path_join (MODELS_DIR env) filename), w)
    end.

(** The directory listing logged when a file is not found; every
    exception in it is swallowed. *)
Definition log_models_dir : M unit :=
  try_except
    (dir_contents <- os_listdir env (MODELS_DIR env) ;;
     dir_paths <- os_listdir env (MODELS_DIR env) ;;
     for_each dir_paths (fun dir_path =>
       let full_path := os_path_join (MODELS_DIR env) dir_path in
       d <- os_path_isdir full_path ;;
       if d then (_ <- os_listdir env full_path ;; ret tt) else ret tt))
    (fun _ => ret tt).

Definition View3D_get (file : option string) : M response :=
  match file with
  | None => ret (Json 400 (PyDict [("error", PyStr "Invalid file parameter")]))
  | Some filename =>
      if String.eqb filename "" || negb (Str.endswith filename ".stl") then
        ret (Json 400 (PyDict [("error", PyStr "Invalid file parameter")]))
      else
        stl_file_path <-
          (fun w =>
             match stl_cache w !! filename with
             | Some p => ret p w
             | None => scan_models filename w
             end) ;;
        found <- os_path_exists stl_file_path ;;
        if negb found then
          log_models_dir ;;;
          ret (Json 404 (PyDict [("error", PyStr "File not found")]))
        else
          try_except
            (file_size <- os_path_getsize stl_file_path ;;
             send_file stl_file_path "model/stl" false None)
            (fun e =>
               ret (Json 500 (PyDict [("error", PyStr ("Error serving STL file: " ++ str_exn e))])))
  end.

(** ** [UploadLibrary.post] *)

(** [file] is [request.files.get('file')]: the part's file name and
    content, when the form has such a part. *)
Definition UploadLibrary_post (file : option (string * string)) : M response :=
  match file with
  | None => ret (Json 400 (PyDict [("error", PyStr "No file part in the request")]))
  | Some (file_filename, content) =>
      if String.eqb file_filename "" then
        ret (Json 400 (PyDict [("error", PyStr "No file selected")]))
      else if negb (Str.endswith file_filename ".scad") then
        ret (Json 400 (PyDict [("error", PyStr "Only .scad files are allowed")]))
      else
        try_except
          (let filename := file_filename in
           let file_path := os_path_join (LIBRARIES_DIR env) filename in
           FileStorage_save file_path content ;;;
           ret (Json 200 (PyDict [("success", PyBool true);
                                  ("message", PyStr ("Library file " ++ filename
                                                     ++ " uploaded successfully"))])))
          (fun e =>
             ret (Json 500 (PyDict [("error", PyStr ("Error uploading library file: "
                                                     ++ str_exn e))])))
  end.

End Handlers.

(** ** Vocabulary for the properties *)

Section Vocabulary.
Variable env : environment.

(** The paths of the job a render request creates. *)
Definition model_dir : string := os_path_join (MODELS_DIR env) (uuid4 env).
Definition scad_file_path : string := os_path_join model_dir (uuid4 env ++ ".scad").
Definition stl_file_path : string := os_path_join model_dir (uuid4 env ++ ".stl").
Definition artifact_id : string := os_path_basename stl_file_path.
Definition compiler_args : list string :=
  [OPENSCAD_PATH; "-o"; stl_file_path; scad_file_path].

(** The statements of both render handlers that precede [try:]:
    reading the request, creating the workspace, copying the libraries
    and writing the source file. *)
Definition stage (body : option pyval) : M unit :=
  data <- get_json body ;;
  scad_code <- getitem data "scadCode" ;;
  os_makedirs env model_dir ;;;
  lib_files <- os_listdir env (LIBRARIES_DIR env) ;;
  for_each lib_files (fun lib_file =>
    if Str.endswith lib_file ".scad" then
      shutil_copy2 env (os_path_join (LIBRARIES_DIR env) lib_file)
                   (os_path_join model_dir lib_file)
    else ret tt) ;;;
  write_text env scad_file_path scad_code.

(** The results of the handlers, by the names the design gives them. *)
Definition RenderOk : response :=
  Json 200 (PyDict [("stlPath", PyStr ("/api/view3d?file=" ++ artifact_id))]).

End Vocabulary.

(** A computation that leaves [stl_cache] as it found it. *)
Definition keeps_cache {A} (m : M A) : Prop :=
  forall w, stl_cache (snd (m w)) = stl_cache w.

(** A computation that leaves the whole world as it found it. *)
Definition read_only {A} (m : M A) : Prop :=
  forall w, snd (m w) = w.

Definition ToolUnavailable : response :=
  Json 500 (PyDict [("error", PyStr "OpenSCAD executable not found")]).
Definition CompilationFailed (stderr : string) : response :=
  Json 500 (PyDict [("error", PyStr "OpenSCAD process failed"); ("details", PyStr stderr)]).
Definition OutputMissing : response :=
  Json 500 (PyDict [("error", PyStr "Failed to generate STL file")]).
Definition Unexpected (e : exn) : response :=
  Json 500 (PyDict [("error", PyStr ("Unexpected error: " ++ str_exn e))]).
Definition NotFound : response :=
  Json 404 (PyDict [("error", PyStr "File not found")]).
Definition InvalidFileParameter : response :=
  Json 400 (PyDict [("error", PyStr "Invalid file parameter")]).
Definition ServingError (e : exn) : response :=
  Json 500 (PyDict [("error", PyStr ("Error serving STL file: " ++ str_exn e))]).

(** How the [except] clauses of the render handlers answer an
    exception raised inside [try:]. *)
Definition render_except (e : exn) : response :=
  match e with
  | FileNotFoundError _ => ToolUnavailable
  | CalledProcessError _ stderr => CompilationFailed stderr
  | _ => Unexpected e
  end.

(** The texts of the captured output, or the message of the decoding
    error; standard output is decoded first. *)
Definition captured_text (env : environment) (out err : string)
  : string + (string * string) :=
  match decode_text env out with
  | inl msg => inl msg
  | inr stdout =>
      match decode_text env err with
      | inl msg => inl msg
      | inr stderr => inr (stdout, stderr)
      end
  end.

Section AfterStage.
Variable env : environment.

(** What [RenderScad.post] does once the workspace is staged. *)
Definition render_after_stage (w1 : world) : outcome response * world :=
  match spawn env (compiler_args env) (fs w1) with
  | RunRaises e => (Returned (render_except e), w1)
  | RunCompleted rc out err t' =>
      match captured_text env out err with
      | inl msg => (Returned (Unexpected (UnicodeDecodeError msg)), World t' (stl_cache w1))
      | inr (_, stderr) =>
          if Z.eqb rc 0 then
            (Returned (if FS.exists_ t' (stl_file_path env) then RenderOk env
                       else OutputMissing),
             World t' (<[artifact_id env := stl_file_path env]> (stl_cache w1)))
          else (Returned (CompilationFailed stderr), World t' (stl_cache w1))
      end
  end.

(** What [GetStl.post] does once the workspace is staged. *)
Definition getstl_after_stage (w1 : world) : outcome response * world :=
  match spawn env (compiler_args env) (fs w1) with
  | RunRaises e => (Returned (render_except e), w1)
  | RunCompleted rc out err t' =>
      match captured_text env out err with
      | inl msg => (Returned (Unexpected (UnicodeDecodeError msg)), World t' (stl_cache w1))
      | inr (_, stderr) =>
          if Z.eqb rc 0 then
            if FS.exists_ t' (stl_file_path env) then
              send_file (stl_file_path env) "application/octet-stream" true (Some "model.stl")
                        (World t' (stl_cache w1))
            else (Returned OutputMissing, World t' (stl_cache w1))
          else (Returned (CompilationFailed stderr), World t' (stl_cache w1))
      end
  end.

End AfterStage.

(** ** Concrete scenarios *)

Module Scenario.

Definition tree0 : node :=
  Dir [("tmp", Dir [("openscad_models",
          Dir [("j1", Dir [("j1.scad", File "cube(1);"); ("j1.stl", File "solid")])])]);
       ("app", Dir [("libraries", Dir [("util.scad", File "module u(){}")])])].

Definition w0 : world := World tree0 ∅.

(** A file system with a file outside the models root. *)
Definition tree_secret : node :=
  Dir [("tmp", Dir [("openscad_models", Dir [])]);
       ("etc", Dir [("key.stl", File "secret")])].

Definition req0 : option pyval := Some (PyDict [("scadCode", PyStr "cube(2);")]).

(** A compiler that writes [mesh] to its output path and exits zero. *)
Definition compiler_writing (mesh : string) (args : list string) (t : node) : run_result :=
  match args with
  | [_; _; out; _] =>
      match FS.write_file t out mesh with
      | inr t' => RunCompleted 0 "ok" "" t'
      | inl _ => RunCompleted 1 "" "cannot write" t
      end
  | _ => RunCompleted 1 "" "usage" t
  end.

Definition no_fault : io_op -> option exn := fun _ => None.

(** A UTF-8 locale.  The message is the one CPython gives for the only
    undecodable output of these scenarios, the single byte 0xff. *)
Definition utf8_locale (b : string) : string + string :=
  match Codec.utf8_text b with
  | Some text => inr text
  | None => inl "'utf-8' codec can't decode byte 0xff in position 0: invalid start byte"
  end.

Definition env_with (fault : io_op -> option exn)
    (run : list string -> node -> run_result) : environment :=
  {| tempdir := "/tmp"; app_dir := "/app";
     uuid4 := "0b0e7a52-6a5e-4f0e-9d8c-1f2e3d4c5b6a";
     io_fault := fault; spawn := run; decode_text := utf8_locale |}.

Definition env_good : environment := env_with no_fault (compiler_writing "solid cube").

(** The compiler exits zero and writes a file of zero bytes. *)
Definition env_empty_mesh : environment := env_with no_fault (compiler_writing "").

(** The compiler exits zero and writes nothing. *)
Definition env_silent : environment :=
  env_with no_fault (fun _ t => RunCompleted 0 "" "" t).

(** The compiler rejects the program. *)
Definition env_syntax_error : environment :=
  env_with no_fault (fun _ t => RunCompleted 1 "" "ERROR: syntax error" t).


(** The executable is present but may not be executed. *)
Definition env_not_executable : environment :=
  env_with no_fault (fun _ _ => RunRaises (OSError
    "[Errno 13] Permission denied: '/usr/local/bin/openscad'")).

(** The models directory may not be written to. *)
Definition env_read_only : environment :=
  env_with (fun op => match op with
                      | MakeDirs p => Some (OSError ("[Errno 13] Permission denied: '" ++ p ++ "'"))
                      | _ => None
                      end)
           (compiler_writing "solid cube").

(** The disk is full when the source file is written. *)
Definition env_disk_full : environment :=
  env_with (fun op => match op with
                      | WriteData _ => Some (OSError "[Errno 28] No space left on device")
                      | _ => None
                      end)
           (compiler_writing "solid cube").

(** The compiler writes its mesh, exits zero and prints a byte that is
    no UTF-8 text. *)
Definition env_undecodable : environment :=
  env_with no_fault (fun args t =>
    match compiler_writing "solid cube" args t with
    | RunCompleted rc _ err t' => RunCompleted rc (String "255" EmptyString) err t'
    | r => r
    end).

(** A directory under the models root bears the name of an artifact. *)
Definition tree_dir_like_artifact : node :=
  Dir [("tmp", Dir [("openscad_models", Dir [("d.stl", Dir [])])])].

(** A new version of the library [util.scad]. *)
Definition new_library : string := "module u(){ cube(1); }".

End Scenario.

(** A request body that is a JSON object with a ['scadCode'] entry. *)
Definition has_scadCode (body : option pyval) : bool :=
  match body with
  | Some (PyDict d) =>
      match dict_get "scadCode" d with Some _ => true | None => false end
  | _ => false
  end.

(** ** Vocabulary for Fetch *)

(** The check [View3D.get] makes on its [file] parameter. *)
Definition valid_filename (filename : string) : bool :=
  negb (String.eqb filename "") && Str.endswith filename ".stl".

(** The first directory met by the walk of the models root that lists
    [filename] among its files. *)
Definition scan_hit (env : environment) (filename : string) (t : node) : option string :=
  match find (fun e => existsb (String.eqb filename) (snd e))
             (FS.walk t (MODELS_DIR env)) with
  | Some (root, _, _) => Some root
  | None => None
  end.

(** The path [View3D.get] settles on: the index entry, else the scan's
    hit, else the name joined to the models root. *)
Definition fetch_path (env : environment) (filename : string) (w : world) : string :=
  match stl_cache w !! filename with
  | Some p => p
  | None =>
      match scan_hit env filename (fs w) with
      | Some root => os_path_join root filename
      | None => os_path_join (MODELS_DIR env) filename
      end
  end.

(** What is answered for the path settled on. *)
Definition serve (p : string) (t : node) : response :=
  match FS.stat t p with
  | None => NotFound
  | Some (File data) => SendFile p data "model/stl" false None
  | Some (Dir _) => ServingError (is_a_directory p)
  end.

(** ** Vocabulary for RegisterLibrary *)

(** The check [UploadLibrary.post] makes on the uploaded file's name. *)
Definition valid_library_name (name : string) : bool :=
  negb (String.eqb name "") && Str.endswith name ".scad".

Definition InvalidInput (msg : string) : response :=
  Json 400 (PyDict [("error", PyStr msg)]).
Definition UploadOk (filename : string) : response :=
  Json 200 (PyDict [("success", PyBool true);
                    ("message", PyStr ("Library file " ++ filename
                                       ++ " uploaded successfully"))]).
Definition UploadFailed (e : exn) : response :=
  Json 500 (PyDict [("error", PyStr ("Error uploading library file: " ++ str_exn e))]).

(** ** Well-formed directories *)

(** A legal entry name: not empty, not ["."] or [".."], no separator. *)
Definition valid_name (n : string) : bool :=
  negb (String.eqb n "") && negb (String.eqb n ".") && negb (String.eqb n "..")
  && negb (Str.has_sep n).

Fixpoint distinct (l : list string) : bool :=
  match l with
  | [] => true
  | x :: l' => negb (existsb (String.eqb x) l') && distinct l'
  end.

(** In every directory below [t] the names are legal and distinct. *)
Fixpoint wf_node (t : node) : bool :=
  match t with
  | File _ => true
  | Dir es =>
      distinct (map fst es) && forallb valid_name (map fst es) &&
      (fix wf_entries (l : list (string * node)) : bool :=
         match l with
         | [] => true
         | (_, child) :: l' => wf_node child && wf_entries l'
         end) es
  end.

(** Induction on trees, with the hypothesis for every entry of a
    directory. *)
Fixpoint node_ind' (P : node -> Prop)
    (Hfile : forall d, P (File d))
    (Hdir : forall es, Forall (fun e => P (snd e)) es -> P (Dir es))
    (t : node) : P t :=
  match t with
  | File d => Hfile d
  | Dir es =>
      Hdir es
        ((fix go (l : list (string * node)) : Forall (fun e => P (snd e)) l :=
            match l with
            | [] => List.Forall_nil _
            | (n, c) :: l' =>
                List.Forall_cons (fun e => P (snd e)) (n, c) l' (node_ind' P Hfile Hdir c) (go l')
            end) es)
  end.


(** Some directory below [t] has an entry named [f]. *)
Fixpoint has_entry_named (f : string) (t : node) : bool :=
  match t with
  | File _ => false
  | Dir es =>
      (fix any_entry (l : list (string * node)) : bool :=
         match l with
         | [] => false
         | (n, child) :: l' =>
             String.eqb n f || has_entry_named f child || any_entry l'
         end) es
  end.

(** ** The rest of the module *)

(** [HelloWorld.get] *)
Definition HelloWorld_get : M response :=
  ret (Json 200 (PyDict [("message", PyStr "OpenSCAD API is running!")])).

(** The statements run when the module is imported: both directories
    are created if they are missing ([exist_ok=True]). *)
Definition startup (env : environment) : M unit :=
  os_makedirs env (MODELS_DIR env) ;;;
  os_makedirs env (LIBRARIES_DIR env).

Module Scenario2.

(** A compiler that exits zero and leaves a directory at its output
    path. *)
Definition compiler_mkdir (args : list string) (t : node) : run_result :=
  match args with
  | [_; _; out; _] =>
      match FS.makedirs t out with
      | inr t' => RunCompleted 0 "" "" t'
      | inl _ => RunCompleted 1 "" "cannot create" t
      end
  | _ => RunCompleted 1 "" "usage" t
  end.

Definition env_mkdir : environment :=
  Scenario.env_with Scenario.no_fault compiler_mkdir.

(** A second request, with its own identifier. *)
Definition env_second : environment :=
  {| tempdir := "/tmp"; app_dir := "/app";
     uuid4 := "7d4f0c1e-2b3a-4c5d-8e9f-a0b1c2d3e4f5";
     io_fault := Scenario.no_fault;
     spawn := Scenario.compiler_writing "solid sphere";
     decode_text := Scenario.utf8_locale |}.

(** A file system as the module leaves it when imported on an empty disk
    with [/tmp] and [/app]. *)
Definition tree_bare : node := Dir [("tmp", Dir []); ("app", Dir [])].

End Scenario2.

(** ** Vocabulary for the workspace *)

(** The body of the loop that copies the library pool. *)
Definition copy_library (env : environment) (lib_file : string) : M unit :=
  if Str.endswith lib_file ".scad" then
    shutil_copy2 env (os_path_join (LIBRARIES_DIR env) lib_file)
                 (os_path_join (model_dir env) lib_file)
  else ret tt.

(** A computation that neither makes nor removes a directory, and so
    leaves the resolution of every path as it was. *)
Definition keeps_dirs {A} (m : M A) : Prop :=
  forall w,
    (forall c, FS.is_dir (fs (snd (m w))) c = FS.is_dir (fs w) c) /\
    (forall p, FS.resolve (fs (snd (m w))) p = FS.resolve (fs w) p).

(** The tree [t] has the directories of [tm] and the regular files [tm]
    has directly in the directory at [loc]. *)
Definition same_dirs_and_pool (tm : node) (loc : list string) (t : node) : Prop :=
  (forall c, FS.is_dir t c = FS.is_dir tm c) /\
  (forall p, FS.resolve t p = FS.resolve tm p) /\
  (forall n d, FS.get_node tm (loc ++ [n]) = Some (File d) ->
               FS.get_node t (loc ++ [n]) = Some (File d)).
(** * Properties *)

(** ** Strings and paths *)

Module StrFacts.
Import Str.

Lemma append_nil_l (b : string) : ("" ++ b)%string = b.
Proof. reflexivity. Qed.

Lemma append_cons x (a b : string) : (String x a ++ b)%string = String x (a ++ b).
Proof. reflexivity. Qed.

Ltac app_simpl := rewrite ?append_cons, ?append_nil_l; simpl.

Lemma append_assoc (a b c : string) : ((a ++ b) ++ c = a ++ (b ++ c))%string.
Proof. induction a as [|x a IH]; app_simpl; [reflexivity | f_equal; exact IH]. Qed.

Lemma append_nil_r (a : string) : (a ++ "")%string = a.
Proof. induction a as [|x a IH]; app_simpl; [reflexivity | f_equal; exact IH]. Qed.

Lemma endswith_refl s : endswith s s = true.
Proof. destruct s; simpl; [reflexivity|]. rewrite Ascii.eqb_refl, String.eqb_refl. reflexivity. Qed.

Lemma endswith_app a suf : endswith (a ++ suf) suf = true.
Proof.
  induction a as [|c a IH]; app_simpl.
  - apply endswith_refl.
  - rewrite IH. apply orb_true_r.
Qed.

Lemma split_sep_nonempty s : split_sep s <> [].
Proof.
  destruct s as [|c s]; simpl; [discriminate|].
  destruct (Ascii.eqb c "/"); [discriminate|].
  destruct (split_sep s); discriminate.
Qed.

Lemma split_sep_app a b : split_sep (a ++ "/" ++ b) = split_sep a ++ split_sep b.
Proof.
  induction a as [|c a IH]; [|rewrite append_cons; simpl].
  - reflexivity.
  - rewrite IH. destruct (Ascii.eqb c "/"); [reflexivity|].
    pose proof (split_sep_nonempty a) as Hne.
    destruct (split_sep a); [contradiction | reflexivity].
Qed.

Lemma split_sep_nosep s : has_sep s = false -> split_sep s = [s].
Proof.
  induction s as [|c s IH]; simpl; [reflexivity|].
  intro H. apply orb_false_iff in H as [Hc Hs].
  rewrite Hc, (IH Hs). reflexivity.
Qed.

Lemma split_sep_app_nosep a b :
  has_sep b = false ->
  split_sep (a ++ b) = removelast (split_sep a) ++ [(List.last (split_sep a) "" ++ b)%string].
Proof.
  intro Hb. induction a as [|c a IH]; app_simpl.
  - apply split_sep_nosep. exact Hb.
  - rewrite IH. pose proof (split_sep_nonempty a) as Hne.
    destruct (Ascii.eqb c "/").
    + destruct (split_sep a) as [|x l]; [contradiction | reflexivity].
    + destruct (split_sep a) as [|x l]; [contradiction|].
      destruct l; reflexivity.
Qed.

Lemma last_snoc {A} (l : list A) (x d : A) : List.last (l ++ [x]) d = x.
Proof. induction l as [|y l IH]; [reflexivity|]. simpl. destruct (l ++ [x]) eqn:E; [destruct l; discriminate | exact IH]. Qed.

Lemma basename_app_nosep a b :
  has_sep b = false -> os_path_basename (a ++ b) = (os_path_basename a ++ b)%string.
Proof.
  intro Hb. unfold os_path_basename.
  rewrite (split_sep_app_nosep a b Hb). apply last_snoc.
Qed.

Lemma join_is_app a b : exists pre, os_path_join a b = (pre ++ b)%string.
Proof.
  unfold os_path_join. destruct (startswith b "/").
  - exists "". reflexivity.
  - destruct (String.eqb a "" || endswith a "/").
    + exists a. reflexivity.
    + exists (a ++ "/")%string. rewrite append_assoc. reflexivity.
Qed.

Lemma app_nonempty a b : b <> "" -> (a ++ b)%string <> "".
Proof. destruct a; app_simpl; [auto | discriminate]. Qed.

Lemma eqb_app_nonempty a b : b <> "" -> String.eqb (a ++ b)%string "" = false.
Proof. intro H. apply String.eqb_neq. apply app_nonempty. exact H. Qed.

End StrFacts.

(** The artifact id of a job is its file name: it ends in [".stl"]. *)
Lemma artifact_id_is_stl env :
  exists stem, artifact_id env = (stem ++ ".stl")%string.
Proof.
  unfold artifact_id, stl_file_path.
  destruct (StrFacts.join_is_app (model_dir env) (uuid4 env ++ ".stl")) as [pre ->].
  rewrite <- StrFacts.append_assoc.
  rewrite StrFacts.basename_app_nosep by reflexivity.
  eexists. reflexivity.
Qed.

(** ** Files written are files read *)

Module FSFacts.
Import FS.

Lemma lookup_set_entry_eq c x es : lookup_entry c (set_entry c x es) = Some x.
Proof.
  induction es as [|[n y] es IH]; simpl.
  - rewrite String.eqb_refl. reflexivity.
  - destruct (String.eqb_spec n c) as [->|Hn]; simpl.
    + rewrite String.eqb_refl. reflexivity.
    + destruct (String.eqb_spec n c); [contradiction | exact IH].
Qed.

Lemma lookup_set_entry_ne c c' x es :
  c <> c' -> lookup_entry c' (set_entry c x es) = lookup_entry c' es.
Proof.
  intro Hne. induction es as [|[n y] es IH]; simpl.
  - destruct (String.eqb_spec c c'); [contradiction | reflexivity].
  - destruct (String.eqb_spec n c) as [->|Hn]; simpl.
    + destruct (String.eqb_spec c c'); [contradiction | reflexivity].
    + destruct (String.eqb_spec n c'); [reflexivity | exact IH].
Qed.

Lemma get_put_same q : forall t n t', put_node t q n = Some t' -> get_node t' q = Some n.
Proof.
  induction q as [|c q IH]; intros t n t' H; simpl in *.
  - congruence.
  - destruct t as [d|es]; [discriminate|].
    destruct q as [|c' q'].
    + inversion H; subst. simpl. rewrite lookup_set_entry_eq. reflexivity.
    + destruct (lookup_entry c es) as [m|] eqn:Hm; [|discriminate].
      destruct (put_node m (c' :: q') n) as [m'|] eqn:Hp; [|discriminate].
      inversion H; subst. cbn [get_node]. rewrite lookup_set_entry_eq.
      apply (IH m n m' Hp).
Qed.

Lemma put_exists q : forall t x n,
  q <> [] -> get_node t q = Some x -> exists t', put_node t q n = Some t'.
Proof.
  induction q as [|c q IH]; intros t x n Hq H; [contradiction|].
  simpl in *. destruct t as [d|es]; [discriminate|].
  destruct q as [|c' q'].
  - eexists. reflexivity.
  - destruct (lookup_entry c es) as [m|]; [|discriminate].
    destruct (IH m x n) as [m' Hm']; [discriminate | exact H |].
    rewrite Hm'. eexists. reflexivity.
Qed.

(** Writing a regular file where no directory stood leaves every
    directory a directory and makes none. *)
Lemma is_dir_put_file q : forall t t' d cur,
  put_node t q (File d) = Some t' ->
  (forall es, get_node t q <> Some (Dir es)) ->
  is_dir t' cur = is_dir t cur.
Proof.
  unfold is_dir.
  induction q as [|c q IH]; intros t t' d cur Hp Hnd.
  - simpl in *. inversion Hp; subst.
    destruct t as [d0|es]; [|exfalso; exact (Hnd es eq_refl)].
    destruct cur; reflexivity.
  - simpl in Hp. destruct t as [d0|es]; [discriminate|].
    destruct cur as [|c0 cur].
    { destruct q; [inversion Hp; reflexivity|].
      destruct (lookup_entry c es); [|discriminate].
      destruct (put_node n (s :: q) (File d)); [|discriminate].
      inversion Hp. reflexivity. }
    destruct (String.eqb_spec c c0) as [->|Hne].
    + destruct q as [|c' q'].
      * inversion Hp; subst. cbn [get_node]. rewrite lookup_set_entry_eq.
        simpl in Hnd.
        destruct (lookup_entry c0 es) as [[d1|es1]|].
        -- destruct cur; reflexivity.
        -- exfalso. exact (Hnd es1 eq_refl).
        -- destruct cur; reflexivity.
      * destruct (lookup_entry c0 es) as [m|] eqn:Hm; [|discriminate].
        destruct (put_node m (c' :: q') (File d)) as [m'|] eqn:Hp'; [|discriminate].
        inversion Hp; subst. cbn [get_node]. rewrite lookup_set_entry_eq, Hm.
        apply (IH m m' d cur Hp').
        intros es1 H1. apply (Hnd es1). cbn [get_node]. rewrite Hm. exact H1.
    + assert (Ht' : exists x, t' = Dir (set_entry c x es)).
      { destruct q; [inversion Hp; eexists; reflexivity|].
        destruct (lookup_entry c es); [|discriminate].
        destruct (put_node n (s :: q) (File d)); [|discriminate].
        inversion Hp. eexists; reflexivity. }
      destruct Ht' as [x ->]. cbn [get_node].
      rewrite lookup_set_entry_ne by exact Hne. reflexivity.
Qed.

Lemma canon_put_file q t t' d :
  put_node t q (File d) = Some t' ->
  (forall es, get_node t q <> Some (Dir es)) ->
  forall fields cur, canon t' cur fields = canon t cur fields.
Proof.
  intros Hp Hnd. induction fields as [|f fs IH]; intro cur; simpl; [reflexivity|].
  rewrite (is_dir_put_file q t t' d cur Hp Hnd).
  destruct (is_dir t cur); [|reflexivity].
  destruct (String.eqb f "" || String.eqb f "."); [apply IH|].
  destruct (String.eqb f ".."); apply IH.
Qed.

(** The parts of a successful [write_file]. *)
Lemma write_file_inv t p data t' :
  write_file t p data = inr t' ->
  exists q, resolve t p = Some q /\ put_node t q (File data) = Some t' /\
            (forall es, get_node t q <> Some (Dir es)).
Proof.
  unfold write_file. destruct (resolve t p) as [q|]; [|discriminate].
  intro H. exists q. split; [reflexivity|].
  destruct q as [|c q]; [discriminate|].
  destruct (get_node t (c :: q)) as [[d0|es0]|] eqn:Hg;
    try discriminate;
    (destruct (put_node t (c :: q) (File data)) as [t1|]; [|discriminate]);
    inversion H; subst; (split; [reflexivity|]); intros es; discriminate.
Qed.

Lemma write_file_resolve t p data t' :
  write_file t p data = inr t' -> forall p', resolve t' p' = resolve t p'.
Proof.
  intro H. destruct (write_file_inv _ _ _ _ H) as (q & _ & Hp & Hnd).
  intro p'. unfold resolve. destruct (String.eqb p' ""); [reflexivity|].
  apply (canon_put_file q t t' data Hp Hnd).
Qed.

(** After a successful write the path holds the data written. *)
Lemma write_file_stat t p data t' :
  write_file t p data = inr t' -> stat t' p = Some (File data).
Proof.
  intro H. unfold stat. rewrite (write_file_resolve _ _ _ _ H).
  destruct (write_file_inv _ _ _ _ H) as (q & Hr & Hp & _).
  rewrite Hr. apply (get_put_same q t (File data) t' Hp).
Qed.

Lemma canon_nonempty_root t fields q :
  fields <> [] -> canon t [] fields = Some q -> is_dir t [] = true.
Proof.
  destruct fields as [|f fs]; [contradiction|]. simpl.
  destruct t; [discriminate | reflexivity].
Qed.

(** A regular file that exists can be written over. *)
Lemma write_file_over t p d0 data :
  stat t p = Some (File d0) -> exists t', write_file t p data = inr t'.
Proof.
  unfold stat, write_file. destruct (resolve t p) as [q|] eqn:Hr; [|discriminate].
  intro Hg.
  destruct q as [|c q]; [|rewrite Hg].
  - exfalso. unfold resolve in Hr. destruct (String.eqb p ""); [discriminate|].
    pose proof (canon_nonempty_root _ _ _ (StrFacts.split_sep_nonempty p) Hr) as Hd.
    simpl in Hg. inversion Hg; subst. discriminate.
  - destruct (put_exists (c :: q) t (File d0) (File data)) as [t' Ht'];
      [discriminate | exact Hg |].
    rewrite Ht'. eexists. reflexivity.
Qed.

End FSFacts.

(** ** Saving an upload, buffer by buffer *)

Module UploadFacts.
Import Upload.

Lemma take_drop n : forall s, (take n s ++ drop n s)%string = s.
Proof.
  induction n as [|n IH]; intros [|c s]; try reflexivity.
  simpl. rewrite StrFacts.append_cons, IH. reflexivity.
Qed.

Lemma length_drop n : forall s,
  (0 < n)%nat -> s <> "" -> (String.length (drop n s) < String.length s)%nat.
Proof.
  induction n as [|n IH]; intros [|c s] Hn Hs; try lia; try contradiction.
  simpl. destruct n as [|n'].
  - destruct s; simpl; lia.
  - destruct s as [|c' s']; [simpl; lia|].
    specialize (IH (String c' s') ltac:(lia) ltac:(discriminate)). simpl in *. lia.
Qed.

Lemma last_default {A} (l : list A) : forall (x d d' : A),
  List.last (x :: l) d = List.last (x :: l) d'.
Proof. induction l as [|y l IH]; intros x d d'; [reflexivity|]. exact (IH y d d'). Qed.

Section Steps.
Variable env : environment.
Variable dst : string.

(** One buffer written: the file grows by the buffer, or the write
    fails and nothing changes. *)
Lemma append_data_step buf w acc :
  FS.stat (fs w) dst = Some (File acc) ->
  match append_data env dst buf w with
  | (Returned _, w') =>
      FS.stat (fs w') dst = Some (File (acc ++ buf)) /\ stl_cache w' = stl_cache w /\
      io_fault env (WriteData dst) = None
  | (Raised e, w') => w' = w /\ io_fault env (WriteData dst) = Some e
  end.
Proof.
  intro Hst. unfold append_data, bind, faulty, lift_fs.
  destruct (io_fault env (WriteData dst)) as [e|]; simpl; [split; reflexivity|].
  rewrite Hst.
  destruct (FSFacts.write_file_over (fs w) dst acc (acc ++ buf) Hst) as [t' Ht'].
  rewrite Ht'. simpl. split; [|split; reflexivity].
  apply (FSFacts.write_file_stat _ _ _ _ Ht').
Qed.

(** The buffers of [rest] written after [acc]: every state met on the
    way holds a prefix of [acc ++ rest] at [dst], the last one holds all
    of it when no write fails, and the run of [for_each] ends in the
    last state. *)
Lemma append_steps n (Hn : (0 < n)%nat) : forall fuel rest acc w,
  (String.length rest <= fuel)%nat ->
  FS.stat (fs w) dst = Some (File acc) ->
  let bufs := buffers_fuel fuel n rest in
  Forall (fun s => stl_cache s = stl_cache w /\
                   exists acc' rest', FS.stat (fs s) dst = Some (File acc') /\
                                      (acc' ++ rest')%string = (acc ++ rest)%string)
         (states_of bufs (append_data env dst) w) /\
  snd (for_each bufs (append_data env dst) w)
    = List.last (states_of bufs (append_data env dst) w) w /\
  match for_each bufs (append_data env dst) w with
  | (Returned _, w') =>
      FS.stat (fs w') dst = Some (File (acc ++ rest)) /\ stl_cache w' = stl_cache w
  | (Raised e, w') =>
      stl_cache w' = stl_cache w /\ io_fault env (WriteData dst) = Some e
  end.
Proof.
  induction fuel as [|fuel IH]; intros rest acc w Hlen Hst; simpl.
  - destruct rest; [|simpl in Hlen; lia].
    rewrite StrFacts.append_nil_r. repeat split; [constructor | exact Hst].
  - destruct rest as [|c rest'].
    { rewrite StrFacts.append_nil_r. repeat split; [constructor | exact Hst]. }
    set (rest := String c rest') in *.
    pose proof (append_data_step (take n rest) w acc Hst) as Hstep.
    cbn [states_of for_each]. unfold bind.
    destruct (append_data env dst (take n rest) w) as [[[]|e] w1].
    + destruct Hstep as (Hst1 & Hc1 & Hf).
      assert (Hlen1 : (String.length (drop n rest) <= fuel)%nat).
      { pose proof (length_drop n rest Hn ltac:(discriminate)). lia. }
      specialize (IH (drop n rest) (acc ++ take n rest)%string w1 Hlen1 Hst1).
      simpl in IH. rewrite StrFacts.append_assoc, take_drop in IH.
      destruct IH as (Hall & Hlast & Hend).
      split; [|split].
      * constructor.
        -- split; [exact Hc1|]. exists (acc ++ take n rest)%string, (drop n rest).
           split; [exact Hst1|]. rewrite StrFacts.append_assoc, take_drop. reflexivity.
        -- eapply Forall_impl; [exact Hall|]. intros s [Hs1 Hs2]. split; [congruence | exact Hs2].
      * rewrite Hlast.
        destruct (states_of (buffers_fuel fuel n (drop n rest)) (append_data env dst) w1)
          as [|w0 l]; [reflexivity|].
        change (List.last (w1 :: w0 :: l) w) with (List.last (w0 :: l) w).
        apply last_default.
      * destruct (for_each (buffers_fuel fuel n (drop n rest)) (append_data env dst) w1)
          as [[[]|e] w2]; destruct Hend as [H1 H2].
        -- split; [exact H1 | congruence].
        -- split; [congruence | exact H2].
    + destruct Hstep as [-> Hf]. split; [|split].
      * constructor; [|constructor]. split; [reflexivity|].
        exists acc, rest. split; [exact Hst | reflexivity].
      * reflexivity.
      * split; [reflexivity | exact Hf].
Qed.

End Steps.

(** The joined buffers are the payload. *)
Lemma save_buffered_run env n dst content w :
  (0 < n)%nat ->
  match FileStorage_save_buffered env n dst content w with
  | (Returned _, w') =>
      FS.stat (fs w') dst = Some (File content) /\ stl_cache w' = stl_cache w
  | (Raised e, w') => stl_cache w' = stl_cache w
  end.
Proof.
  intro Hn. unfold FileStorage_save_buffered, bind at 1.
  destruct (open_wb env dst w) as [[[]|e] w0] eqn:Ho.
  - unfold open_wb, bind, faulty, lift_fs in Ho.
    destruct (io_fault env (SaveUpload dst)); [discriminate|]. simpl in Ho.
    destruct (FS.write_file (fs w) dst "") as [e|t0] eqn:Hw; [discriminate|].
    inversion Ho; subst; clear Ho.
    pose proof (FSFacts.write_file_stat _ _ _ _ Hw) as Hst.
    destruct (append_steps env dst n Hn (String.length content) content "" (World t0 (stl_cache w))
                (le_n _) Hst) as (_ & _ & H).
    unfold buffers.
    destruct (for_each _ (append_data env dst) (World t0 (stl_cache w))) as [[[]|e] w1].
    + exact H.
    + exact (proj1 H).
  - unfold open_wb, bind, faulty, lift_fs in Ho.
    destruct (io_fault env (SaveUpload dst)); [inversion Ho; reflexivity|]. simpl in Ho.
    destruct (FS.write_file (fs w) dst ""); inversion Ho. reflexivity.
Qed.

(** Without a fault, a destination that can be opened is written in full. *)
Lemma save_buffered_ok env n dst content w t0 :
  (0 < n)%nat ->
  io_fault env (SaveUpload dst) = None ->
  io_fault env (WriteData dst) = None ->
  FS.write_file (fs w) dst "" = inr t0 ->
  exists w', FileStorage_save_buffered env n dst content w = (Returned tt, w').
Proof.
  intros Hn Hf1 Hf2 Hw. unfold FileStorage_save_buffered, bind at 1.
  unfold open_wb, bind at 1, faulty, lift_fs. rewrite Hf1. simpl. rewrite Hw.
  pose proof (FSFacts.write_file_stat _ _ _ _ Hw) as Hst.
  destruct (append_steps env dst n Hn (String.length content) content "" (World t0 (stl_cache w))
              (le_n _) Hst) as (_ & _ & H).
  unfold buffers.
  destruct (for_each _ (append_data env dst) (World t0 (stl_cache w))) as [[[]|e] w1].
  - eexists. reflexivity.
  - destruct H as [_ H]. congruence.
Qed.

End UploadFacts.

(** ** Walking the models root *)

Module WalkFacts.
Import FS.

Lemma walk_node_dir top es :
  walk_node top (Dir es) =
  (top, dirnames es, filenames es) ::
  flat_map (fun e => walk_node (os_path_join top (fst e)) (snd e)) es.
Proof.
  simpl. f_equal. induction es as [|[n c] es IH]; [reflexivity|].
  simpl. rewrite IH. reflexivity.
Qed.

Lemma wf_dir_inv es :
  wf_node (Dir es) = true ->
  distinct (map fst es) = true /\
  forallb valid_name (map fst es) = true /\
  Forall (fun e => wf_node (snd e) = true) es.
Proof.
  simpl. intro H. apply andb_true_iff in H as [H H3]. apply andb_true_iff in H as [H1 H2].
  split; [exact H1|]. split; [exact H2|].
  clear H1 H2. induction es as [|[n c] es IH]; [constructor|].
  apply andb_true_iff in H3 as [Hc Hr]. constructor; [exact Hc | exact (IH Hr)].
Qed.

Lemma existsb_eqb_In x l : existsb (String.eqb x) l = true <-> In x l.
Proof.
  rewrite existsb_exists. split.
  - intros (y & Hy & He). apply String.eqb_eq in He. subst. exact Hy.
  - intro H. exists x. split; [exact H | apply String.eqb_refl].
Qed.

Lemma lookup_entry_In n c es :
  distinct (map fst es) = true -> In (n, c) es -> lookup_entry n es = Some c.
Proof.
  induction es as [|[m y] es IH]; simpl; [contradiction|].
  intros Hd [Hin|Hin].
  - inversion Hin; subst. rewrite String.eqb_refl. reflexivity.
  - apply andb_true_iff in Hd as [Hm Hd].
    destruct (String.eqb_spec m n) as [->|Hne]; [|exact (IH Hd Hin)].
    exfalso. apply negb_true_iff in Hm.
    assert (existsb (String.eqb n) (map fst es) = true) as E.
    { apply existsb_eqb_In. apply in_map_iff. exists (n, c). split; [reflexivity | exact Hin]. }
    congruence.
Qed.

Lemma lookup_entry_some n c es : lookup_entry n es = Some c -> In (n, c) es.
Proof.
  induction es as [|[m y] es IH]; simpl; [discriminate|].
  destruct (String.eqb_spec m n) as [->|Hne].
  - intro H; inversion H; subst. left; reflexivity.
  - intro H. right. exact (IH H).
Qed.

Lemma filenames_In f es : In f (filenames es) <-> exists data, In (f, File data) es.
Proof.
  unfold filenames. rewrite in_flat_map. split.
  - intros ([n c] & Hin & Hf). destruct c as [data|es']; simpl in Hf; [|contradiction].
    destruct Hf as [<-|[]]. exists data. exact Hin.
  - intros [data Hin]. exists (f, File data). split; [exact Hin | left; reflexivity].
Qed.

Lemma get_node_app p : forall t q,
  get_node t (p ++ q) = match get_node t p with Some m => get_node m q | None => None end.
Proof.
  induction p as [|c p IH]; intros t q; simpl; [reflexivity|].
  destruct t as [d|es]; [reflexivity|].
  destruct (lookup_entry c es); [apply IH | reflexivity].
Qed.

Lemma canon_app t l1 : forall cur l2,
  canon t cur (l1 ++ l2) =
  match canon t cur l1 with Some q => canon t q l2 | None => None end.
Proof.
  induction l1 as [|f l1 IH]; intros cur l2; simpl; [reflexivity|].
  destruct (is_dir t cur); [|reflexivity].
  destruct (String.eqb f "" || String.eqb f "."); [apply IH|].
  destruct (String.eqb f ".."); apply IH.
Qed.

Lemma valid_name_inv n :
  valid_name n = true ->
  String.eqb n "" = false /\ String.eqb n "." = false /\ String.eqb n ".." = false /\
  Str.has_sep n = false.
Proof.
  unfold valid_name. intro H.
  repeat (apply andb_true_iff in H as [H ?]).
  repeat split; apply negb_true_iff; assumption.
Qed.

Lemma nosep_startswith n :
  Str.has_sep n = false -> Str.startswith n "/" = false.
Proof.
  destruct n as [|c n]; [reflexivity|].
  cbn -[Ascii.eqb]. intro H. apply orb_false_iff in H as [Hc _].
  rewrite Ascii.eqb_sym, Hc. reflexivity.
Qed.

Lemma nosep_endswith n : Str.has_sep n = false -> Str.endswith n "/" = false.
Proof.
  induction n as [|c n IH]; simpl; [reflexivity|].
  intro H. apply orb_false_iff in H as [Hc Hn].
  rewrite (IH Hn), Hc. reflexivity.
Qed.

Lemma endswith_app_nosep a n :
  n <> "" -> Str.has_sep n = false -> Str.endswith (a ++ n) "/" = false.
Proof.
  intros Hne Hn. induction a as [|c a IH].
  - rewrite StrFacts.append_nil_l. apply nosep_endswith. exact Hn.
  - rewrite StrFacts.append_cons. simpl. rewrite IH.
    destruct (Ascii.eqb c "/"); [|reflexivity].
    rewrite orb_false_r. apply String.eqb_neq. apply StrFacts.app_nonempty. exact Hne.
Qed.

(** Joining a legal name to a directory path. *)
Lemma join_name top n :
  String.eqb top "" = false -> Str.endswith top "/" = false -> valid_name n = true ->
  os_path_join top n = (top ++ "/" ++ n)%string /\
  Str.endswith (os_path_join top n) "/" = false.
Proof.
  intros Ht He Hv. destruct (valid_name_inv n Hv) as (Hn & _ & _ & Hs).
  assert (E : os_path_join top n = (top ++ "/" ++ n)%string).
  { unfold os_path_join. rewrite (nosep_startswith n Hs), Ht, He. reflexivity. }
  split; [exact E|]. rewrite E.
  rewrite <- StrFacts.append_assoc. apply endswith_app_nosep; [|exact Hs].
  apply String.eqb_neq. exact Hn.
Qed.

Lemma resolve_nonempty t p q : resolve t p = Some q -> String.eqb p "" = false.
Proof. unfold resolve. destruct (String.eqb p ""); [discriminate | reflexivity]. Qed.

(** The entry [n] of the directory [top] resolves below it. *)
Lemma resolve_join t top loc n :
  resolve t top = Some loc -> Str.endswith top "/" = false -> valid_name n = true ->
  resolve t (os_path_join top n) = if is_dir t loc then Some (loc ++ [n]) else None.
Proof.
  intros Hr He Hv. pose proof (resolve_nonempty _ _ _ Hr) as Ht.
  destruct (join_name top n Ht He Hv) as [-> _].
  destruct (valid_name_inv n Hv) as (Hn & Hdot & Hdd & Hs).
  unfold resolve in *. rewrite Ht in Hr.
  rewrite StrFacts.eqb_app_nonempty by discriminate.
  rewrite StrFacts.split_sep_app, (StrFacts.split_sep_nosep n Hs), canon_app, Hr.
  simpl. rewrite Hn, Hdot, Hdd. reflexivity.
Qed.

Section Walk.
Variable t : node.

(** Every file the walk lists is a regular file below the directory
    walked, and its joined path leads to it. *)
Lemma walk_sound d : forall top loc,
  resolve t top = Some loc -> Str.endswith top "/" = false ->
  get_node t loc = Some d -> wf_node d = true ->
  forall R ds fls f, In (R, ds, fls) (walk_node top d) -> In f fls ->
  exists rel data,
    get_node d (rel ++ [f]) = Some (File data) /\
    stat t (os_path_join R f) = Some (File data).
Proof.
  induction d as [data0|es IH] using node_ind'; intros top loc Hr He Hg Hwf R ds fls f Hin Hf.
  - contradiction.
  - rewrite walk_node_dir in Hin.
    destruct (wf_dir_inv es Hwf) as (Hdist & Hvalid & Hchildren).
    assert (Hdir : is_dir t loc = true) by (unfold is_dir; rewrite Hg; reflexivity).
    destruct Hin as [Heq | Hin].
    + inversion Heq; subst R ds fls. apply filenames_In in Hf as [data Hd].
      pose proof (lookup_entry_In f (File data) es Hdist Hd) as Hl.
      assert (Hv : valid_name f = true).
      { rewrite forallb_forall in Hvalid. apply Hvalid.
        apply in_map_iff. exists (f, File data). split; [reflexivity | exact Hd]. }
      exists [], data. split.
      * simpl. rewrite Hl. reflexivity.
      * unfold stat. rewrite (resolve_join t top loc f Hr He Hv), Hdir.
        rewrite get_node_app, Hg. simpl. rewrite Hl. reflexivity.
    + apply in_flat_map in Hin as ([n c] & Hnc & Hin). simpl in Hin.
      pose proof (lookup_entry_In n c es Hdist Hnc) as Hl.
      assert (Hv : valid_name n = true).
      { rewrite forallb_forall in Hvalid. apply Hvalid.
        apply in_map_iff. exists (n, c). split; [reflexivity | exact Hnc]. }
      rewrite List.Forall_forall in IH, Hchildren.
      destruct (IH (n, c) Hnc (os_path_join top n) (loc ++ [n])) with (f := f) (R := R)
        (ds := ds) (fls := fls) as (rel & data & H1 & H2).
      * rewrite (resolve_join t top loc n Hr He Hv), Hdir. reflexivity.
      * apply (join_name top n (resolve_nonempty _ _ _ Hr) He Hv).
      * rewrite get_node_app, Hg. simpl. rewrite Hl. reflexivity.
      * apply (Hchildren (n, c) Hnc).
      * exact Hin.
      * exact Hf.
      * exists (n :: rel), data. split; [|exact H2].
        simpl. rewrite Hl. exact H1.
Qed.

End Walk.

(** Every regular file below the directory walked is listed. *)
Lemma walk_complete rel : forall d top f data,
  get_node d (rel ++ [f]) = Some (File data) ->
  exists R ds fls, In (R, ds, fls) (walk_node top d) /\ In f fls.
Proof.
  induction rel as [|n rel IH]; intros d top f data H; simpl in H.
  - destruct d as [d0|es]; [discriminate|].
    destruct (lookup_entry f es) as [m|] eqn:Hl; [|discriminate].
    inversion H; subst m. apply lookup_entry_some in Hl.
    exists top, (dirnames es), (filenames es). rewrite walk_node_dir.
    split; [left; reflexivity|]. apply filenames_In. exists data. exact Hl.
  - destruct d as [d0|es]; [discriminate|].
    destruct (lookup_entry n es) as [c|] eqn:Hl; [|discriminate].
    apply lookup_entry_some in Hl.
    destruct (IH c (os_path_join top n) f data H) as (R & ds & fls & Hin & Hf).
    exists R, ds, fls. split; [|exact Hf].
    rewrite walk_node_dir. right. apply in_flat_map.
    exists (n, c). split; [exact Hl | exact Hin].
Qed.

End WalkFacts.

(** ** The render handlers, step by step *)

Section RenderRuns.
Variable env : environment.

Lemma RenderScad_post_run body w :
  RenderScad_post env body w =
  match stage env body w with
  | (Returned _, w1) => render_after_stage env w1
  | (Raised e, w1) => (Raised e, w1)
  end.
Proof.
  unfold RenderScad_post, stage, render_after_stage, bind, try_except.
  destruct (get_json body w) as [[data|e] wa]; [|reflexivity].
  destruct (getitem data "scadCode" wa) as [[code|e] wb]; [|reflexivity].
  fold (model_dir env). fold (scad_file_path env). fold (stl_file_path env).
  destruct (os_makedirs env (model_dir env) wb) as [[[]|e] wc]; [|reflexivity].
  destruct (os_listdir env (LIBRARIES_DIR env) wc) as [[libs|e] wd]; [|reflexivity].
  match goal with |- context [for_each libs ?f wd] => destruct (for_each libs f wd) as [[[]|e] we] end;
    [|reflexivity].
  destruct (write_text env (scad_file_path env) code we) as [[[]|e] wf]; [|reflexivity].
  unfold subprocess_run_check, cache_set, os_path_exists, ret, compiler_args,
    captured_text.
  destruct (spawn env _ (fs wf)) as [e|rc out err t'].
  - destruct e; reflexivity.
  - destruct (decode_text env out) as [msg|stdout]; [reflexivity|].
    destruct (decode_text env err) as [msg|stderr]; [reflexivity|].
    destruct (Z.eqb rc 0); simpl; [|reflexivity].
    fold (artifact_id env). unfold RenderOk, OutputMissing.
    destruct (FS.exists_ t' (stl_file_path env)); reflexivity.
Qed.

Lemma GetStl_post_run body w :
  GetStl_post env body w =
  match stage env body w with
  | (Returned _, w1) => getstl_after_stage env w1
  | (Raised e, w1) => (Raised e, w1)
  end.
Proof.
  unfold GetStl_post, stage, getstl_after_stage, bind, try_except.
  destruct (get_json body w) as [[data|e] wa]; [|reflexivity].
  destruct (getitem data "scadCode" wa) as [[code|e] wb]; [|reflexivity].
  fold (model_dir env). fold (scad_file_path env). fold (stl_file_path env).
  destruct (os_makedirs env (model_dir env) wb) as [[[]|e] wc]; [|reflexivity].
  destruct (os_listdir env (LIBRARIES_DIR env) wc) as [[libs|e] wd]; [|reflexivity].
  match goal with |- context [for_each libs ?f wd] => destruct (for_each libs f wd) as [[[]|e] we] end;
    [|reflexivity].
  destruct (write_text env (scad_file_path env) code we) as [[[]|e] wf]; [|reflexivity].
  unfold subprocess_run_check, os_path_exists, ret, compiler_args, captured_text.
  destruct (spawn env _ (fs wf)) as [e|rc out err t'].
  - destruct e; reflexivity.
  - destruct (decode_text env out) as [msg|stdout]; [reflexivity|].
    destruct (decode_text env err) as [msg|stderr]; [reflexivity|].
    destruct (Z.eqb rc 0); simpl; [|reflexivity].
    destruct (FS.exists_ t' (stl_file_path env)); reflexivity.
Qed.

End RenderRuns.

(** ** Which computations touch [stl_cache] *)

Create HintDb cache discriminated.

Lemma keeps_cache_ret {A} (a : A) : keeps_cache (ret a).
Proof. intro w. reflexivity. Qed.

Lemma keeps_cache_raise {A} (e : exn) : keeps_cache (@raise A e).
Proof. intro w. reflexivity. Qed.

Lemma keeps_cache_bind {A B} (m : M A) (k : A -> M B) :
  keeps_cache m -> (forall a, keeps_cache (k a)) -> keeps_cache (bind m k).
Proof.
  intros Hm Hk w. unfold bind. specialize (Hm w).
  destruct (m w) as [[a|e] w']; simpl in *; [|assumption].
  rewrite Hk. assumption.
Qed.

Lemma keeps_cache_try {A} (m : M A) (h : exn -> M A) :
  keeps_cache m -> (forall e, keeps_cache (h e)) -> keeps_cache (try_except m h).
Proof.
  intros Hm Hh w. unfold try_except. specialize (Hm w).
  destruct (m w) as [[a|e] w']; simpl in *; [assumption|].
  rewrite Hh. assumption.
Qed.

Lemma keeps_cache_for_each {A} (l : list A) (body : A -> M unit) :
  (forall x, keeps_cache (body x)) -> keeps_cache (for_each l body).
Proof.
  intro Hb. induction l as [|x l IH]; simpl.
  - apply keeps_cache_ret.
  - apply keeps_cache_bind; auto.
Qed.

Lemma keeps_cache_faulty env op : keeps_cache (faulty env op).
Proof. intro w. unfold faulty. destruct (io_fault env op); reflexivity. Qed.

Lemma keeps_cache_lift_fs f : keeps_cache (lift_fs f).
Proof. intro w. unfold lift_fs. destruct (f (fs w)); reflexivity. Qed.

#[local] Hint Resolve keeps_cache_ret keeps_cache_raise keeps_cache_bind
  keeps_cache_try keeps_cache_for_each keeps_cache_faulty keeps_cache_lift_fs : cache.

Lemma keeps_cache_makedirs env p : keeps_cache (os_makedirs env p).
Proof. unfold os_makedirs. auto with cache. Qed.

Lemma keeps_cache_listdir env p : keeps_cache (os_listdir env p).
Proof.
  unfold os_listdir. apply keeps_cache_bind; [auto with cache|].
  intros _ w. destruct (FS.listdir (fs w) p); reflexivity.
Qed.

Lemma keeps_cache_copy2 env src dst : keeps_cache (shutil_copy2 env src dst).
Proof.
  unfold shutil_copy2. apply keeps_cache_bind; [auto with cache|].
  intros _ w. destruct (FS.stat (fs w) src) as [[d|es]|]; try reflexivity.
  apply keeps_cache_lift_fs.
Qed.

Lemma keeps_cache_write_text env p v : keeps_cache (write_text env p v).
Proof. unfold write_text. destruct v; auto 10 with cache. Qed.

Lemma keeps_cache_get_json body : keeps_cache (get_json body).
Proof. destruct body; simpl; auto with cache. Qed.

Lemma keeps_cache_getitem data key : keeps_cache (getitem data key).
Proof. destruct data; simpl; auto with cache. destruct (dict_get key d); auto with cache. Qed.

#[local] Hint Resolve keeps_cache_makedirs keeps_cache_listdir keeps_cache_copy2
  keeps_cache_write_text keeps_cache_get_json keeps_cache_getitem : cache.

Lemma keeps_cache_stage env body : keeps_cache (stage env body).
Proof.
  unfold stage.
  apply keeps_cache_bind; [auto with cache | intros data].
  apply keeps_cache_bind; [auto with cache | intros code].
  apply keeps_cache_bind; [auto with cache | intros _].
  apply keeps_cache_bind; [auto with cache | intros libs].
  apply keeps_cache_bind; [| intros _; auto with cache].
  apply keeps_cache_for_each. intros lib.
  destruct (Str.endswith lib ".scad"); auto with cache.
Qed.

Lemma keeps_cache_send_file p m a d : keeps_cache (send_file p m a d).
Proof. intro w. unfold send_file. destruct (FS.stat (fs w) p) as [[?|?]|]; reflexivity. Qed.


Lemma stage_cache env body w r w1 :
  stage env body w = (r, w1) -> stl_cache w1 = stl_cache w.
Proof. intro H. pose proof (keeps_cache_stage env body w) as K. rewrite H in K. exact K. Qed.

(** An exception raised while the workspace is staged leaves both render
    handlers as it is: the statements before [try:] are not guarded. *)
Lemma staging_exception_propagates env body w e w1 :
  stage env body w = (Raised e, w1) ->
  RenderScad_post env body w = (Raised e, w1) /\
  GetStl_post env body w = (Raised e, w1).
Proof.
  intro H. rewrite RenderScad_post_run, GetStl_post_run, H. split; reflexivity.
Qed.

(** ** [View3D.get], step by step *)

Lemma read_only_bind {A B} (m : M A) (k : A -> M B) :
  read_only m -> (forall a, read_only (k a)) -> read_only (bind m k).
Proof.
  intros Hm Hk w. unfold bind. specialize (Hm w).
  destruct (m w) as [[a|e] w']; simpl in *; subst; [apply Hk | reflexivity].
Qed.

Lemma read_only_for_each {A} (l : list A) (body : A -> M unit) :
  (forall x, read_only (body x)) -> read_only (for_each l body).
Proof.
  intro Hb. induction l as [|x l IH]; simpl.
  - intro w. reflexivity.
  - apply read_only_bind; auto.
Qed.

Lemma read_only_listdir env p : read_only (os_listdir env p).
Proof.
  intro w. unfold os_listdir, bind, faulty.
  destruct (io_fault env (ListDir p)); simpl; [reflexivity|].
  destruct (FS.listdir (fs w) p); reflexivity.
Qed.

(** The listing logged on a miss returns normally and changes nothing. *)
Lemma log_models_dir_run env w : log_models_dir env w = (Returned tt, w).
Proof.
  unfold log_models_dir, try_except.
  match goal with |- context [bind ?m ?k w] =>
    assert (R : read_only (bind m k)); [|specialize (R w); destruct (bind m k w) as [[[]|e] w']] end.
  - apply read_only_bind; [apply read_only_listdir | intros _].
    apply read_only_bind; [apply read_only_listdir | intros l].
    apply read_only_for_each. intro x.
    apply read_only_bind; [intro w0; reflexivity | intros [|]].
    + apply read_only_bind; [apply read_only_listdir | intros _ w0; reflexivity].
    + intro w0. reflexivity.
  - simpl in R. subst. reflexivity.
  - simpl in R. subst. reflexivity.
Qed.

(** A request with a valid file parameter always returns, leaves the
    world as it is, and answers for the path [fetch_path] settles on. *)
Lemma View3D_get_run env filename w :
  valid_filename filename = true ->
  View3D_get env (Some filename) w = (Returned (serve (fetch_path env filename w) (fs w)), w).
Proof.
  unfold valid_filename. intro Hv. apply andb_true_iff in Hv as [Hne Hsuf].
  unfold View3D_get. apply negb_true_iff in Hne. rewrite Hne, Hsuf. simpl.
  unfold bind at 1. unfold fetch_path, serve, scan_models, scan_hit.
  set (hit := find _ (FS.walk (fs w) (MODELS_DIR env))).
  set (p := match stl_cache w !! filename with
            | Some p => p
            | None => match match hit with Some (root, _, _) => Some root | None => None end with
                      | Some root => os_path_join root filename
                      | None => os_path_join (MODELS_DIR env) filename
                      end
            end).
  assert (E : (match stl_cache w !! filename with
               | Some p0 => ret p0 w
               | None => match hit with
                         | Some (root, _, _) => (Returned (os_path_join root filename), w)
                         | None => (Returned (os_path_join (MODELS_DIR env) filename), w)
                         end
               end) = (Returned p, w)).
  { subst p. destruct (stl_cache w !! filename); [reflexivity|].
    destruct hit as [[[root ds] fls]|]; reflexivity. }
  rewrite E. unfold bind, os_path_exists, FS.exists_, try_except, os_path_getsize, send_file.
  destruct (FS.stat (fs w) p) as [[data|es]|] eqn:Hst; simpl.
  - repeat (rewrite Hst; simpl). reflexivity.
  - repeat (rewrite Hst; simpl). reflexivity.
  - rewrite log_models_dir_run. reflexivity.
Qed.

Lemma View3D_get_invalid env file w :
  match file with Some f => valid_filename f = false | None => True end ->
  View3D_get env file w = (Returned InvalidFileParameter, w).
Proof.
  destruct file as [f|]; [|reflexivity].
  unfold valid_filename, View3D_get. intro H.
  destruct (String.eqb f ""); simpl in *; [reflexivity|]. rewrite H. reflexivity.
Qed.

Lemma serve_not_invalid p t : serve p t <> InvalidFileParameter.
Proof. unfold serve. destruct (FS.stat t p) as [[?|?]|]; discriminate. Qed.

(** ** The steps of a staging that succeeds *)

Lemma LIBRARIES_DIR_no_trailing_sep env : Str.endswith (LIBRARIES_DIR env) "/" = false.
Proof.
  unfold LIBRARIES_DIR.
  destruct (StrFacts.join_is_app (app_dir env) "libraries") as [pre ->].
  apply WalkFacts.endswith_app_nosep; [discriminate | reflexivity].
Qed.

Lemma write_text_inv env p v w w1 :
  write_text env p v w = (Returned tt, w1) ->
  exists s t0 t1,
    v = PyStr s /\ FS.write_file (fs w) p "" = inr t0 /\
    FS.write_file t0 p s = inr t1 /\ w1 = World t1 (stl_cache w).
Proof.
  unfold write_text, bind, faulty, lift_fs.
  destruct (io_fault env (OpenWrite p)); [discriminate|]. simpl.
  destruct (FS.write_file (fs w) p "") as [e|t0] eqn:H0; [discriminate|]. simpl.
  destruct v; try discriminate.
  destruct (io_fault env (WriteData p)); [discriminate|]. simpl.
  destruct (FS.write_file t0 p s) as [e|t1] eqn:H1; [discriminate|].
  intro H; inversion H; subst. exists s, t0, t1. repeat split; assumption.
Qed.

Lemma stage_inv env body w w1 :
  stage env body w = (Returned tt, w1) ->
  exists d code tm names wl,
    body = Some (PyDict d) /\ dict_get "scadCode" d = Some code /\
    FS.makedirs (fs w) (model_dir env) = inr tm /\
    FS.listdir tm (LIBRARIES_DIR env) = inr names /\
    for_each names (copy_library env) (World tm (stl_cache w)) = (Returned tt, wl) /\
    write_text env (scad_file_path env) code wl = (Returned tt, w1).
Proof.
  unfold stage, bind at 1. destruct body as [data|]; [|discriminate]. simpl.
  unfold bind at 1. destruct data as [| | | | |d]; try discriminate. simpl.
  destruct (dict_get "scadCode" d) as [code|] eqn:Hd; [|discriminate]. simpl.
  unfold bind at 1, os_makedirs, bind at 1, faulty, lift_fs.
  destruct (io_fault env (MakeDirs (model_dir env))); [discriminate|]. simpl.
  destruct (FS.makedirs (fs w) (model_dir env)) as [e|tm] eqn:Hm; [discriminate|]. simpl.
  unfold bind at 1, os_listdir, bind at 1, faulty.
  destruct (io_fault env (ListDir (LIBRARIES_DIR env))); [discriminate|]. simpl.
  destruct (FS.listdir tm (LIBRARIES_DIR env)) as [e|names] eqn:Hl; [discriminate|]. simpl.
  unfold bind at 1.
  change (fun lib_file : string =>
            if Str.endswith lib_file ".scad"
            then shutil_copy2 env (os_path_join (LIBRARIES_DIR env) lib_file)
                              (os_path_join (model_dir env) lib_file)
            else ret tt) with (copy_library env).
  destruct (for_each names (copy_library env) (World tm (stl_cache w)))
    as [[[]|e] wl] eqn:Hf; [|discriminate].
  intro Hw. exists d, code, tm, names, wl. repeat split; assumption.
Qed.

(** ** C1: what gets registered in the index *)

(** C1, as stated, fails: a compiler that exits zero and leaves a file
    of zero bytes makes the render succeed, and the registered path then
    denotes an empty file. *)
Lemma C1_registered_file_may_be_empty :
  let env := Scenario.env_empty_mesh in
  let run := RenderScad_post env Scenario.req0 Scenario.w0 in
  fst run = Returned (RenderOk env) /\
  stl_cache (snd run) !! artifact_id env = Some (stl_file_path env) /\
  FS.stat (fs (snd run)) (stl_file_path env) = Some (File "").
Proof. repeat split; vm_compute; reflexivity. Qed.

(** The entry is made before the output is verified: a compiler that
    exits zero without writing anything yields OutputMissing, and the
    index has the entry all the same. *)
Lemma render_registers_before_verifying :
  let env := Scenario.env_silent in
  let run := RenderScad_post env Scenario.req0 Scenario.w0 in
  fst run = Returned OutputMissing /\
  stl_cache (snd run) !! artifact_id env = Some (stl_file_path env) /\
  FS.exists_ (fs (snd run)) (stl_file_path env) = false.
Proof. repeat split; vm_compute; reflexivity. Qed.

(** C1, amended. A render request changes the index at most at the
    job's own artifact id; it changes it only when the compiler was
    launched and exited zero; and whenever the request succeeds, the id
    is registered with the job's artifact path, which exists in the file
    system (its size is not examined). *)
Theorem C1_registration env body w r w' :
  RenderScad_post env body w = (r, w') ->
  (forall id, id <> artifact_id env -> stl_cache w' !! id = stl_cache w !! id) /\
  (stl_cache w' <> stl_cache w ->
     exists w1 out err t',
       stage env body w = (Returned tt, w1) /\
       spawn env (compiler_args env) (fs w1) = RunCompleted 0 out err t') /\
  (forall b, r = Returned (Json 200 b) ->
     stl_cache w' !! artifact_id env = Some (stl_file_path env) /\
     FS.exists_ (fs w') (stl_file_path env) = true).
Proof.
  rewrite RenderScad_post_run.
  destruct (stage env body w) as [[[]|e] w1] eqn:Hs;
    pose proof (stage_cache _ _ _ _ _ Hs) as Hc.
  - unfold render_after_stage.
    destruct (spawn env (compiler_args env) (fs w1)) as [e|rc out err t'] eqn:Hr.
    + intro H; inversion H; subst; clear H. rewrite Hc.
      split; [|split]; [congruence | congruence |].
      intros b Hb. destruct e; discriminate.
    + destruct (captured_text env out err) as [msg|[stdout stderr]].
      { intro H; inversion H; subst; clear H; simpl. rewrite Hc.
        split; [|split]; [congruence | congruence | discriminate]. }
      destruct (Z.eqb_spec rc 0) as [->|Hrc]; intro H; inversion H; subst; clear H; simpl.
      * rewrite Hc. split; [|split].
        -- intros id Hid. apply lookup_insert_ne. congruence.
        -- intros _. exists w1, out, err, t'. split; [reflexivity | exact Hr].
        -- intros b Hb. split; [apply lookup_insert_eq|].
           destruct (FS.exists_ t' (stl_file_path env)); [reflexivity | discriminate].
      * rewrite Hc. split; [|split]; [congruence | congruence | discriminate].
  - intro H; inversion H; subst; clear H. rewrite Hc.
    split; [|split]; [congruence | congruence | discriminate].
Qed.

Lemma C1_witness :
  stl_cache (snd (RenderScad_post Scenario.env_good Scenario.req0 Scenario.w0))
    !! artifact_id Scenario.env_good = Some (stl_file_path Scenario.env_good) /\
  FS.exists_ (fs (snd (RenderScad_post Scenario.env_good Scenario.req0 Scenario.w0)))
    (stl_file_path Scenario.env_good) = true.
Proof.
  destruct (C1_registration Scenario.env_good Scenario.req0 Scenario.w0
              (fst (RenderScad_post Scenario.env_good Scenario.req0 Scenario.w0))
              (snd (RenderScad_post Scenario.env_good Scenario.req0 Scenario.w0)))
    as (_ & _ & H).
  - vm_compute. reflexivity.
  - apply (H (PyDict [("stlPath", PyStr ("/api/view3d?file=" ++ artifact_id Scenario.env_good))])).
    vm_compute. reflexivity.
Defined.

(** ** C2: Render and RenderAndFetch *)

(** C2, as stated, fails: a RenderAndFetch call that succeeds leaves the
    index without an entry for the artifact it produced, where the same
    Render call registers it. *)
Lemma C2_getstl_does_not_register :
  let env := Scenario.env_good in
  fst (GetStl_post env Scenario.req0 Scenario.w0)
    = Returned (SendFile (stl_file_path env) "solid cube"
                         "application/octet-stream" true (Some "model.stl")) /\
  stl_cache (snd (GetStl_post env Scenario.req0 Scenario.w0)) !! artifact_id env = None /\
  stl_cache (snd (RenderScad_post env Scenario.req0 Scenario.w0)) !! artifact_id env
    = Some (stl_file_path env).
Proof. repeat split; vm_compute; reflexivity. Qed.

(** C2, amended. RenderAndFetch runs the staging and compiler steps of
    Render: from the same world it leaves the same file system, and
    whenever Render does not return a reference it ends exactly as
    Render does, with the same error result or the same exception.
    Where Render returns a reference, the artifact path exists:
    RenderAndFetch returns the bytes of the file there, as an attachment
    named [model.stl], when it is a regular file, and raises when it is
    a directory, its [send_file] standing after the [try] block.  It
    never publishes: the index after a RenderAndFetch call is the index
    before it. *)
Theorem C2_getstl_is_render_without_publish env body w :
  let render := RenderScad_post env body w in
  let getstl := GetStl_post env body w in
  stl_cache (snd getstl) = stl_cache w /\
  fs (snd getstl) = fs (snd render) /\
  (fst render <> Returned (RenderOk env) -> fst getstl = fst render) /\
  (fst render = Returned (RenderOk env) ->
     FS.exists_ (fs (snd render)) (stl_file_path env) = true /\
     (forall data, FS.stat (fs (snd render)) (stl_file_path env) = Some (File data) ->
        fst getstl = Returned (SendFile (stl_file_path env) data
                                        "application/octet-stream" true (Some "model.stl"))) /\
     (forall es, FS.stat (fs (snd render)) (stl_file_path env) = Some (Dir es) ->
        exists e, fst getstl = Raised e)).
Proof.
  intros render getstl. subst render getstl.
  rewrite RenderScad_post_run, GetStl_post_run.
  destruct (stage env body w) as [[[]|e] w1] eqn:Hs;
    pose proof (stage_cache _ _ _ _ _ Hs) as Hc; simpl.
  2: { repeat split; intros; try assumption; discriminate. }
  unfold render_after_stage, getstl_after_stage.
  destruct (spawn env (compiler_args env) (fs w1)) as [e|rc out err t']; simpl.
  { destruct e; repeat split; intros; try assumption; discriminate. }
  destruct (captured_text env out err) as [msg|[stdout stderr]]; simpl.
  { repeat split; intros; try assumption; discriminate. }
  destruct (Z.eqb rc 0); simpl.
  2: { repeat split; intros; try assumption; discriminate. }
  destruct (FS.exists_ t' (stl_file_path env)) eqn:Hex; simpl.
  2: { repeat split; intros; try assumption; discriminate. }
  unfold send_file; simpl.
  split; [|split; [|split]].
  - destruct (FS.stat t' (stl_file_path env)) as [[d|es]|]; exact Hc.
  - destruct (FS.stat t' (stl_file_path env)) as [[d|es]|]; reflexivity.
  - intro H. contradiction.
  - intros _. split; [reflexivity|]. split.
    + intros data Hst. rewrite Hst. reflexivity.
    + intros es Hst. rewrite Hst. eexists. reflexivity.
Qed.

Lemma C2_witness :
  fst (GetStl_post Scenario.env_syntax_error Scenario.req0 Scenario.w0)
    = fst (RenderScad_post Scenario.env_syntax_error Scenario.req0 Scenario.w0) /\
  fst (GetStl_post Scenario.env_good Scenario.req0 Scenario.w0)
    = Returned (SendFile (stl_file_path Scenario.env_good) "solid cube"
                         "application/octet-stream" true (Some "model.stl")).
Proof.
  split.
  - destruct (C2_getstl_is_render_without_publish
                Scenario.env_syntax_error Scenario.req0 Scenario.w0) as (_ & _ & H & _).
    apply H. vm_compute. discriminate.
  - destruct (C2_getstl_is_render_without_publish
                Scenario.env_good Scenario.req0 Scenario.w0) as (_ & _ & _ & H).
    destruct H as (_ & H & _); [vm_compute; reflexivity|].
    apply H. vm_compute. reflexivity.
Defined.

(** ** C3: I/O failures while staging *)

(** C3. With a models directory that may not be written to, creating
    the workspace raises [PermissionError]; with a full disk, writing the
    source file raises [OSError].  In both cases [RenderScad.post] and
    [GetStl.post] end with that exception raised, not with a returned
    error result. *)
Theorem C3_staging_io_error_is_raised :
  fst (RenderScad_post Scenario.env_read_only Scenario.req0 Scenario.w0)
    = Raised (OSError "[Errno 13] Permission denied: '/tmp/openscad_models/0b0e7a52-6a5e-4f0e-9d8c-1f2e3d4c5b6a'") /\
  fst (GetStl_post Scenario.env_read_only Scenario.req0 Scenario.w0)
    = Raised (OSError "[Errno 13] Permission denied: '/tmp/openscad_models/0b0e7a52-6a5e-4f0e-9d8c-1f2e3d4c5b6a'") /\
  fst (RenderScad_post Scenario.env_disk_full Scenario.req0 Scenario.w0)
    = Raised (OSError "[Errno 28] No space left on device") /\
  fst (GetStl_post Scenario.env_disk_full Scenario.req0 Scenario.w0)
    = Raised (OSError "[Errno 28] No space left on device").
Proof. repeat split; vm_compute; reflexivity. Qed.

(** ** C4: how the outcome of the compiler is classified *)

(** C4, as stated, fails: an executable that is present but may not be
    executed makes [subprocess.run] raise [PermissionError], which the
    last [except] clause answers with the generic error, not with the
    one for a missing executable. *)
Lemma C4_not_runnable_is_not_ToolUnavailable :
  fst (RenderScad_post Scenario.env_not_executable Scenario.req0 Scenario.w0)
    = Returned (Unexpected (OSError "[Errno 13] Permission denied: '/usr/local/bin/openscad'")) /\
  fst (RenderScad_post Scenario.env_not_executable Scenario.req0 Scenario.w0)
    <> Returned ToolUnavailable.
Proof. split; vm_compute; [reflexivity | discriminate]. Qed.

(** C4, amended. Once the workspace is staged, both render handlers
    classify the run of the compiler as follows.  [FileNotFoundError]
    from the launch (the executable is missing) gives ToolUnavailable;
    any other [OSError] from the launch (the executable may not be
    executed) gives the generic Unexpected error with the exception's
    text.  Once the compiler has run, its captured output is decoded as
    text, standard output first: output that does not decode gives the
    Unexpected error, whatever the exit code and the files written.
    With output that decodes, a non-zero exit gives CompilationFailed
    with the text of the standard error; a zero exit without the output
    file gives OutputMissing; a zero exit with the output present gives
    success: the reference for Render, and for RenderAndFetch the bytes
    of the output when it is a regular file. *)
Theorem C4_render_classification env body w w1 :
  stage env body w = (Returned tt, w1) ->
  let run := spawn env (compiler_args env) (fs w1) in
  let render := fst (RenderScad_post env body w) in
  let getstl := fst (GetStl_post env body w) in
  (forall m, run = RunRaises (FileNotFoundError m) ->
     render = Returned ToolUnavailable /\ getstl = Returned ToolUnavailable) /\
  (forall m, run = RunRaises (OSError m) ->
     render = Returned (Unexpected (OSError m)) /\
     getstl = Returned (Unexpected (OSError m))) /\
  (forall rc out err t' msg, run = RunCompleted rc out err t' ->
     decode_text env out = inl msg \/
     (exists stdout, decode_text env out = inr stdout /\ decode_text env err = inl msg) ->
     render = Returned (Unexpected (UnicodeDecodeError msg)) /\
     getstl = Returned (Unexpected (UnicodeDecodeError msg))) /\
  (forall rc out err t' stdout stderr, run = RunCompleted rc out err t' ->
     decode_text env out = inr stdout -> decode_text env err = inr stderr ->
     (rc <> 0%Z ->
        render = Returned (CompilationFailed stderr) /\
        getstl = Returned (CompilationFailed stderr)) /\
     (rc = 0%Z -> FS.exists_ t' (stl_file_path env) = false ->
        render = Returned OutputMissing /\ getstl = Returned OutputMissing) /\
     (rc = 0%Z -> FS.exists_ t' (stl_file_path env) = true ->
        render = Returned (RenderOk env) /\
        forall data, FS.stat t' (stl_file_path env) = Some (File data) ->
          getstl = Returned (SendFile (stl_file_path env) data
                                      "application/octet-stream" true (Some "model.stl")))).
Proof.
  intros Hs run render getstl. subst run render getstl.
  rewrite RenderScad_post_run, GetStl_post_run, Hs.
  unfold render_after_stage, getstl_after_stage, captured_text.
  split; [|split; [|split]].
  - intros m H. rewrite H. split; reflexivity.
  - intros m H. rewrite H. split; reflexivity.
  - intros rc out err t' msg H [Ho | (stdout & Ho & He)]; rewrite H, Ho; [|rewrite He];
      split; reflexivity.
  - intros rc out err t' stdout stderr H Ho He. rewrite H, Ho, He.
    split; [|split].
    + intro Hrc. destruct (Z.eqb_spec rc 0); [contradiction | split; reflexivity].
    + intros -> Hex. simpl. rewrite Hex. split; reflexivity.
    + intros -> Hex. simpl. rewrite Hex. split; [reflexivity|].
      intros data Hst. unfold send_file. simpl. rewrite Hst. reflexivity.
Qed.

Lemma C4_witness :
  (fst (RenderScad_post Scenario.env_syntax_error Scenario.req0 Scenario.w0)
     = Returned (CompilationFailed "ERROR: syntax error") /\
   fst (GetStl_post Scenario.env_syntax_error Scenario.req0 Scenario.w0)
     = Returned (CompilationFailed "ERROR: syntax error")) /\
  (exists msg,
     fst (RenderScad_post Scenario.env_undecodable Scenario.req0 Scenario.w0)
       = Returned (Unexpected (UnicodeDecodeError msg)) /\
     fst (GetStl_post Scenario.env_undecodable Scenario.req0 Scenario.w0)
       = Returned (Unexpected (UnicodeDecodeError msg))).
Proof.
  split.
  - assert (Hs : stage Scenario.env_syntax_error Scenario.req0 Scenario.w0
                 = (Returned tt, snd (stage Scenario.env_syntax_error Scenario.req0 Scenario.w0)))
      by (vm_compute; reflexivity).
    destruct (C4_render_classification _ _ _ _ Hs) as (_ & _ & _ & Hc).
    destruct (Hc 1%Z "" "ERROR: syntax error"
                 (fs (snd (stage Scenario.env_syntax_error Scenario.req0 Scenario.w0)))
                 "" "ERROR: syntax error") as (H & _).
    + vm_compute. reflexivity.
    + vm_compute. reflexivity.
    + vm_compute. reflexivity.
    + apply H. discriminate.
  - assert (Hs : stage Scenario.env_undecodable Scenario.req0 Scenario.w0
                 = (Returned tt, snd (stage Scenario.env_undecodable Scenario.req0 Scenario.w0)))
      by (vm_compute; reflexivity).
    destruct (C4_render_classification _ _ _ _ Hs) as (_ & _ & Hc & _).
    eexists.
    apply (Hc 0%Z (String "255" EmptyString) ""
              (fs (snd (RenderScad_post Scenario.env_undecodable Scenario.req0 Scenario.w0)))).
    + vm_compute. reflexivity.
    + left. vm_compute. reflexivity.
Defined.

(** ** C5: how Fetch resolves an id *)

Lemma MODELS_DIR_no_trailing_sep env : Str.endswith (MODELS_DIR env) "/" = false.
Proof.
  unfold MODELS_DIR.
  destruct (StrFacts.join_is_app (tempdir env) "openscad_models") as [pre ->].
  apply WalkFacts.endswith_app_nosep; [discriminate | reflexivity].
Qed.

Lemma valid_filename_name filename :
  valid_filename filename = true -> Str.has_sep filename = false ->
  valid_name filename = true.
Proof.
  unfold valid_filename, valid_name. intros Hv Hs.
  apply andb_true_iff in Hv as [Hne Hsuf]. rewrite Hne, Hs. simpl.
  destruct (String.eqb_spec filename ".") as [->|_]; [discriminate|].
  destruct (String.eqb_spec filename "..") as [->|_]; [discriminate|].
  reflexivity.
Qed.

Section Fetch.
Variable env : environment.
Variable filename : string.
Variable w : world.
Variable loc : list string.
Variable d : node.
Hypothesis Hvalid : valid_filename filename = true.
Hypothesis Hnosep : Str.has_sep filename = false.
Hypothesis Hroot : FS.resolve (fs w) (MODELS_DIR env) = Some loc.
Hypothesis Hnode : FS.get_node (fs w) loc = Some d.
Hypothesis Hwf : wf_node d = true.

Lemma walk_models_root : FS.walk (fs w) (MODELS_DIR env) = FS.walk_node (MODELS_DIR env) d.
Proof. unfold FS.walk, FS.stat. rewrite Hroot, Hnode. reflexivity. Qed.

(** A hit of the scan is a regular file below the root, and it is served. *)
Lemma scan_hit_served root :
  scan_hit env filename (fs w) = Some root ->
  exists rel data,
    FS.get_node d (rel ++ [filename]) = Some (File data) /\
    serve (os_path_join root filename) (fs w)
      = SendFile (os_path_join root filename) data "model/stl" false None.
Proof.
  unfold scan_hit. rewrite walk_models_root.
  destruct (find _ (FS.walk_node (MODELS_DIR env) d)) as [[[R ds] fls]|] eqn:Hfind;
    [|discriminate].
  intro H; inversion H; subst R; clear H.
  apply find_some in Hfind as [Hin Hf]. simpl in Hf.
  apply WalkFacts.existsb_eqb_In in Hf.
  destruct (WalkFacts.walk_sound (fs w) d (MODELS_DIR env) loc Hroot
              (MODELS_DIR_no_trailing_sep env) Hnode Hwf root ds fls filename Hin Hf)
    as (rel & data & H1 & H2).
  exists rel, data. split; [exact H1|]. unfold serve. rewrite H2. reflexivity.
Qed.

(** A regular file below the root is hit by the scan. *)
Lemma scan_hit_complete rel data :
  FS.get_node d (rel ++ [filename]) = Some (File data) ->
  exists root, scan_hit env filename (fs w) = Some root.
Proof.
  intro H. unfold scan_hit. rewrite walk_models_root.
  destruct (WalkFacts.walk_complete rel d (MODELS_DIR env) filename data H)
    as (R & ds & fls & Hin & Hf).
  destruct (find _ (FS.walk_node (MODELS_DIR env) d)) as [[[R' ds'] fls']|] eqn:Hfind.
  - eexists; reflexivity.
  - exfalso. pose proof (find_none _ _ Hfind (R, ds, fls) Hin) as Hn. simpl in Hn.
    apply WalkFacts.existsb_eqb_In in Hf. congruence.
Qed.

(** The name joined to the root is the root's entry of that name. *)
Lemma stat_joined_root :
  FS.stat (fs w) (os_path_join (MODELS_DIR env) filename) =
  match d with Dir _ => FS.get_node d [filename] | File _ => None end.
Proof.
  clear Hwf. unfold FS.stat.
  rewrite (WalkFacts.resolve_join (fs w) (MODELS_DIR env) loc filename Hroot
             (MODELS_DIR_no_trailing_sep env) (valid_filename_name _ Hvalid Hnosep)).
  unfold FS.is_dir. rewrite Hnode. destruct d as [d0|es]; [reflexivity|].
  rewrite WalkFacts.get_node_app, Hnode. reflexivity.
Qed.

End Fetch.

(** Neither the index nor the scan knows the name: the answer depends
    on the root's own entry of that name. *)
Lemma miss_answer env filename w loc d :
  valid_filename filename = true ->
  Str.has_sep filename = false ->
  FS.resolve (fs w) (MODELS_DIR env) = Some loc ->
  FS.get_node (fs w) loc = Some d ->
  stl_cache w !! filename = None ->
  scan_hit env filename (fs w) = None ->
  View3D_get env (Some filename) w =
  (Returned match FS.get_node d [filename] with
            | Some (Dir _) =>
                ServingError (is_a_directory (os_path_join (MODELS_DIR env) filename))
            | _ => NotFound
            end, w).
Proof.
  intros Hvalid Hnosep Hroot Hnode Hc Hs.
  rewrite (View3D_get_run env filename w Hvalid).
  unfold fetch_path. rewrite Hc, Hs. unfold serve.
  rewrite (stat_joined_root env filename w loc d Hvalid Hnosep Hroot Hnode).
  pose proof (scan_hit_complete env filename w loc d Hroot Hnode []) as Hcomp.
  destruct d as [d0|es]; [reflexivity|].
  destruct (FS.get_node (Dir es) [filename]) as [[data|es']|] eqn:Hg.
  - destruct (Hcomp data Hg) as [root Hroot']. congruence.
  - reflexivity.
  - reflexivity.
Qed.

Lemma has_entry_named_dir f es :
  has_entry_named f (Dir es) = false ->
  FS.lookup_entry f es = None /\
  forall n c, FS.lookup_entry n es = Some c -> has_entry_named f c = false.
Proof.
  induction es as [|[m y] es IH]; intro H.
  - split; [reflexivity | intros n c Hl; discriminate].
  - change (String.eqb m f || has_entry_named f y || has_entry_named f (Dir es) = false) in H.
    apply orb_false_iff in H as [H H3]. apply orb_false_iff in H as [H1 H2].
    destruct (IH H3) as [IH1 IH2]. split.
    + simpl. rewrite H1. exact IH1.
    + intros n c. simpl. destruct (String.eqb m n).
      * intro E; inversion E; subst. exact H2.
      * apply IH2.
Qed.

(** A name that no directory below [t] lists names nothing below [t]. *)
Lemma no_entry_named f rel : forall t,
  has_entry_named f t = false -> FS.get_node t (rel ++ [f]) = None.
Proof.
  induction rel as [|n rel IH]; intros [d0|es] H; try reflexivity.
  - destruct (has_entry_named_dir f es H) as [Hl _]. simpl. rewrite Hl. reflexivity.
  - destruct (has_entry_named_dir f es H) as [_ Hc]. simpl.
    destruct (FS.lookup_entry n es) as [c|] eqn:Hl; [|reflexivity].
    apply IH. exact (Hc n c Hl).
Qed.

(** C5, as stated, fails: with a directory that bears the id's name
    directly under the models root, the index does not know the id, the
    scan, which looks at file names only, has no hit, and the answer is
    the serving error with status 500, not NotFound. *)
Lemma C5_directory_named_like_the_id :
  let env := Scenario.env_good in
  let w := World Scenario.tree_dir_like_artifact ∅ in
  valid_filename "d.stl" = true /\
  Str.has_sep "d.stl" = false /\
  stl_cache w !! "d.stl" = None /\
  scan_hit env "d.stl" (fs w) = None /\
  View3D_get env (Some "d.stl") w
    = (Returned (ServingError (is_a_directory "/tmp/openscad_models/d.stl")), w) /\
  ServingError (is_a_directory "/tmp/openscad_models/d.stl") <> NotFound.
Proof.
  split; [|split; [|split; [|split; [|split]]]];
    [reflexivity | reflexivity | apply lookup_empty | vm_compute; reflexivity
    | vm_compute; reflexivity | discriminate].
Qed.

(** C5, amended. Let the id be well formed (non-empty, ending in
    [".stl"], no separator) and the models root be a well-formed
    directory tree.  (1) An id the index knows is answered from the
    indexed path alone: NotFound when nothing is there, the bytes of a
    regular file, the serving error for a directory.  (2) Otherwise a hit
    of the recursive scan is a regular file of that name below the root,
    and it is served.  (3) Otherwise the root's own entry of that name
    decides: the serving error when it is a directory, NotFound when
    there is none.  So with an empty index every regular file of that
    name below the root is still served, and an id that the index does
    not know and that names nothing below the root gets NotFound; in
    every case the handler returns and leaves the world as it was. *)
Theorem C5_fetch_resolution env filename w loc d :
  valid_filename filename = true ->
  Str.has_sep filename = false ->
  FS.resolve (fs w) (MODELS_DIR env) = Some loc ->
  FS.get_node (fs w) loc = Some d ->
  wf_node d = true ->
  (forall p, stl_cache w !! filename = Some p ->
     View3D_get env (Some filename) w
     = (Returned match FS.stat (fs w) p with
                 | None => NotFound
                 | Some (File data) => SendFile p data "model/stl" false None
                 | Some (Dir _) => ServingError (is_a_directory p)
                 end, w)) /\
  (forall root, stl_cache w !! filename = None ->
     scan_hit env filename (fs w) = Some root ->
     exists rel data,
       FS.get_node d (rel ++ [filename]) = Some (File data) /\
       View3D_get env (Some filename) w
         = (Returned (SendFile (os_path_join root filename) data "model/stl" false None), w)) /\
  (stl_cache w !! filename = None ->
   scan_hit env filename (fs w) = None ->
   View3D_get env (Some filename) w
   = (Returned match FS.get_node d [filename] with
               | Some (Dir _) =>
                   ServingError (is_a_directory (os_path_join (MODELS_DIR env) filename))
               | _ => NotFound
               end, w)) /\
  (stl_cache w = ∅ ->
   forall rel data, FS.get_node d (rel ++ [filename]) = Some (File data) ->
     exists root rel' data',
       FS.get_node d (rel' ++ [filename]) = Some (File data') /\
       View3D_get env (Some filename) w
         = (Returned (SendFile (os_path_join root filename) data' "model/stl" false None), w)) /\
  (stl_cache w !! filename = None ->
   (forall rel, FS.get_node d (rel ++ [filename]) = None) ->
   View3D_get env (Some filename) w = (Returned NotFound, w)).
Proof.
  intros Hvalid Hnosep Hroot Hnode Hwf.
  assert (Hhit : forall root, stl_cache w !! filename = None ->
     scan_hit env filename (fs w) = Some root ->
     exists rel data,
       FS.get_node d (rel ++ [filename]) = Some (File data) /\
       View3D_get env (Some filename) w
         = (Returned (SendFile (os_path_join root filename) data "model/stl" false None), w)).
  { intros root Hc Hs.
    destruct (scan_hit_served env filename w loc d Hroot Hnode Hwf root Hs)
      as (rel & data & H1 & H2).
    exists rel, data. split; [exact H1|].
    rewrite (View3D_get_run env filename w Hvalid). unfold fetch_path.
    rewrite Hc, Hs, H2. reflexivity. }
  split; [|split; [exact Hhit|split; [|split]]].
  - intros p Hc. rewrite (View3D_get_run env filename w Hvalid).
    unfold fetch_path. rewrite Hc. reflexivity.
  - apply (miss_answer env filename w loc d Hvalid Hnosep Hroot Hnode).
  - intros Hc rel data Hg.
    assert (Hc' : stl_cache w !! filename = None) by (rewrite Hc; apply lookup_empty).
    destruct (scan_hit_complete env filename w loc d Hroot Hnode rel data Hg) as [root Hs].
    destruct (Hhit root Hc' Hs) as (rel' & data' & H1 & H2).
    exists root, rel', data'. split; assumption.
  - intros Hc Hnone.
    rewrite (miss_answer env filename w loc d Hvalid Hnosep Hroot Hnode Hc).
    + pose proof (Hnone []) as H0. change ([] ++ [filename]) with [filename] in H0.
      rewrite H0. reflexivity.
    + destruct (scan_hit env filename (fs w)) as [root|] eqn:Hs; [|reflexivity].
      destruct (scan_hit_served env filename w loc d Hroot Hnode Hwf root Hs)
        as (rel & data & H1 & _).
      rewrite Hnone in H1. discriminate.
Qed.

Lemma C5_witness :
  (exists root data,
     View3D_get Scenario.env_good (Some "j1.stl") Scenario.w0
       = (Returned (SendFile (os_path_join root "j1.stl") data "model/stl" false None),
          Scenario.w0)) /\
  View3D_get Scenario.env_good (Some "0c1d.stl") Scenario.w0 = (Returned NotFound, Scenario.w0).
Proof.
  split.
  - destruct (C5_fetch_resolution Scenario.env_good "j1.stl" Scenario.w0
                ["tmp"; "openscad_models"]
                (Dir [("j1", Dir [("j1.scad", File "cube(1);"); ("j1.stl", File "solid")])])
                eq_refl eq_refl eq_refl eq_refl eq_refl) as (_ & _ & _ & H & _).
    destruct (H eq_refl ["j1"] "solid" eq_refl) as (root & rel' & data' & _ & Hget).
    exists root, data'. exact Hget.
  - destruct (C5_fetch_resolution Scenario.env_good "0c1d.stl" Scenario.w0
                ["tmp"; "openscad_models"]
                (Dir [("j1", Dir [("j1.scad", File "cube(1);"); ("j1.stl", File "solid")])])
                eq_refl eq_refl eq_refl eq_refl eq_refl) as (_ & _ & _ & _ & H).
    apply H; [reflexivity|].
    intro rel. apply no_entry_named. reflexivity.
Defined.

(** ** C6: Render, then Fetch *)

Lemma artifact_id_valid env : valid_filename (artifact_id env) = true.
Proof.
  destruct (artifact_id_is_stl env) as [stem ->]. unfold valid_filename.
  rewrite StrFacts.endswith_app, StrFacts.eqb_app_nonempty by discriminate.
  reflexivity.
Qed.

(** C6, as stated, fails: the compiler accepts the source, exits zero
    and leaves a file of zero bytes; Render returns the reference, and
    Fetch of it returns an empty stream. *)
Lemma C6_fetched_stream_may_be_empty :
  let env := Scenario.env_empty_mesh in
  let render := RenderScad_post env Scenario.req0 Scenario.w0 in
  fst render = Returned (RenderOk env) /\
  View3D_get env (Some (artifact_id env)) (snd render)
    = (Returned (SendFile (stl_file_path env) "" "model/stl" false None), snd render) /\
  os_path_getsize (stl_file_path env) (snd render) = (Returned 0%nat, snd render).
Proof. repeat split; vm_compute; reflexivity. Qed.

(** A render that returns the reference has registered the artifact id
    with the artifact path. *)
Lemma render_ok_registered env body w w2 :
  RenderScad_post env body w = (Returned (RenderOk env), w2) ->
  stl_cache w2 !! artifact_id env = Some (stl_file_path env).
Proof.
  rewrite RenderScad_post_run.
  destruct (stage env body w) as [[[]|e] w1]; [|discriminate].
  unfold render_after_stage.
  destruct (spawn env (compiler_args env) (fs w1)) as [e|rc out err t'].
  { destruct e; discriminate. }
  destruct (captured_text env out err) as [msg|[stdout stderr]]; [discriminate|].
  destruct (Z.eqb rc 0); [|discriminate].
  intro H. inversion H; subst. apply lookup_insert_eq.
Qed.

(** C6, amended. When staging succeeds, the request carried a source
    text, and the file handed to the compiler holds exactly that text.
    If the compiler, run on it, exits zero with output that decodes and
    has left a regular file at the artifact path, Render returns the
    reference to the artifact id, and Fetch of that id on the resulting
    world returns the bytes of that file: a stream of the file's size on
    disk, which nothing keeps from being zero.  In general, whenever
    Render returns its reference and the artifact path holds a regular
    file, Fetch of the id returns the bytes of that file. *)
Theorem C6_render_then_fetch env body w :
  (forall w1, stage env body w = (Returned tt, w1) ->
     exists d s,
       body = Some (PyDict d) /\ dict_get "scadCode" d = Some (PyStr s) /\
       FS.stat (fs w1) (scad_file_path env) = Some (File s) /\
       forall out err stdout stderr t' data,
         spawn env (compiler_args env) (fs w1) = RunCompleted 0 out err t' ->
         decode_text env out = inr stdout ->
         decode_text env err = inr stderr ->
         FS.stat t' (stl_file_path env) = Some (File data) ->
         exists w2,
           RenderScad_post env body w = (Returned (RenderOk env), w2) /\
           FS.stat (fs w2) (stl_file_path env) = Some (File data)) /\
  (forall w2 data,
     RenderScad_post env body w = (Returned (RenderOk env), w2) ->
     FS.stat (fs w2) (stl_file_path env) = Some (File data) ->
     View3D_get env (Some (artifact_id env)) w2
       = (Returned (SendFile (stl_file_path env) data "model/stl" false None), w2) /\
     os_path_getsize (stl_file_path env) w2 = (Returned (String.length data), w2)).
Proof.
  split.
  - intros w1 Hs.
    destruct (stage_inv env body w w1 Hs)
      as (d & code & tm & names & wl & Hb & Hd & _ & _ & _ & Hw).
    destruct (write_text_inv _ _ _ _ _ Hw) as (s & t0 & t1 & -> & _ & H1 & ->).
    exists d, s. split; [exact Hb|]. split; [exact Hd|].
    split; [apply (FSFacts.write_file_stat _ _ _ _ H1)|].
    intros out err stdout stderr t' data Hr Ho He Hst.
    eexists. split.
    + rewrite RenderScad_post_run, Hs. unfold render_after_stage, captured_text.
      simpl in Hr. simpl. rewrite Hr, Ho, He.
      change (Z.eqb 0 0) with true. cbv iota.
      unfold FS.exists_. rewrite Hst. reflexivity.
    + exact Hst.
  - intros w2 data Hrender Hdisk. split.
    + rewrite (View3D_get_run _ _ _ (artifact_id_valid env)).
      unfold fetch_path, serve.
      rewrite (render_ok_registered env body w w2 Hrender), Hdisk. reflexivity.
    + unfold os_path_getsize. rewrite Hdisk. reflexivity.
Qed.

Lemma C6_witness :
  exists w2,
    RenderScad_post Scenario.env_good Scenario.req0 Scenario.w0
      = (Returned (RenderOk Scenario.env_good), w2) /\
    View3D_get Scenario.env_good (Some (artifact_id Scenario.env_good)) w2
      = (Returned (SendFile (stl_file_path Scenario.env_good) "solid cube"
                            "model/stl" false None), w2).
Proof.
  destruct (C6_render_then_fetch Scenario.env_good Scenario.req0 Scenario.w0) as [Ha Hb].
  destruct (Ha (snd (stage Scenario.env_good Scenario.req0 Scenario.w0)))
    as (d & s & _ & _ & _ & H).
  - vm_compute. reflexivity.
  - destruct (H "ok" "" "ok" ""
                (fs (snd (RenderScad_post Scenario.env_good Scenario.req0 Scenario.w0)))
                "solid cube") as (w2 & H1 & H2).
    + vm_compute. reflexivity.
    + vm_compute. reflexivity.
    + vm_compute. reflexivity.
    + vm_compute. reflexivity.
    + exists w2. split; [exact H1|]. apply (Hb w2 "solid cube" H1 H2).
Defined.

(** ** C7: RegisterLibrary *)

Lemma UploadLibrary_post_valid env name content w :
  valid_library_name name = true ->
  UploadLibrary_post env (Some (name, content)) w =
  match FileStorage_save env (os_path_join (LIBRARIES_DIR env) name) content w with
  | (Returned _, w') => (Returned (UploadOk name), w')
  | (Raised e, w') => (Returned (UploadFailed e), w')
  end.
Proof.
  unfold valid_library_name. intro Hv. apply andb_true_iff in Hv as [Hne Hsuf].
  apply negb_true_iff in Hne. unfold UploadLibrary_post. rewrite Hne, Hsuf. simpl.
  unfold try_except, bind.
  destruct (FileStorage_save env _ content w) as [[[]|e] w']; reflexivity.
Qed.

(** [os.path.join] of the pool root and a name. *)
Lemma pool_path env name :
  os_path_join (LIBRARIES_DIR env) name =
  if Str.startswith name "/" then name else (LIBRARIES_DIR env ++ "/" ++ name)%string.
Proof.
  unfold os_path_join. destruct (Str.startswith name "/"); [reflexivity|].
  rewrite LIBRARIES_DIR_no_trailing_sep, orb_false_r.
  replace (String.eqb (LIBRARIES_DIR env) "") with false; [reflexivity|].
  symmetry. unfold LIBRARIES_DIR.
  destruct (StrFacts.join_is_app (app_dir env) "libraries") as [pre ->].
  apply StrFacts.eqb_app_nonempty. discriminate.
Qed.

(** C7, as stated, fails: the name ["/tmp/x.scad"] is accepted and the
    call succeeds, but nothing is written at poolRoot/name; the pool is
    as it was and the upload lies at [/tmp/x.scad]. *)
Lemma C7_absolute_name_is_written_outside_the_pool :
  let env := Scenario.env_good in
  let run := UploadLibrary_post env (Some ("/tmp/x.scad", "cube(9);")) Scenario.w0 in
  fst run = Returned (UploadOk "/tmp/x.scad") /\
  FS.stat (fs (snd run)) (LIBRARIES_DIR env ++ "/" ++ "/tmp/x.scad") = None /\
  FS.stat (fs (snd run)) (LIBRARIES_DIR env) = FS.stat (fs Scenario.w0) (LIBRARIES_DIR env) /\
  FS.stat (fs (snd run)) "/tmp/x.scad" = Some (File "cube(9);").
Proof. repeat split; vm_compute; reflexivity. Qed.

(** C7, amended. A RegisterLibrary call without a file part, with an
    empty name or with a name that does not end in [".scad"] returns
    InvalidInput (status 400) and leaves the whole world, the pool
    included, as it was.  Any other call saves the upload at
    [os.path.join(poolRoot, name)], which is poolRoot/name for a name
    that does not start with a separator and the name itself for one
    that does: it returns either success, and then that path holds
    exactly the uploaded bytes, or the typed upload error; it returns
    success whenever the destination can be opened and no write fails. *)
Theorem C7_register_library :
  (forall env file w,
     match file with
     | Some (name, _) => valid_library_name name = false
     | None => True
     end ->
     exists msg, UploadLibrary_post env file w = (Returned (InvalidInput msg), w)) /\
  (forall env name content w,
     valid_library_name name = true ->
     let path := if Str.startswith name "/" then name
                 else (LIBRARIES_DIR env ++ "/" ++ name)%string in
     exists r w',
       UploadLibrary_post env (Some (name, content)) w = (Returned r, w') /\
       stl_cache w' = stl_cache w /\
       ((r = UploadOk name /\ FS.stat (fs w') path = Some (File content)) \/
        (exists e, r = UploadFailed e)) /\
       (io_fault env (SaveUpload path) = None ->
        io_fault env (WriteData path) = None ->
        (exists t0, FS.write_file (fs w) path "" = inr t0) ->
        r = UploadOk name)).
Proof.
  split.
  - intros env [[name content]|] w H; simpl.
    + unfold valid_library_name in H.
      destruct (String.eqb name ""); simpl in H.
      * eexists; reflexivity.
      * rewrite H. simpl. eexists; reflexivity.
    + eexists; reflexivity.
  - intros env name content w Hv. rewrite <- pool_path. intro path.
    rewrite (UploadLibrary_post_valid env name content w Hv). fold path.
    assert (Hpos : (0 < Upload.buffer_size)%nat) by (unfold Upload.buffer_size; lia).
    pose proof (UploadFacts.save_buffered_run env _ path content w Hpos) as Hrun.
    unfold FileStorage_save.
    destruct (FileStorage_save_buffered env Upload.buffer_size path content w)
      as [[[]|e] w'] eqn:Hsave.
    + exists (UploadOk name), w'. destruct Hrun as [Hst Hc].
      repeat split; [exact Hc | left; split; [reflexivity | exact Hst]].
    + exists (UploadFailed e), w'.
      split; [reflexivity|]. split; [exact Hrun|]. split; [right; eexists; reflexivity|].
      intros Hf1 Hf2 [t0 Ht0].
      destruct (UploadFacts.save_buffered_ok env _ path content w t0 Hpos Hf1 Hf2 Ht0)
        as [w'' Hok].
      congruence.
Qed.

Lemma C7_witness :
  (exists msg, UploadLibrary_post Scenario.env_good (Some ("notes.txt", "x")) Scenario.w0
               = (Returned (InvalidInput msg), Scenario.w0)) /\
  (exists w', UploadLibrary_post Scenario.env_good (Some ("a.scad", "module a(){}")) Scenario.w0
              = (Returned (UploadOk "a.scad"), w') /\
              FS.stat (fs w') "/app/libraries/a.scad" = Some (File "module a(){}")).
Proof.
  destruct C7_register_library as [Ha Hb]. split.
  - apply (Ha Scenario.env_good (Some ("notes.txt", "x")) Scenario.w0). reflexivity.
  - destruct (Hb Scenario.env_good "a.scad" "module a(){}" Scenario.w0 eq_refl)
      as (r & w' & Hrun & _ & Hcase & Hok).
    assert (Hr : r = UploadOk "a.scad").
    { apply Hok; [reflexivity | reflexivity |]. eexists. vm_compute. reflexivity. }
    subst r. exists w'. split; [exact Hrun|].
    destruct Hcase as [[_ Hst] | [e He]]; [exact Hst | discriminate].
Defined.

(** ** C8: how a library write becomes visible *)

(** C8, as stated, fails.  While [util.scad] is being replaced, the
    pool file is empty until the first buffer is written; a reader
    scheduled then sees neither the old nor the new payload, and a
    render staged then copies the truncated file into its workspace. *)
Lemma C8_reader_sees_partial_library :
  let env := Scenario.env_good in
  let dst := os_path_join (LIBRARIES_DIR env) "util.scad" in
  let new := Scenario.new_library in
  exists s0 s1,
    save_states env Upload.buffer_size dst new Scenario.w0 = [s0; s1] /\
    FS.stat (fs Scenario.w0) dst = Some (File "module u(){}") /\
    FS.stat (fs s0) dst = Some (File "") /\
    FS.stat (fs s1) dst = Some (File new) /\
    FS.stat (fs (snd (RenderScad_post env Scenario.req0 s0)))
            (os_path_join (model_dir env) "util.scad") = Some (File "").
Proof.
  do 2 eexists. split; [vm_compute; reflexivity|].
  repeat split; vm_compute; reflexivity.
Qed.

(** C8, amended. An accepted library upload is written in place at
    [os.path.join(poolRoot, name)]: once the destination is opened it is
    empty, every state met while the buffers are written holds a prefix
    of the payload at that path, the handler ends in the last of these
    states, and the path holds the whole payload when the handler
    reports success. *)
Theorem C8_library_write_is_in_place env name content w w0 :
  valid_library_name name = true ->
  let dst := os_path_join (LIBRARIES_DIR env) name in
  open_wb env dst w = (Returned tt, w0) ->
  let states := save_states env Upload.buffer_size dst content w in
  hd_error states = Some w0 /\
  FS.stat (fs w0) dst = Some (File "") /\
  Forall (fun s => exists written rest,
                     FS.stat (fs s) dst = Some (File written) /\
                     (written ++ rest)%string = content) states /\
  snd (UploadLibrary_post env (Some (name, content)) w) = List.last states w /\
  (fst (UploadLibrary_post env (Some (name, content)) w) = Returned (UploadOk name) ->
   FS.stat (fs (List.last states w)) dst = Some (File content)).
Proof.
  intros Hv dst Ho states.
  assert (Hpos : (0 < Upload.buffer_size)%nat) by (unfold Upload.buffer_size; lia).
  assert (Hst0 : FS.stat (fs w0) dst = Some (File "")).
  { unfold open_wb, bind, faulty, lift_fs in Ho.
    destruct (io_fault env (SaveUpload dst)); [discriminate|]. simpl in Ho.
    destruct (FS.write_file (fs w) dst "") as [e|t0] eqn:Hw; [discriminate|].
    inversion Ho; subst. apply (FSFacts.write_file_stat _ _ _ _ Hw). }
  destruct (UploadFacts.append_steps env dst _ Hpos (String.length content) content "" w0
              (le_n _) Hst0) as (Hall & Hlast & Hend).
  fold (Upload.buffers Upload.buffer_size content) in Hall, Hlast, Hend.
  assert (Hstates : states = w0 :: states_of (Upload.buffers Upload.buffer_size content)
                                             (append_data env dst) w0).
  { subst states. unfold save_states. rewrite Ho. reflexivity. }
  assert (Hrun : UploadLibrary_post env (Some (name, content)) w =
                 match for_each (Upload.buffers Upload.buffer_size content)
                                (append_data env dst) w0 with
                 | (Returned _, w') => (Returned (UploadOk name), w')
                 | (Raised e, w') => (Returned (UploadFailed e), w')
                 end).
  { rewrite (UploadLibrary_post_valid env name content w Hv). fold dst.
    unfold FileStorage_save, FileStorage_save_buffered, bind at 1. rewrite Ho. reflexivity. }
  assert (Hlast' : snd (UploadLibrary_post env (Some (name, content)) w) = List.last states w).
  { rewrite Hrun, Hstates.
    transitivity (snd (for_each (Upload.buffers Upload.buffer_size content)
                                (append_data env dst) w0)).
    - destruct (for_each _ (append_data env dst) w0) as [[[]|e] w']; reflexivity.
    - rewrite Hlast.
      destruct (states_of (Upload.buffers Upload.buffer_size content) (append_data env dst) w0)
        as [|s l]; [reflexivity|].
      change (List.last (w0 :: s :: l) w) with (List.last (s :: l) w).
      apply UploadFacts.last_default. }
  split; [rewrite Hstates; reflexivity|]. split; [exact Hst0|]. split; [|split].
  - rewrite Hstates. constructor.
    + exists "", content. split; [exact Hst0 | reflexivity].
    + eapply Forall_impl; [exact Hall|]. intros s (_ & acc' & rest' & H1 & H2).
      exists acc', rest'. split; [exact H1 | exact H2].
  - exact Hlast'.
  - intro Hok. rewrite <- Hlast'. rewrite Hrun in *.
    destruct (for_each _ (append_data env dst) w0) as [[[]|e] w'].
    + exact (proj1 Hend).
    + simpl in Hok. discriminate.
Qed.

Lemma C8_witness :
  exists w0,
    hd_error (save_states Scenario.env_good Upload.buffer_size "/app/libraries/util.scad"
                          "module u(){ cube(1); }" Scenario.w0) = Some w0 /\
    FS.stat (fs w0) "/app/libraries/util.scad" = Some (File "").
Proof.
  exists (snd (open_wb Scenario.env_good "/app/libraries/util.scad" Scenario.w0)).
  destruct (C8_library_write_is_in_place Scenario.env_good "util.scad" "module u(){ cube(1); }"
              Scenario.w0 (snd (open_wb Scenario.env_good "/app/libraries/util.scad" Scenario.w0))
              eq_refl) as (H1 & H2 & _).
  - vm_compute. reflexivity.
  - split; [exact H1 | exact H2].
Defined.

(** ** C9: the file parameter is not confined to the models root *)

(** C9. [View3D.get] refuses its [file] parameter exactly when it is
    missing, empty or does not end in [".stl"]; a parameter that passes
    and misses both the index and the scan is joined to the models root
    as it is; and parameters with [".."] fields or a leading separator
    pass, resolve outside the models root, and have the file there
    served. *)
Theorem C9_fetch_validation_and_traversal :
  (forall env file w,
     fst (View3D_get env file w) = Returned InvalidFileParameter <->
     match file with Some f => valid_filename f = false | None => True end) /\
  (forall env filename w,
     valid_filename filename = true ->
     stl_cache w !! filename = None ->
     scan_hit env filename (fs w) = None ->
     View3D_get env (Some filename) w
       = (Returned (serve (os_path_join (MODELS_DIR env) filename) (fs w)), w)) /\
  (let env := Scenario.env_good in
   let w := World Scenario.tree_secret ∅ in
   valid_filename "../../etc/key.stl" = true /\
   valid_filename "/etc/key.stl" = true /\
   under_root (normpath (MODELS_DIR env))
              (normpath (os_path_join (MODELS_DIR env) "../../etc/key.stl")) = false /\
   under_root (normpath (MODELS_DIR env))
              (normpath (os_path_join (MODELS_DIR env) "/etc/key.stl")) = false /\
   fst (View3D_get env (Some "../../etc/key.stl") w)
     = Returned (SendFile "/tmp/openscad_models/../../etc/key.stl" "secret"
                          "model/stl" false None) /\
   fst (View3D_get env (Some "/etc/key.stl") w)
     = Returned (SendFile "/etc/key.stl" "secret" "model/stl" false None)).
Proof.
  split; [|split].
  - intros env file w. split.
    + intro H. destruct file as [f|]; [|exact I].
      destruct (valid_filename f) eqn:Hv; [|reflexivity].
      rewrite (View3D_get_run env f w Hv) in H. simpl in H.
      inversion H as [H']. exfalso. exact (serve_not_invalid _ _ H').
    + intro H. rewrite (View3D_get_invalid env file w H). reflexivity.
  - intros env filename w Hv Hc Hs.
    rewrite (View3D_get_run env filename w Hv).
    unfold fetch_path. rewrite Hc, Hs. reflexivity.
  - repeat split; vm_compute; reflexivity.
Qed.

Lemma C9_witness :
  View3D_get Scenario.env_good (Some "../j1.stl") Scenario.w0
  = (Returned (serve (os_path_join (MODELS_DIR Scenario.env_good) "../j1.stl")
                     (fs Scenario.w0)), Scenario.w0).
Proof.
  destruct C9_fetch_validation_and_traversal as (_ & H & _).
  apply H; vm_compute; reflexivity.
Defined.

(** ** C10: a body without ['scadCode'] *)

(** C10. When the JSON body of a Render or RenderAndFetch request has no
    ['scadCode'] entry, is not a JSON object, or is not JSON at all, the
    handler raises an exception and the world (file system and index)
    is untouched: no workspace has been created and no typed error is
    returned. *)
Theorem C10_missing_scadCode_raises env body w :
  has_scadCode body = false ->
  exists e,
    RenderScad_post env body w = (Raised e, w) /\
    GetStl_post env body w = (Raised e, w).
Proof.
  intro H.
  assert (exists e, stage env body w = (Raised e, w)) as [e He].
  { unfold stage, bind. destruct body as [data|]; simpl in *.
    - destruct data; simpl in *; try (eexists; reflexivity).
      destruct (dict_get "scadCode" d); [discriminate|]. eexists; reflexivity.
    - eexists; reflexivity. }
  exists e. apply staging_exception_propagates. exact He.
Qed.

Lemma C10_witness :
  exists e,
    RenderScad_post Scenario.env_good (Some (PyDict [("code", PyStr "cube(2);")])) Scenario.w0
      = (Raised e, Scenario.w0) /\
    GetStl_post Scenario.env_good (Some (PyDict [("code", PyStr "cube(2);")])) Scenario.w0
      = (Raised e, Scenario.w0).
Proof. apply (C10_missing_scadCode_raises Scenario.env_good). reflexivity. Defined.

(** * Further properties of the handlers *)

(** ** Fetch is read-only and always answers *)

Lemma View3D_get_world env file w : snd (View3D_get env file w) = w.
Proof.
  destruct file as [f|]; [|reflexivity].
  destruct (valid_filename f) eqn:Hv.
  - rewrite (View3D_get_run env f w Hv). reflexivity.
  - rewrite (View3D_get_invalid env (Some f) w Hv). reflexivity.
Qed.

(** [View3D.get] returns for every parameter, leaves the world as it
    was, and answers with the invalid-parameter error, NotFound, the
    serving error, or the content of a regular file that exists at the
    path it names. *)
Theorem View3D_get_returns_read_only env file w :
  exists r,
    View3D_get env file w = (Returned r, w) /\
    (r = InvalidFileParameter \/ r = NotFound \/ (exists e, r = ServingError e) \/
     exists p data, r = SendFile p data "model/stl" false None /\
                    FS.stat (fs w) p = Some (File data)).
Proof.
  destruct file as [f|].
  - destruct (valid_filename f) eqn:Hv.
    + rewrite (View3D_get_run env f w Hv). eexists. split; [reflexivity|].
      unfold serve. destruct (FS.stat (fs w) (fetch_path env f w)) as [[data|es]|] eqn:Hst.
      * right; right; right. exists (fetch_path env f w), data. split; [reflexivity | exact Hst].
      * right; right; left. eexists; reflexivity.
      * right; left; reflexivity.
    + rewrite (View3D_get_invalid env (Some f) w Hv). eexists. split; [reflexivity | left; reflexivity].
  - rewrite (View3D_get_invalid env None w I). eexists. split; [reflexivity | left; reflexivity].
Qed.

(** ** Where exceptions can leave the render handlers *)




(** [GetStl.post] sends the file after its [try:] block.  An exception
    leaves it from staging or, the [try:] block passed, from [send_file]:
    then the compiler exited zero, its output decoded, the artifact path
    exists, and [RenderScad.post] returns its reference for the same
    request.  The second case occurs: a directory left at the artifact
    path makes [GetStl.post] raise. *)
Theorem GetStl_post_raises_from_staging_or_send_file env body w :
  (forall e w', GetStl_post env body w = (Raised e, w') ->
     stage env body w = (Raised e, w') \/
     exists w1 out err stdout stderr,
       stage env body w = (Returned tt, w1) /\
       spawn env (compiler_args env) (fs w1) = RunCompleted 0 out err (fs w') /\
       decode_text env out = inr stdout /\ decode_text env err = inr stderr /\
       FS.exists_ (fs w') (stl_file_path env) = true /\
       fst (RenderScad_post env body w) = Returned (RenderOk env)) /\
  (forall w1 out err stdout stderr t' es,
     stage env body w = (Returned tt, w1) ->
     spawn env (compiler_args env) (fs w1) = RunCompleted 0 out err t' ->
     decode_text env out = inr stdout -> decode_text env err = inr stderr ->
     FS.stat t' (stl_file_path env) = Some (Dir es) ->
     exists e w', GetStl_post env body w = (Raised e, w')).
Proof.
  rewrite GetStl_post_run, RenderScad_post_run. split.
  - intros e w'.
    destruct (stage env body w) as [[[]|e0] w1] eqn:Hs; [|intro H; left; congruence].
    unfold getstl_after_stage, render_after_stage, captured_text.
    destruct (spawn env (compiler_args env) (fs w1)) as [e1|rc out err t'] eqn:Hr;
      [discriminate|].
    destruct (decode_text env out) as [msg|stdout] eqn:Ho; [discriminate|].
    destruct (decode_text env err) as [msg|stderr] eqn:He; [discriminate|].
    destruct (Z.eqb_spec rc 0) as [->|Hrc]; [|discriminate].
    destruct (FS.exists_ t' (stl_file_path env)) eqn:Hex; [|discriminate].
    unfold send_file. simpl.
    destruct (FS.stat t' (stl_file_path env)) as [[data|es]|]; [discriminate| |];
      intro H; inversion H; subst; right; exists w1, out, err, stdout, stderr;
      repeat split; assumption.
  - intros w1 out err stdout stderr t' es Hs Hr Ho He Hst. rewrite Hs.
    unfold getstl_after_stage, captured_text. rewrite Hr, Ho, He.
    change (Z.eqb 0 0) with true. cbv iota.
    unfold FS.exists_, send_file. simpl. rewrite Hst. do 2 eexists. reflexivity.
Qed.

Lemma GetStl_post_raises_witness :
  (exists e w', GetStl_post Scenario2.env_mkdir Scenario.req0 Scenario.w0 = (Raised e, w')) /\
  fst (RenderScad_post Scenario2.env_mkdir Scenario.req0 Scenario.w0)
    = Returned (RenderOk Scenario2.env_mkdir).
Proof.
  destruct (GetStl_post_raises_from_staging_or_send_file
              Scenario2.env_mkdir Scenario.req0 Scenario.w0) as [Ha Hb].
  assert (Hraise : exists e w',
            GetStl_post Scenario2.env_mkdir Scenario.req0 Scenario.w0 = (Raised e, w')).
  { apply (Hb (snd (stage Scenario2.env_mkdir Scenario.req0 Scenario.w0)) "" "" "" ""
              (fs (snd (GetStl_post Scenario2.env_mkdir Scenario.req0 Scenario.w0))) []).
    all: vm_compute; reflexivity. }
  split; [exact Hraise|].
  destruct Hraise as (e & w' & Hg).
  destruct (Ha e w' Hg) as [H | (w1 & out & err & so & se & _ & _ & _ & _ & _ & H)].
  - exfalso. vm_compute in H. discriminate.
  - exact H.
Defined.

(** With captured output that is no text, both render handlers answer
    with the generic error once the compiler has run, whatever its exit
    code: the file system is the one the compiler left, its output file
    included, and the index is the one before the request. *)
Theorem undecodable_output_registers_nothing env body w w1 rc out err t' msg :
  stage env body w = (Returned tt, w1) ->
  spawn env (compiler_args env) (fs w1) = RunCompleted rc out err t' ->
  decode_text env out = inl msg \/
  (exists stdout, decode_text env out = inr stdout /\ decode_text env err = inl msg) ->
  RenderScad_post env body w
    = (Returned (Unexpected (UnicodeDecodeError msg)), World t' (stl_cache w)) /\
  GetStl_post env body w
    = (Returned (Unexpected (UnicodeDecodeError msg)), World t' (stl_cache w)).
Proof.
  intros Hs Hr Hd. rewrite RenderScad_post_run, GetStl_post_run, Hs.
  unfold render_after_stage, getstl_after_stage, captured_text.
  rewrite Hr, (stage_cache _ _ _ _ _ Hs).
  destruct Hd as [Ho | (stdout & Ho & He)]; rewrite Ho; [|rewrite He]; split; reflexivity.
Qed.

Lemma undecodable_output_registers_nothing_witness :
  let env := Scenario.env_undecodable in
  let run := RenderScad_post env Scenario.req0 Scenario.w0 in
  (exists msg, fst run = Returned (Unexpected (UnicodeDecodeError msg))) /\
  stl_cache (snd run) = stl_cache Scenario.w0 /\
  FS.stat (fs (snd run)) (stl_file_path env) = Some (File "solid cube").
Proof.
  intros env run.
  destruct (undecodable_output_registers_nothing env Scenario.req0 Scenario.w0
              (snd (stage env Scenario.req0 Scenario.w0)) 0%Z (String "255" EmptyString) ""
              (fs (snd run))
              "'utf-8' codec can't decode byte 0xff in position 0: invalid start byte")
    as [H _].
  - vm_compute. reflexivity.
  - vm_compute. reflexivity.
  - left. vm_compute. reflexivity.
  - subst run. rewrite H. split; [eexists; reflexivity|]. split; [reflexivity|].
    vm_compute. reflexivity.
Defined.

(** ** Job identifiers, artifact ids and workspaces *)

Module PathFacts.
Import Str.

Lemma has_sep_app a b : has_sep (a ++ b) = has_sep a || has_sep b.
Proof.
  induction a as [|c a IH]; [reflexivity|].
  rewrite StrFacts.append_cons. simpl. rewrite IH. apply orb_assoc.
Qed.

Lemma endswith_sep_inv a : endswith a "/" = true -> exists a', a = (a' ++ "/")%string.
Proof.
  induction a as [|c a IH]; simpl; [discriminate|].
  intro H. apply orb_true_iff in H as [H|H].
  - exists "". destruct (Ascii.eqb_spec c "/") as [->|]; [|discriminate].
    destruct a; [reflexivity | discriminate].
  - destruct (IH H) as [a' ->]. exists (String c a'). reflexivity.
Qed.

(** [basename(join(a, b)) == b] for a name without separator. *)
Lemma basename_join a b : has_sep b = false -> os_path_basename (os_path_join a b) = b.
Proof.
  intro Hb. unfold os_path_join. rewrite (WalkFacts.nosep_startswith b Hb).
  assert (Hsplit : forall x, os_path_basename (x ++ "/" ++ b) = b).
  { intro x. unfold os_path_basename.
    rewrite StrFacts.split_sep_app, (StrFacts.split_sep_nosep b Hb).
    apply StrFacts.last_snoc. }
  destruct (String.eqb_spec a "") as [->|Ha]; simpl.
  - unfold os_path_basename. rewrite StrFacts.append_nil_l, (StrFacts.split_sep_nosep b Hb).
    reflexivity.
  - destruct (endswith a "/") eqn:He.
    + destruct (endswith_sep_inv a He) as [a' ->].
      rewrite StrFacts.append_assoc. apply Hsplit.
    + apply Hsplit.
Qed.

Lemma length_append (a b : string) :
  String.length (a ++ b) = (String.length a + String.length b)%nat.
Proof.
  induction a as [|x a IH]; [reflexivity|].
  rewrite StrFacts.append_cons. simpl. rewrite IH. reflexivity.
Qed.

Lemma append_inj_r (a b c : string) : (a ++ c = b ++ c)%string -> a = b.
Proof.
  revert b. induction a as [|x a IH]; intros [|y b] H.
  - reflexivity.
  - exfalso. apply (f_equal String.length) in H.
    rewrite StrFacts.append_nil_l, StrFacts.append_cons in H. simpl in H.
    rewrite length_append in H. lia.
  - exfalso. apply (f_equal String.length) in H.
    rewrite StrFacts.append_nil_l, StrFacts.append_cons in H. simpl in H.
    rewrite length_append in H. lia.
  - rewrite !StrFacts.append_cons in H. inversion H; subst. f_equal. apply IH. assumption.
Qed.

(** With separator-free identifiers, the artifact id is the identifier
    followed by [".stl"] and the workspace is named by the identifier. *)
Lemma artifact_id_eq env :
  has_sep (uuid4 env) = false -> artifact_id env = (uuid4 env ++ ".stl")%string.
Proof.
  intro He. unfold artifact_id, stl_file_path. apply basename_join.
  rewrite has_sep_app, He. reflexivity.
Qed.

Lemma model_dir_basename env :
  has_sep (uuid4 env) = false -> os_path_basename (model_dir env) = uuid4 env.
Proof. intro He. unfold model_dir. apply basename_join. exact He. Qed.

Lemma artifact_id_inj env env' :
  has_sep (uuid4 env) = false -> has_sep (uuid4 env') = false ->
  uuid4 env' <> uuid4 env -> artifact_id env' <> artifact_id env.
Proof.
  intros Hu Hu' Hne. rewrite (artifact_id_eq env Hu), (artifact_id_eq env' Hu').
  intro E. apply Hne. apply (append_inj_r _ _ ".stl"). exact E.
Qed.

End PathFacts.

(** The artifact id of a job is its identifier followed by [".stl"];
    two jobs with different identifiers have different artifact ids,
    different workspace directories and different artifact paths. *)
Theorem artifact_id_of_uuid env :
  Str.has_sep (uuid4 env) = false ->
  artifact_id env = (uuid4 env ++ ".stl")%string /\
  os_path_basename (model_dir env) = uuid4 env /\
  forall env', Str.has_sep (uuid4 env') = false -> uuid4 env' <> uuid4 env ->
    artifact_id env' <> artifact_id env /\
    model_dir env' <> model_dir env /\
    stl_file_path env' <> stl_file_path env.
Proof.
  intro Hu.
  split; [exact (PathFacts.artifact_id_eq env Hu)|].
  split; [exact (PathFacts.model_dir_basename env Hu)|].
  intros env' Hu' Hne.
  pose proof (PathFacts.artifact_id_inj env env' Hu Hu' Hne) as Hids.
  split; [exact Hids|]. split.
  - intro E. apply Hne.
    rewrite <- (PathFacts.model_dir_basename env Hu),
            <- (PathFacts.model_dir_basename env' Hu'), E. reflexivity.
  - intro E. apply Hids. unfold artifact_id. rewrite E. reflexivity.
Qed.

Lemma artifact_id_of_uuid_witness :
  artifact_id Scenario.env_good = "0b0e7a52-6a5e-4f0e-9d8c-1f2e3d4c5b6a.stl" /\
  artifact_id Scenario2.env_second <> artifact_id Scenario.env_good.
Proof.
  destruct (artifact_id_of_uuid Scenario.env_good eq_refl) as (H1 & _ & H2).
  split; [exact H1|].
  apply (H2 Scenario2.env_second eq_refl). discriminate.
Defined.

(** ** Index entries of other jobs *)

Lemma RenderScad_post_cache env body w id :
  id <> artifact_id env ->
  stl_cache (snd (RenderScad_post env body w)) !! id = stl_cache w !! id.
Proof.
  intro Hid. rewrite RenderScad_post_run.
  destruct (stage env body w) as [[[]|e] w1] eqn:Hs;
    pose proof (stage_cache _ _ _ _ _ Hs) as Hc; simpl; [|rewrite Hc; reflexivity].
  unfold render_after_stage.
  destruct (spawn env (compiler_args env) (fs w1)) as [e|rc out err t']; simpl;
    [rewrite Hc; reflexivity|].
  destruct (captured_text env out err) as [msg|[stdout stderr]]; simpl;
    [rewrite Hc; reflexivity|].
  destruct (Z.eqb rc 0); simpl; rewrite <- Hc; [|reflexivity].
  apply lookup_insert_ne. congruence.
Qed.

Lemma GetStl_post_keeps_cache env body : keeps_cache (GetStl_post env body).
Proof.
  intro w. rewrite GetStl_post_run.
  destruct (stage env body w) as [[[]|e] w1] eqn:Hs;
    pose proof (stage_cache _ _ _ _ _ Hs) as Hc; simpl; [|exact Hc].
  unfold getstl_after_stage.
  destruct (spawn env (compiler_args env) (fs w1)) as [e|rc out err t']; simpl; [exact Hc|].
  destruct (captured_text env out err) as [msg|[stdout stderr]]; simpl; [exact Hc|].
  destruct (Z.eqb rc 0); simpl; [|exact Hc].
  destruct (FS.exists_ t' (stl_file_path env)); simpl; [|exact Hc].
  rewrite keeps_cache_send_file. exact Hc.
Qed.

Lemma UploadLibrary_post_keeps_cache env file : keeps_cache (UploadLibrary_post env file).
Proof.
  intro w. destruct file as [[name content]|]; [|reflexivity].
  destruct (valid_library_name name) eqn:Hv.
  - rewrite (UploadLibrary_post_valid env name content w Hv).
    assert (Hpos : (0 < Upload.buffer_size)%nat) by (unfold Upload.buffer_size; lia).
    pose proof (UploadFacts.save_buffered_run env _
                  (os_path_join (LIBRARIES_DIR env) name) content w Hpos) as H.
    unfold FileStorage_save.
    destruct (FileStorage_save_buffered env Upload.buffer_size _ content w) as [[[]|e] w'];
      simpl; [exact (proj2 H) | exact H].
  - unfold valid_library_name in Hv. unfold UploadLibrary_post.
    destruct (String.eqb name ""); simpl in *; [reflexivity|]. rewrite Hv. reflexivity.
Qed.

(** Once a job's artifact id is in the index, no later request touches
    the entry unless it is a render that draws the same identifier: not
    a render with another identifier, not RenderAndFetch, Fetch or
    RegisterLibrary. *)
Theorem index_entry_is_kept env w :
  Str.has_sep (uuid4 env) = false ->
  (forall env' body, Str.has_sep (uuid4 env') = false -> uuid4 env' <> uuid4 env ->
     stl_cache (snd (RenderScad_post env' body w)) !! artifact_id env
       = stl_cache w !! artifact_id env) /\
  (forall env' body, stl_cache (snd (GetStl_post env' body w)) = stl_cache w) /\
  (forall env' file, stl_cache (snd (View3D_get env' file w)) = stl_cache w) /\
  (forall env' file, stl_cache (snd (UploadLibrary_post env' file w)) = stl_cache w).
Proof.
  intro Hu. split; [|split; [|split]].
  - intros env' body Hu' Hne. apply RenderScad_post_cache.
    intro E. apply (PathFacts.artifact_id_inj env env' Hu Hu' Hne). congruence.
  - intros env' body. apply GetStl_post_keeps_cache.
  - intros env' file. rewrite View3D_get_world. reflexivity.
  - intros env' file. apply UploadLibrary_post_keeps_cache.
Qed.

Lemma index_entry_is_kept_witness :
  let w1 := snd (RenderScad_post Scenario.env_good Scenario.req0 Scenario.w0) in
  stl_cache (snd (RenderScad_post Scenario2.env_second Scenario.req0 w1))
    !! artifact_id Scenario.env_good = stl_cache w1 !! artifact_id Scenario.env_good.
Proof.
  intro w1.
  destruct (index_entry_is_kept Scenario.env_good w1 eq_refl) as [H _].
  apply (H Scenario2.env_second Scenario.req0 eq_refl). discriminate.
Defined.

(** ** What a write leaves alone *)

Module FrameFacts.
Import FS.

Lemma put_node_dir_shape q c : forall t n t',
  put_node t (c :: q) n = Some t' ->
  exists es x, t = Dir es /\ t' = Dir (set_entry c x es).
Proof.
  intros t n t' H. simpl in H. destruct t as [d|es]; [discriminate|].
  destruct q as [|c' q'].
  - inversion H. eexists _, _. split; reflexivity.
  - destruct (lookup_entry c es); [|discriminate].
    destruct (put_node n0 (c' :: q') n); [|discriminate].
    inversion H. eexists _, _. split; reflexivity.
Qed.

(** A node put at [q] leaves every location alone that neither lies
    below [q] nor above it. *)
Lemma put_get_other q : forall t n t' q',
  put_node t q n = Some t' ->
  (forall r, q' <> q ++ r) -> (forall r, q <> q' ++ r) ->
  get_node t' q' = get_node t q'.
Proof.
  induction q as [|c q IH]; intros t n t' q' Hp H1 H2.
  - exfalso. apply (H1 q'). reflexivity.
  - destruct q' as [|c' q'']; [exfalso; apply (H2 (c :: q)); reflexivity|].
    destruct (put_node_dir_shape q c t n t' Hp) as (es & x & -> & Ht').
    destruct (String.eqb_spec c c') as [<-|Hne].
    + simpl in Hp. destruct q as [|c1 q1].
      * exfalso. apply (H1 q''). reflexivity.
      * destruct (lookup_entry c es) as [m|] eqn:Hm; [|discriminate].
        destruct (put_node m (c1 :: q1) n) as [m'|] eqn:Hp'; [|discriminate].
        inversion Hp; subst t'. cbn [get_node].
        rewrite FSFacts.lookup_set_entry_eq, Hm.
        apply (IH m n m' q'' Hp').
        -- intros r E. apply (H1 r). simpl. rewrite E. reflexivity.
        -- intros r E. apply (H2 r). simpl. rewrite E. reflexivity.
    + subst t'. cbn [get_node]. rewrite FSFacts.lookup_set_entry_ne by exact Hne.
      reflexivity.
Qed.

(** A regular file written over a non-directory keeps every other
    regular file. *)
Lemma put_file_keeps_file q : forall t t' data q' d',
  put_node t q (File data) = Some t' ->
  (forall es, get_node t q <> Some (Dir es)) ->
  q' <> q -> get_node t q' = Some (File d') -> get_node t' q' = Some (File d').
Proof.
  induction q as [|c q IH]; intros t t' data q' d' Hp Hnd Hne Hg.
  - simpl in Hp. destruct t as [d0|es]; [|exfalso; exact (Hnd es eq_refl)].
    destruct q'; [contradiction | discriminate].
  - destruct (put_node_dir_shape q c t (File data) t' Hp) as (es & x & -> & Ht').
    destruct q' as [|c' q'']; [discriminate|].
    destruct (String.eqb_spec c c') as [<-|Hc].
    + simpl in Hp. destruct q as [|c1 q1].
      * exfalso. cbn [get_node] in Hnd, Hg.
        destruct (lookup_entry c es) as [[d1|es1]|]; try discriminate.
        -- destruct q''; [contradiction | discriminate].
        -- exact (Hnd es1 eq_refl).
      * destruct (lookup_entry c es) as [m|] eqn:Hm; [|discriminate].
        destruct (put_node m (c1 :: q1) (File data)) as [m'|] eqn:Hp'; [|discriminate].
        inversion Hp; subst t'. cbn [get_node] in *.
        rewrite FSFacts.lookup_set_entry_eq. rewrite Hm in Hg, Hnd.
        apply (IH m m' data q'' d' Hp' Hnd); [congruence | exact Hg].
    + subst t'. cbn [get_node] in *. rewrite FSFacts.lookup_set_entry_ne by exact Hc.
      exact Hg.
Qed.

(** All that a successful [write_file] does, by location. *)
Lemma write_file_frame t p data t' :
  write_file t p data = inr t' ->
  exists q,
    resolve t p = Some q /\
    get_node t' q = Some (File data) /\
    (forall c, is_dir t' c = is_dir t c) /\
    (forall p', resolve t' p' = resolve t p') /\
    (forall q' d', q' <> q -> get_node t q' = Some (File d') ->
                   get_node t' q' = Some (File d')).
Proof.
  intro H. destruct (FSFacts.write_file_inv _ _ _ _ H) as (q & Hr & Hp & Hnd).
  exists q. split; [exact Hr|]. split; [apply (FSFacts.get_put_same q t _ t' Hp)|].
  split; [intro c; apply (FSFacts.is_dir_put_file q t t' data c Hp Hnd)|].
  split; [apply (FSFacts.write_file_resolve _ _ _ _ H)|].
  intros q' d' Hne Hg. apply (put_file_keeps_file q t t' data q' d' Hp Hnd Hne Hg).
Qed.

(** A directory created where nothing stood keeps every directory. *)
Lemma put_dir_keeps_dirs q : forall t t' c,
  put_node t q (Dir []) = Some t' -> get_node t q = None ->
  is_dir t c = true -> is_dir t' c = true.
Proof.
  unfold is_dir.
  induction q as [|c0 q IH]; intros t t' c Hp Hg Hd; [discriminate|].
  destruct (put_node_dir_shape q c0 t (Dir []) t' Hp) as (es & x & -> & Ht').
  destruct c as [|c1 c']; [subst t'; reflexivity|].
  destruct (String.eqb_spec c0 c1) as [<-|Hne].
  - simpl in Hp. destruct q as [|c2 q2].
    + exfalso. cbn [get_node] in Hg, Hd.
      destruct (lookup_entry c0 es); [discriminate | discriminate].
    + destruct (lookup_entry c0 es) as [m|] eqn:Hm; [|discriminate].
      destruct (put_node m (c2 :: q2) (Dir [])) as [m'|] eqn:Hp'; [|discriminate].
      inversion Hp; subst t'. cbn [get_node] in *.
      rewrite FSFacts.lookup_set_entry_eq. rewrite Hm in Hg, Hd.
      apply (IH m m' c' Hp' Hg Hd).
  - subst t'. cbn [get_node] in *. rewrite FSFacts.lookup_set_entry_ne by exact Hne.
    exact Hd.
Qed.

Lemma canon_mono t t' :
  (forall c, is_dir t c = true -> is_dir t' c = true) ->
  forall fields cur q, canon t cur fields = Some q -> canon t' cur fields = Some q.
Proof.
  intro Hm. induction fields as [|f fs IH]; intros cur q H; simpl in *; [exact H|].
  destruct (is_dir t cur) eqn:Hd; [|discriminate]. rewrite (Hm cur Hd).
  destruct (String.eqb f "" || String.eqb f "."); [apply IH; exact H|].
  destruct (String.eqb f ".."); apply IH; exact H.
Qed.

Lemma resolve_mono t t' p q :
  (forall c, is_dir t c = true -> is_dir t' c = true) ->
  resolve t p = Some q -> resolve t' p = Some q.
Proof.
  intros Hm. unfold resolve. destruct (String.eqb p ""); [discriminate|].
  apply canon_mono. exact Hm.
Qed.

Lemma put_parent_exists q : forall t es c n,
  get_node t q = Some (Dir es) -> exists t', put_node t (q ++ [c]) n = Some t'.
Proof.
  induction q as [|c0 q IH]; intros t es c n H.
  - simpl in H. inversion H; subst. simpl. eexists; reflexivity.
  - simpl in H. destruct t as [d|es0]; [discriminate|].
    destruct (lookup_entry c0 es0) as [m|] eqn:Hm; [|discriminate].
    destruct (IH m es c n H) as [m' Hm'].
    simpl. rewrite Hm, Hm'.
    destruct (q ++ [c]) eqn:E; [destruct q; discriminate|]. eexists; reflexivity.
Qed.

Lemma get_node_prefix_some a : forall t b x,
  get_node t (a ++ b) = Some x -> exists es, b = [] \/ get_node t a = Some (Dir es).
Proof.
  intros t b x H. rewrite WalkFacts.get_node_app in H.
  destruct (get_node t a) as [[d|es]|]; try discriminate.
  - exists []. left. destruct b; [reflexivity | discriminate].
  - exists es. right. reflexivity.
Qed.

End FrameFacts.

(** ** [os.makedirs] *)

Module MakedirsFacts.
Import FS.

Lemma canon_start_dir t l : forall c q,
  canon t c l = Some q -> is_dir t q = true -> is_dir t c = true.
Proof.
  destruct l as [|f fs]; intros c q H Hq; simpl in H.
  - inversion H; subst. exact Hq.
  - destruct (is_dir t c); [reflexivity | discriminate].
Qed.

Lemma is_dir_inv t c : is_dir t c = true -> exists es, get_node t c = Some (Dir es).
Proof.
  unfold is_dir. destruct (get_node t c) as [[d|es]|]; try discriminate.
  intros _. exists es. reflexivity.
Qed.

Lemma is_dir_child t cur f es :
  get_node t cur = Some (Dir es) ->
  is_dir t (cur ++ [f]) = match lookup_entry f es with Some (Dir _) => true | _ => false end.
Proof.
  intro Hg. unfold is_dir. rewrite WalkFacts.get_node_app, Hg. simpl.
  destruct (lookup_entry f es) as [[d|es']|]; reflexivity.
Qed.

Lemma is_dir_parent t cur : is_dir t cur = true -> is_dir t (removelast cur) = true.
Proof.
  intro H. induction cur as [|c cur' _] using rev_ind; [exact H|].
  rewrite removelast_last. destruct (is_dir_inv _ _ H) as [es Hg].
  destruct (FrameFacts.get_node_prefix_some cur' t [c] _ Hg) as [es' [E|Hp]]; [discriminate|].
  unfold is_dir. rewrite Hp. reflexivity.
Qed.

(** Fields that lead through existing directories create nothing. *)
Lemma makedirs_fields_existing t l1 : forall cur q l2,
  canon t cur l1 = Some q -> is_dir t q = true ->
  makedirs_fields t cur (l1 ++ l2) = makedirs_fields t q l2.
Proof.
  induction l1 as [|f l1 IH]; intros cur q l2 Hc Hq.
  - simpl in Hc. inversion Hc; subst. reflexivity.
  - pose proof (canon_start_dir t (f :: l1) cur q Hc Hq) as Hcur.
    destruct (is_dir_inv _ _ Hcur) as [es Hg].
    simpl in Hc. rewrite Hcur in Hc. cbn [app makedirs_fields]. rewrite Hg.
    destruct (String.eqb f "" || String.eqb f "."); [apply IH; assumption|].
    destruct (String.eqb f ".."); [apply IH; assumption|].
    pose proof (canon_start_dir t l1 (cur ++ [f]) q Hc Hq) as Hch.
    rewrite (is_dir_child t cur f es Hg) in Hch.
    destruct (lookup_entry f es) as [[d|es']|]; try discriminate.
    apply IH; assumption.
Qed.

(** [exist_ok=True]: a directory that exists is left as it is. *)
Lemma makedirs_exist_ok t p : isdir t p = true -> makedirs t p = inr t.
Proof.
  unfold isdir, stat, makedirs, resolve.
  destruct (String.eqb p ""); [discriminate|].
  destruct (canon t [] (Str.split_sep p)) as [q|] eqn:Hc; [|discriminate].
  intro H.
  assert (Hq : is_dir t q = true).
  { unfold is_dir. destruct (get_node t q) as [[d|es]|]; try discriminate. reflexivity. }
  rewrite <- (app_nil_r (Str.split_sep p)).
  rewrite (makedirs_fields_existing t _ [] q [] Hc Hq). reflexivity.
Qed.

(** Creating directories keeps the directories there are. *)
Lemma makedirs_fields_keeps_dirs fields : forall t cur t',
  makedirs_fields t cur fields = inr t' ->
  forall c, is_dir t c = true -> is_dir t' c = true.
Proof.
  induction fields as [|f fs IH]; intros t cur t' H c Hc; simpl in H.
  - inversion H; subst. exact Hc.
  - destruct (get_node t cur) as [[d|es]|] eqn:Hg; try discriminate.
    destruct (String.eqb f "" || String.eqb f "."); [apply (IH t cur t' H c Hc)|].
    destruct (String.eqb f ".."); [apply (IH t _ t' H c Hc)|].
    destruct (lookup_entry f es) as [[d|es']|] eqn:Hl; try discriminate.
    + apply (IH t _ t' H c Hc).
    + destruct (put_node t (cur ++ [f]) (Dir [])) as [t1|] eqn:Hp; [|discriminate].
      apply (IH t1 _ t' H c).
      apply (FrameFacts.put_dir_keeps_dirs (cur ++ [f]) t t1 c Hp); [|exact Hc].
      rewrite WalkFacts.get_node_app, Hg. simpl. rewrite Hl. reflexivity.
Qed.

(** After [makedirs] the path leads to a directory. *)
Lemma makedirs_fields_result fields : forall t cur t',
  is_dir t cur = true ->
  makedirs_fields t cur fields = inr t' ->
  exists q, canon t' cur fields = Some q /\ is_dir t' q = true.
Proof.
  induction fields as [|f fs IH]; intros t cur t' Hcur H.
  - simpl in H. inversion H; subst. exists cur. split; [reflexivity | exact Hcur].
  - pose proof (makedirs_fields_keeps_dirs (f :: fs) t cur t' H cur Hcur) as Hcur'.
    simpl in H. simpl. rewrite Hcur'.
    destruct (get_node t cur) as [[d|es]|] eqn:Hg; try discriminate.
    destruct (String.eqb f "" || String.eqb f "."); [apply (IH t cur t' Hcur H)|].
    destruct (String.eqb f "..").
    { apply (IH t _ t' (is_dir_parent t cur Hcur) H). }
    destruct (lookup_entry f es) as [[d|es']|] eqn:Hl; try discriminate.
    + apply (IH t _ t'); [|exact H]. rewrite (is_dir_child t cur f es Hg), Hl. reflexivity.
    + destruct (put_node t (cur ++ [f]) (Dir [])) as [t1|] eqn:Hp; [|discriminate].
      apply (IH t1 _ t'); [|exact H].
      unfold is_dir. rewrite (FSFacts.get_put_same _ _ _ _ Hp). reflexivity.
Qed.

Lemma makedirs_isdir t p t' : makedirs t p = inr t' -> isdir t' p = true.
Proof.
  unfold makedirs, isdir, stat, resolve.
  destruct (String.eqb p ""); [discriminate|]. intro H.
  assert (Hroot : is_dir t [] = true).
  { pose proof (StrFacts.split_sep_nonempty p) as Hne.
    destruct (Str.split_sep p) as [|f fs]; [contradiction|]. simpl in H.
    unfold is_dir. simpl. destruct t; [discriminate | reflexivity]. }
  destruct (makedirs_fields_result _ t [] t' Hroot H) as (q & Hc & Hq).
  rewrite Hc. destruct (is_dir_inv _ _ Hq) as [es ->]. reflexivity.
Qed.

Lemma makedirs_keeps_isdir t p t' p' :
  makedirs t p = inr t' -> isdir t p' = true -> isdir t' p' = true.
Proof.
  unfold makedirs. destruct (String.eqb p ""); [discriminate|]. intros H.
  pose proof (makedirs_fields_keeps_dirs _ t [] t' H) as Hm.
  unfold isdir, stat. destruct (resolve t p') as [q|] eqn:Hr; [|discriminate].
  rewrite (FrameFacts.resolve_mono t t' p' q Hm Hr).
  intro Hd. assert (Hq : is_dir t q = true).
  { unfold is_dir. destruct (get_node t q) as [[d|es]|]; try discriminate. reflexivity. }
  destruct (is_dir_inv _ _ (Hm q Hq)) as [es ->]. reflexivity.
Qed.

(** A fresh entry of an existing directory is created empty. *)
Lemma makedirs_fresh t top loc es u :
  resolve t top = Some loc -> Str.endswith top "/" = false ->
  get_node t loc = Some (Dir es) -> valid_name u = true -> lookup_entry u es = None ->
  exists t', makedirs t (os_path_join top u) = inr t' /\
             put_node t (loc ++ [u]) (Dir []) = Some t'.
Proof.
  intros Hr He Hg Hv Hl.
  pose proof (WalkFacts.resolve_nonempty _ _ _ Hr) as Ht.
  destruct (WalkFacts.join_name top u Ht He Hv) as [-> _].
  destruct (WalkFacts.valid_name_inv u Hv) as (Hn & Hdot & Hdd & Hs).
  destruct (FrameFacts.put_parent_exists loc t es u (Dir []) Hg) as [t' Hp].
  exists t'. split; [|exact Hp].
  unfold makedirs. rewrite StrFacts.eqb_app_nonempty by discriminate.
  rewrite StrFacts.split_sep_app, (StrFacts.split_sep_nosep u Hs).
  unfold resolve in Hr. rewrite Ht in Hr.
  assert (Hq : is_dir t loc = true) by (unfold is_dir; rewrite Hg; reflexivity).
  rewrite (makedirs_fields_existing t _ [] loc [u] Hr Hq).
  simpl. rewrite Hg, Hn, Hdot, Hdd. simpl. rewrite Hl, Hp. reflexivity.
Qed.

End MakedirsFacts.

(** ** Importing the module *)

(** When the module-level statements succeed, the models root and the
    library pool are directories and the index is untouched; when both
    are directories already and no fault occurs, they leave the world as
    it is ([exist_ok=True]). *)
Theorem startup_creates_directories env w :
  (forall w', startup env w = (Returned tt, w') ->
     FS.isdir (fs w') (MODELS_DIR env) = true /\
     FS.isdir (fs w') (LIBRARIES_DIR env) = true /\
     stl_cache w' = stl_cache w) /\
  (FS.isdir (fs w) (MODELS_DIR env) = true ->
   FS.isdir (fs w) (LIBRARIES_DIR env) = true ->
   io_fault env (MakeDirs (MODELS_DIR env)) = None ->
   io_fault env (MakeDirs (LIBRARIES_DIR env)) = None ->
   startup env w = (Returned tt, w)).
Proof.
  unfold startup, os_makedirs, bind, faulty, lift_fs. split.
  - intros w'.
    destruct (io_fault env (MakeDirs (MODELS_DIR env))); [discriminate|]. simpl.
    destruct (FS.makedirs (fs w) (MODELS_DIR env)) as [e|t1] eqn:H1; [discriminate|]. simpl.
    destruct (io_fault env (MakeDirs (LIBRARIES_DIR env))); [discriminate|]. simpl.
    destruct (FS.makedirs t1 (LIBRARIES_DIR env)) as [e|t2] eqn:H2; [discriminate|].
    intro H; inversion H; subst; clear H. simpl.
    split; [|split; [|reflexivity]].
    + apply (MakedirsFacts.makedirs_keeps_isdir _ _ _ _ H2).
      apply (MakedirsFacts.makedirs_isdir _ _ _ H1).
    + apply (MakedirsFacts.makedirs_isdir _ _ _ H2).
  - intros Hm Hl F1 F2. rewrite F1. simpl.
    rewrite (MakedirsFacts.makedirs_exist_ok _ _ Hm). simpl. rewrite F2. simpl.
    rewrite (MakedirsFacts.makedirs_exist_ok _ _ Hl). destruct w; reflexivity.
Qed.

Lemma startup_creates_directories_witness :
  FS.isdir (fs (snd (startup Scenario.env_good (World Scenario2.tree_bare ∅))))
           "/tmp/openscad_models" = true /\
  FS.isdir (fs (snd (startup Scenario.env_good (World Scenario2.tree_bare ∅))))
           "/app/libraries" = true.
Proof.
  destruct (startup_creates_directories Scenario.env_good (World Scenario2.tree_bare ∅))
    as [H _].
  destruct (H (snd (startup Scenario.env_good (World Scenario2.tree_bare ∅))))
    as (H1 & H2 & _).
  - vm_compute. reflexivity.
  - split; [exact H1 | exact H2].
Defined.

(** ** Staging a workspace *)

(** Copies and writes of regular files neither make nor remove a
    directory. *)
Lemma keeps_dirs_ret {A} (a : A) : keeps_dirs (ret a).
Proof. intro w. split; reflexivity. Qed.

Lemma keeps_dirs_raise {A} (e : exn) : keeps_dirs (@raise A e).
Proof. intro w. split; reflexivity. Qed.

Lemma keeps_dirs_bind {A B} (m : M A) (k : A -> M B) :
  keeps_dirs m -> (forall a, keeps_dirs (k a)) -> keeps_dirs (bind m k).
Proof.
  intros Hm Hk w. unfold bind. specialize (Hm w).
  destruct (m w) as [[a|e] w']; simpl in *; [|exact Hm].
  destruct (Hk a w') as [K1 K2]. destruct Hm as [M1 M2].
  split; intros; [rewrite K1 | rewrite K2]; auto.
Qed.

Lemma keeps_dirs_for_each {A} (l : list A) (body : A -> M unit) :
  (forall x, keeps_dirs (body x)) -> keeps_dirs (for_each l body).
Proof.
  intro Hb. induction l as [|x l IH]; simpl.
  - apply keeps_dirs_ret.
  - apply keeps_dirs_bind; auto.
Qed.

Lemma keeps_dirs_faulty env op : keeps_dirs (faulty env op).
Proof. intro w. unfold faulty. destruct (io_fault env op); split; reflexivity. Qed.

Lemma keeps_dirs_write p data : keeps_dirs (lift_fs (fun t => FS.write_file t p data)).
Proof.
  intro w. unfold lift_fs.
  destruct (FS.write_file (fs w) p data) as [e|t'] eqn:H; [split; reflexivity|].
  destruct (FrameFacts.write_file_frame _ _ _ _ H) as (q & _ & _ & Hd & Hr & _).
  split; [exact Hd | exact Hr].
Qed.

Lemma keeps_dirs_copy2 env src dst : keeps_dirs (shutil_copy2 env src dst).
Proof.
  unfold shutil_copy2. apply keeps_dirs_bind; [apply keeps_dirs_faulty|].
  intros _ w. destruct (FS.stat (fs w) src) as [[d|es]|]; try (split; reflexivity).
  apply keeps_dirs_write.
Qed.

Lemma keeps_dirs_copy_library env x : keeps_dirs (copy_library env x).
Proof.
  unfold copy_library. destruct (Str.endswith x ".scad");
    [apply keeps_dirs_copy2 | apply keeps_dirs_ret].
Qed.

Lemma keeps_dirs_write_text env p v : keeps_dirs (write_text env p v).
Proof.
  unfold write_text.
  apply keeps_dirs_bind; [apply keeps_dirs_faulty | intros _].
  apply keeps_dirs_bind; [apply keeps_dirs_write | intros _].
  destruct v; try apply keeps_dirs_raise.
  apply keeps_dirs_bind; [apply keeps_dirs_faulty | intros _; apply keeps_dirs_write].
Qed.

(** When staging succeeds, the request carried a string under
    ['scadCode'], the job's source file holds exactly that string, and
    the job's workspace is a directory. *)
Theorem stage_writes_source env body w w1 :
  stage env body w = (Returned tt, w1) ->
  exists d s,
    body = Some (PyDict d) /\ dict_get "scadCode" d = Some (PyStr s) /\
    FS.stat (fs w1) (scad_file_path env) = Some (File s) /\
    FS.isdir (fs w1) (model_dir env) = true.
Proof.
  intro H. destruct (stage_inv env body w w1 H)
    as (d & code & tm & names & wl & Hb & Hd & Hm & _ & Hf & Hw).
  destruct (write_text_inv _ _ _ _ _ Hw) as (s & t0 & t1 & -> & H0 & H1 & ->).
  exists d, s. split; [exact Hb|]. split; [exact Hd|]. split.
  - apply (FSFacts.write_file_stat _ _ _ _ H1).
  - pose proof (MakedirsFacts.makedirs_isdir _ _ _ Hm) as Hdir.
    pose proof (keeps_dirs_for_each names (copy_library env) (keeps_dirs_copy_library env)
                  (World tm (stl_cache w))) as [K1 K2].
    rewrite Hf in K1, K2. simpl in K1, K2.
    pose proof (keeps_dirs_write_text env (scad_file_path env) (PyStr s) wl) as [W1 W2].
    rewrite Hw in W1, W2. simpl in W1, W2.
    unfold FS.isdir, FS.stat in *. rewrite W2, K2.
    destruct (FS.resolve tm (model_dir env)) as [q|]; [|discriminate].
    assert (Hq : FS.is_dir tm q = true).
    { unfold FS.is_dir. destruct (FS.get_node tm q) as [[?|?]|]; try discriminate. reflexivity. }
    rewrite <- K1, <- W1 in Hq.
    destruct (MakedirsFacts.is_dir_inv _ _ Hq) as [es Hes]. simpl. rewrite Hes. reflexivity.
Qed.

Lemma stage_writes_source_witness :
  exists d s,
    Scenario.req0 = Some (PyDict d) /\ dict_get "scadCode" d = Some (PyStr s) /\
    FS.stat (fs (snd (stage Scenario.env_good Scenario.req0 Scenario.w0)))
            (scad_file_path Scenario.env_good) = Some (File s) /\
    FS.isdir (fs (snd (stage Scenario.env_good Scenario.req0 Scenario.w0)))
             (model_dir Scenario.env_good) = true.
Proof.
  apply (stage_writes_source Scenario.env_good Scenario.req0 Scenario.w0).
  vm_compute. reflexivity.
Defined.

(** ** The library snapshot of a workspace *)

Lemma valid_name_ext u : valid_name u = true -> valid_name (u ++ ".scad") = true.
Proof.
  intro Hv. destruct (WalkFacts.valid_name_inv u Hv) as (_ & _ & _ & Hs).
  unfold valid_name. rewrite PathFacts.has_sep_app, Hs.
  rewrite StrFacts.eqb_app_nonempty by discriminate.
  assert (Hlen : forall x, (String.length x < 5)%nat -> String.eqb (u ++ ".scad") x = false).
  { intros x Hx. apply String.eqb_neq. intro E. apply (f_equal String.length) in E.
    rewrite PathFacts.length_append in E. simpl in E. lia. }
  rewrite (Hlen "."), (Hlen "..") by (simpl; lia). reflexivity.
Qed.

Lemma app_single_inj {A} (l l' : list A) (x y : A) : l ++ [x] = l' ++ [y] -> l = l' /\ x = y.
Proof. intro H. apply app_inj_tail in H. exact H. Qed.

Section Snapshot.
Variable env : environment.
Variable tm : node.
Variables locL locM : list string.
Hypothesis HL : FS.resolve tm (LIBRARIES_DIR env) = Some locL.
Hypothesis HdL : FS.is_dir tm locL = true.
Hypothesis HM : FS.resolve tm (model_dir env) = Some locM.
Hypothesis HdM : FS.is_dir tm locM = true.
Hypothesis HeM : Str.endswith (model_dir env) "/" = false.
Hypothesis Hempty : forall n, FS.is_dir tm (locM ++ [n]) = false.
Hypothesis Hne : locL <> locM.

Lemma resolve_in_pool t x :
  same_dirs_and_pool tm locL t -> valid_name x = true ->
  FS.resolve t (os_path_join (LIBRARIES_DIR env) x) = Some (locL ++ [x]).
Proof.
  intros (_ & Hr & _) Hv. rewrite Hr.
  rewrite (WalkFacts.resolve_join tm _ locL x HL (LIBRARIES_DIR_no_trailing_sep env) Hv), HdL.
  reflexivity.
Qed.

Lemma resolve_in_workspace t x :
  same_dirs_and_pool tm locL t -> valid_name x = true ->
  FS.resolve t (os_path_join (model_dir env) x) = Some (locM ++ [x]).
Proof.
  intros (_ & Hr & _) Hv. rewrite Hr.
  rewrite (WalkFacts.resolve_join tm _ locM x HM HeM Hv), HdM. reflexivity.
Qed.

(** A write into the workspace keeps the pool and the other files of
    the workspace. *)
Lemma write_in_workspace t x data t' :
  same_dirs_and_pool tm locL t -> valid_name x = true ->
  FS.write_file t (os_path_join (model_dir env) x) data = inr t' ->
  same_dirs_and_pool tm locL t' /\
  FS.get_node t' (locM ++ [x]) = Some (File data) /\
  (forall n d, n <> x -> FS.get_node t (locM ++ [n]) = Some (File d) ->
               FS.get_node t' (locM ++ [n]) = Some (File d)).
Proof.
  intros Hinv Hv Hw. pose proof (resolve_in_workspace t x Hinv Hv) as Hres.
  destruct Hinv as (Hd & Hr & Hp).
  destruct (FrameFacts.write_file_frame _ _ _ _ Hw) as (q & Hq & Hnew & Hd' & Hr' & Hkeep).
  rewrite Hres in Hq. inversion Hq; subst q; clear Hq.
  split; [|split].
  - split; [|split].
    + intro c. rewrite Hd'. apply Hd.
    + intro p. rewrite Hr'. apply Hr.
    + intros n d Hn. apply Hkeep; [|apply Hp; exact Hn].
      intro E. apply app_single_inj in E as [E _]. contradiction.
  - exact Hnew.
  - intros n d Hn Hg. apply Hkeep; [|exact Hg].
    intro E. apply app_single_inj in E as [_ E]. contradiction.
Qed.

(** One library copied. *)
Lemma copy_step x w wx :
  same_dirs_and_pool tm locL (fs w) -> valid_name x = true ->
  copy_library env x w = (Returned tt, wx) ->
  same_dirs_and_pool tm locL (fs wx) /\
  forall n d, FS.get_node tm (locL ++ [n]) = Some (File d) ->
    (FS.get_node (fs w) (locM ++ [n]) = Some (File d) \/
     (n = x /\ Str.endswith x ".scad" = true)) ->
    FS.get_node (fs wx) (locM ++ [n]) = Some (File d).
Proof.
  intros Hinv Hv. unfold copy_library.
  destruct (Str.endswith x ".scad") eqn:Hx.
  2:{ intro H; inversion H; subst. split; [exact Hinv|].
      intros n d _ [Hg|[_ E]]; [exact Hg | discriminate]. }
  unfold shutil_copy2, bind, faulty.
  destruct (io_fault env (CopyFile _ _)); [discriminate|]. simpl.
  unfold FS.stat at 1. rewrite (resolve_in_pool (fs w) x Hinv Hv).
  destruct (FS.get_node (fs w) (locL ++ [x])) as [[dx|es]|] eqn:Hsrc; try discriminate.
  assert (Hnd : FS.isdir (fs w) (os_path_join (model_dir env) x) = false).
  { unfold FS.isdir, FS.stat. rewrite (resolve_in_workspace (fs w) x Hinv Hv).
    destruct Hinv as (Hd & _ & _). specialize (Hd (locM ++ [x])).
    rewrite Hempty in Hd. unfold FS.is_dir in Hd.
    destruct (FS.get_node (fs w) (locM ++ [x])) as [[?|?]|]; [reflexivity | discriminate | reflexivity]. }
  rewrite Hnd. unfold lift_fs.
  destruct (FS.write_file (fs w) (os_path_join (model_dir env) x) dx) as [e|t'] eqn:Hw;
    [discriminate|].
  intro H; inversion H; subst wx; clear H. simpl.
  destruct (write_in_workspace (fs w) x dx t' Hinv Hv Hw) as (Hinv' & Hnew & Hkeep).
  split; [exact Hinv'|].
  intros n d Hlib Hcase.
  destruct (String.eqb_spec n x) as [->|Hnx].
  - destruct Hinv as (_ & _ & Hp). rewrite (Hp x d Hlib) in Hsrc.
    inversion Hsrc; subst. exact Hnew.
  - destruct Hcase as [Hg|[E _]]; [|contradiction]. apply (Hkeep n d Hnx Hg).
Qed.

(** All libraries copied. *)
Lemma copy_loop names : forall w w',
  same_dirs_and_pool tm locL (fs w) -> Forall (fun x => valid_name x = true) names ->
  for_each names (copy_library env) w = (Returned tt, w') ->
  same_dirs_and_pool tm locL (fs w') /\
  forall n d, FS.get_node tm (locL ++ [n]) = Some (File d) ->
    (FS.get_node (fs w) (locM ++ [n]) = Some (File d) \/
     (In n names /\ Str.endswith n ".scad" = true)) ->
    FS.get_node (fs w') (locM ++ [n]) = Some (File d).
Proof.
  induction names as [|x names IH]; intros w w' Hinv Hval H.
  - simpl in H. inversion H; subst. split; [exact Hinv|].
    intros n d _ [Hg|[[] _]]. exact Hg.
  - simpl in H. unfold bind in H.
    destruct (copy_library env x w) as [[[]|e] wx] eqn:Hx; [|discriminate].
    inversion Hval as [|? ? Hvx Hval']; subst.
    destruct (copy_step x w wx Hinv Hvx Hx) as (Hinvx & Hstep).
    destruct (IH wx w' Hinvx Hval' H) as (Hinv' & Hrest).
    split; [exact Hinv'|].
    intros n d Hlib Hcase. apply (Hrest n d Hlib).
    destruct Hcase as [Hg|[[<-|Hin] Hs]].
    + left. apply (Hstep n d Hlib). left. exact Hg.
    + left. apply (Hstep x d Hlib). right. split; [reflexivity | exact Hs].
    + right. split; assumption.
Qed.

End Snapshot.

(** What creating a fresh job directory under the models root gives. *)
Lemma fresh_workspace env t locR esR locL dL tm :
  FS.resolve t (MODELS_DIR env) = Some locR ->
  FS.get_node t locR = Some (Dir esR) ->
  valid_name (uuid4 env) = true ->
  FS.lookup_entry (uuid4 env) esR = None ->
  FS.resolve t (LIBRARIES_DIR env) = Some locL ->
  FS.get_node t locL = Some dL ->
  FS.is_dir t locL = true ->
  (forall r, locR <> locL ++ r) ->
  FS.makedirs t (model_dir env) = inr tm ->
  let locM := locR ++ [uuid4 env] in
  FS.resolve tm (LIBRARIES_DIR env) = Some locL /\
  FS.is_dir tm locL = true /\
  FS.resolve tm (model_dir env) = Some locM /\
  FS.is_dir tm locM = true /\
  Str.endswith (model_dir env) "/" = false /\
  (forall n, FS.is_dir tm (locM ++ [n]) = false) /\
  locL <> locM /\
  FS.get_node tm locL = Some dL /\
  FS.get_node tm locM = Some (Dir []).
Proof.
  intros HR HgR Hv Hfresh HL HgL HdL Hout Hmk locM.
  destruct (MakedirsFacts.makedirs_fresh t (MODELS_DIR env) locR esR (uuid4 env)
              HR (MODELS_DIR_no_trailing_sep env) HgR Hv Hfresh) as (t' & Hmk' & Hput).
  fold (model_dir env) in Hmk'. rewrite Hmk in Hmk'. inversion Hmk'; subst t'; clear Hmk'.
  assert (Hnone : FS.get_node t locM = None).
  { unfold locM. rewrite WalkFacts.get_node_app, HgR. simpl. rewrite Hfresh. reflexivity. }
  assert (Hmono : forall c, FS.is_dir t c = true -> FS.is_dir tm c = true).
  { intros c. apply (FrameFacts.put_dir_keeps_dirs locM t tm c Hput Hnone). }
  assert (HdR : FS.is_dir t locR = true) by (unfold FS.is_dir; rewrite HgR; reflexivity).
  assert (HgM : FS.get_node tm locM = Some (Dir [])).
  { apply (FSFacts.get_put_same locM t _ tm Hput). }
  assert (Hne : locL <> locM).
  { intro E. rewrite E in HgL. congruence. }
  split; [apply (FrameFacts.resolve_mono t tm _ _ Hmono HL)|].
  split; [apply (Hmono _ HdL)|].
  split.
  { unfold model_dir.
    rewrite (WalkFacts.resolve_join tm (MODELS_DIR env) locR (uuid4 env)
               (FrameFacts.resolve_mono t tm _ _ Hmono HR)
               (MODELS_DIR_no_trailing_sep env) Hv).
    rewrite (Hmono _ HdR). reflexivity. }
  split; [unfold FS.is_dir; rewrite HgM; reflexivity|].
  split.
  { apply (WalkFacts.join_name (MODELS_DIR env) (uuid4 env)
             (WalkFacts.resolve_nonempty _ _ _ HR) (MODELS_DIR_no_trailing_sep env) Hv). }
  split.
  { intro n. rewrite (MakedirsFacts.is_dir_child tm locM n [] HgM). reflexivity. }
  split; [exact Hne|].
  split; [|exact HgM].
  rewrite (FrameFacts.put_get_other locM t _ tm locL Hput); [exact HgL | |].
  - intros r E. rewrite E, WalkFacts.get_node_app, Hnone in HgL. discriminate.
  - intros r E. destruct r as [|x r _] using rev_ind.
    + rewrite app_nil_r in E. apply Hne. symmetry. exact E.
    + unfold locM in E. rewrite app_assoc in E.
      apply app_single_inj in E as [E _]. exact (Hout r E).
Qed.

Lemma stage_copies_library env body w w1 locR esR locL dL name data :
  FS.resolve (fs w) (MODELS_DIR env) = Some locR ->
  FS.get_node (fs w) locR = Some (Dir esR) ->
  valid_name (uuid4 env) = true ->
  FS.lookup_entry (uuid4 env) esR = None ->
  FS.resolve (fs w) (LIBRARIES_DIR env) = Some locL ->
  FS.get_node (fs w) locL = Some dL ->
  wf_node dL = true ->
  (forall r, locR <> locL ++ r) ->
  FS.get_node dL [name] = Some (File data) ->
  Str.endswith name ".scad" = true ->
  name <> (uuid4 env ++ ".scad")%string ->
  stage env body w = (Returned tt, w1) ->
  FS.stat (fs w1) (os_path_join (model_dir env) name) = Some (File data) /\
  FS.stat (fs w1) (os_path_join (LIBRARIES_DIR env) name) = Some (File data).
Proof.
  intros HR HgR Hv Hfresh HL HgL Hwf Hout Hlib Hscad Hown Hstage.
  destruct (stage_inv env body w w1 Hstage)
    as (d & code & tm & names & wl & _ & _ & Hmk & Hls & Hloop & Hwt).
  destruct dL as [d0|esL]; [discriminate|].
  assert (HdL : FS.is_dir (fs w) locL = true) by (unfold FS.is_dir; rewrite HgL; reflexivity).
  destruct (fresh_workspace env (fs w) locR esR locL (Dir esL) tm
              HR HgR Hv Hfresh HL HgL HdL Hout Hmk)
    as (HL' & HdL' & HM' & HdM' & HeM & Hempty & Hne & HgL' & HgM').
  set (locM := locR ++ [uuid4 env]) in *.
  destruct (WalkFacts.wf_dir_inv esL Hwf) as (_ & Hvalid & _).
  (* the names listed are the legal names of the pool *)
  assert (Hnames : names = map fst esL).
  { unfold FS.listdir, FS.stat in Hls. rewrite HL', HgL' in Hls. inversion Hls. reflexivity. }
  assert (Hval : Forall (fun x => valid_name x = true) names).
  { subst names. apply List.Forall_forall. rewrite forallb_forall in Hvalid. exact Hvalid. }
  assert (Hentry : FS.lookup_entry name esL = Some (File data)).
  { simpl in Hlib. destruct (FS.lookup_entry name esL) as [m|]; [|discriminate].
    inversion Hlib; subst. reflexivity. }
  assert (Hin : In name names).
  { subst names. apply in_map_iff. exists (name, File data).
    split; [reflexivity | apply WalkFacts.lookup_entry_some; exact Hentry]. }
  assert (Hvn : valid_name name = true).
  { rewrite List.Forall_forall in Hval. apply Hval. exact Hin. }
  assert (Hpool : FS.get_node tm (locL ++ [name]) = Some (File data)).
  { rewrite WalkFacts.get_node_app, HgL'. exact Hlib. }
  assert (Hbase : same_dirs_and_pool tm locL tm).
  { split; [|split]; auto. }
  (* the loop *)
  destruct (copy_loop env tm locL locM HL' HdL' HM' HdM' HeM Hempty Hne names
              (World tm (stl_cache w)) wl Hbase Hval Hloop) as (Hinv & Hcopied).
  pose proof (Hcopied name data Hpool (or_intror (conj Hin Hscad))) as Hws.
  (* the source file *)
  destruct (write_text_inv _ _ _ _ _ Hwt) as (s & t0 & t1 & _ & Hw0 & Hw1 & ->).
  pose proof (valid_name_ext _ Hv) as Hvs.
  unfold scad_file_path in Hw0, Hw1.
  destruct (write_in_workspace env tm locL locM HM' HdM' HeM Hne (fs wl) _ "" t0 Hinv Hvs Hw0)
    as (Hinv0 & _ & Hkeep0).
  destruct (write_in_workspace env tm locL locM HM' HdM' HeM Hne t0 _ s t1 Hinv0 Hvs Hw1)
    as (Hinv1 & _ & Hkeep1).
  simpl. split.
  - unfold FS.stat.
    rewrite (resolve_in_workspace env tm locL locM HM' HdM' HeM t1 name Hinv1 Hvn).
    apply Hkeep1; [exact Hown|]. apply Hkeep0; [exact Hown | exact Hws].
  - unfold FS.stat. rewrite (resolve_in_pool env tm locL HL' HdL' t1 name Hinv1 Hvn).
    destruct Hinv1 as (_ & _ & Hp). apply Hp. exact Hpool.
Qed.

(** A render stages a snapshot of the library pool.  Let the models
    root be a directory without an entry for the job's identifier, and
    the pool a well-formed directory that does not contain the models
    root.  When staging succeeds, every regular file of the pool whose
    name ends in [".scad"] (other than the job's own source file name)
    is in the job's workspace with the content it has in the pool, and
    the pool still has it. *)
Theorem workspace_snapshot env body w w1 locR esR locL dL name data :
  FS.resolve (fs w) (MODELS_DIR env) = Some locR ->
  FS.get_node (fs w) locR = Some (Dir esR) ->
  valid_name (uuid4 env) = true ->
  FS.lookup_entry (uuid4 env) esR = None ->
  FS.resolve (fs w) (LIBRARIES_DIR env) = Some locL ->
  FS.get_node (fs w) locL = Some dL ->
  wf_node dL = true ->
  (forall r, locR <> locL ++ r) ->
  FS.get_node dL [name] = Some (File data) ->
  Str.endswith name ".scad" = true ->
  name <> (uuid4 env ++ ".scad")%string ->
  stage env body w = (Returned tt, w1) ->
  FS.stat (fs w1) (os_path_join (model_dir env) name) = Some (File data) /\
  FS.stat (fs w1) (os_path_join (LIBRARIES_DIR env) name) = Some (File data).
Proof. apply stage_copies_library. Qed.

Lemma workspace_snapshot_witness :
  FS.stat (fs (snd (stage Scenario.env_good Scenario.req0 Scenario.w0)))
          (os_path_join (model_dir Scenario.env_good) "util.scad")
    = Some (File "module u(){}") /\
  FS.stat (fs (snd (stage Scenario.env_good Scenario.req0 Scenario.w0)))
          (os_path_join (LIBRARIES_DIR Scenario.env_good) "util.scad")
    = Some (File "module u(){}").
Proof.
  apply (workspace_snapshot Scenario.env_good Scenario.req0 Scenario.w0 _
           ["tmp"; "openscad_models"]
           [("j1", Dir [("j1.scad", File "cube(1);"); ("j1.stl", File "solid")])]
           ["app"; "libraries"]
           (Dir [("util.scad", File "module u(){}")])).
  - reflexivity.
  - reflexivity.
  - reflexivity.
  - reflexivity.
  - reflexivity.
  - reflexivity.
  - reflexivity.
  - intros r E. discriminate.
  - reflexivity.
  - reflexivity.
  - discriminate.
  - vm_compute. reflexivity.
Defined.

(** ** A library registered, then a render *)

Lemma valid_library_name_is_name name :
  valid_library_name name = true -> Str.has_sep name = false -> valid_name name = true.
Proof.
  unfold valid_library_name, valid_name. intros Hv Hs.
  apply andb_true_iff in Hv as [Hne Hsuf]. rewrite Hne, Hs. simpl.
  destruct (String.eqb_spec name ".") as [->|_]; [discriminate|].
  destruct (String.eqb_spec name "..") as [->|_]; [discriminate|].
  reflexivity.
Qed.

Lemma UploadLibrary_post_ok env name content w wu :
  UploadLibrary_post env (Some (name, content)) w = (Returned (UploadOk name), wu) ->
  valid_library_name name = true /\
  FS.stat (fs wu) (os_path_join (LIBRARIES_DIR env) name) = Some (File content).
Proof.
  intro H. destruct (valid_library_name name) eqn:Hv.
  - split; [reflexivity|].
    rewrite (UploadLibrary_post_valid env name content w Hv) in H.
    assert (Hpos : (0 < Upload.buffer_size)%nat) by (unfold Upload.buffer_size; lia).
    pose proof (UploadFacts.save_buffered_run env _
                  (os_path_join (LIBRARIES_DIR env) name) content w Hpos) as Hrun.
    unfold FileStorage_save in H.
    destruct (FileStorage_save_buffered env Upload.buffer_size _ content w) as [[[]|e] w'].
    + inversion H; subst. exact (proj1 Hrun).
    + discriminate.
  - exfalso. unfold valid_library_name in Hv. unfold UploadLibrary_post in H.
    destruct (String.eqb name ""); simpl in *; [discriminate|].
    rewrite Hv in H. discriminate.
Qed.

(** A library registered under a plain name is in the workspace of the
    next render.  Let the upload succeed and leave a world in which the
    models root is a directory without an entry for the job's
    identifier and the pool is a well-formed directory that does not
    contain the models root; then a staging that succeeds has the
    uploaded bytes under that name in the job's workspace. *)
Theorem registered_library_reaches_workspace
    envu env name content body w wu w1 locR esR locL dL :
  app_dir envu = app_dir env ->
  Str.has_sep name = false ->
  UploadLibrary_post envu (Some (name, content)) w = (Returned (UploadOk name), wu) ->
  FS.resolve (fs wu) (MODELS_DIR env) = Some locR ->
  FS.get_node (fs wu) locR = Some (Dir esR) ->
  valid_name (uuid4 env) = true ->
  FS.lookup_entry (uuid4 env) esR = None ->
  FS.resolve (fs wu) (LIBRARIES_DIR env) = Some locL ->
  FS.get_node (fs wu) locL = Some dL ->
  wf_node dL = true ->
  (forall r, locR <> locL ++ r) ->
  name <> (uuid4 env ++ ".scad")%string ->
  stage env body wu = (Returned tt, w1) ->
  FS.stat (fs w1) (os_path_join (model_dir env) name) = Some (File content).
Proof.
  intros Happ Hs Hup HR HgR Hv Hfresh HL HgL Hwf Hout Hown Hstage.
  destruct (UploadLibrary_post_ok envu name content w wu Hup) as [Hvl Hst].
  assert (Hlibdir : LIBRARIES_DIR envu = LIBRARIES_DIR env)
    by (unfold LIBRARIES_DIR; rewrite Happ; reflexivity).
  rewrite Hlibdir in Hst.
  pose proof (valid_library_name_is_name name Hvl Hs) as Hvn.
  assert (Hlib : FS.get_node dL [name] = Some (File content)).
  { unfold FS.stat in Hst.
    rewrite (WalkFacts.resolve_join (fs wu) _ locL name HL
               (LIBRARIES_DIR_no_trailing_sep env) Hvn) in Hst.
    destruct (FS.is_dir (fs wu) locL); [|discriminate].
    rewrite WalkFacts.get_node_app, HgL in Hst. exact Hst. }
  assert (Hscad : Str.endswith name ".scad" = true).
  { unfold valid_library_name in Hvl. apply andb_true_iff in Hvl as [_ H]. exact H. }
  apply (stage_copies_library env body wu w1 locR esR locL dL name content
           HR HgR Hv Hfresh HL HgL Hwf Hout Hlib Hscad Hown Hstage).
Qed.

Lemma registered_library_reaches_workspace_witness :
  let wu := snd (UploadLibrary_post Scenario.env_good
                   (Some ("gear.scad", "module gear(){}")) Scenario.w0) in
  FS.stat (fs (snd (stage Scenario2.env_second Scenario.req0 wu)))
          (os_path_join (model_dir Scenario2.env_second) "gear.scad")
    = Some (File "module gear(){}").
Proof.
  intro wu.
  apply (registered_library_reaches_workspace Scenario.env_good Scenario2.env_second
           "gear.scad" "module gear(){}" Scenario.req0 Scenario.w0 wu _
           ["tmp"; "openscad_models"]
           [("j1", Dir [("j1.scad", File "cube(1);"); ("j1.stl", File "solid")])]
           ["app"; "libraries"]
           (Dir [("util.scad", File "module u(){}"); ("gear.scad", File "module gear(){}")])).
  - reflexivity.
  - reflexivity.
  - vm_compute. reflexivity.
  - reflexivity.
  - reflexivity.
  - reflexivity.
  - reflexivity.
  - reflexivity.
  - reflexivity.
  - reflexivity.
  - intros r E. discriminate.
  - discriminate.
  - vm_compute. reflexivity.
Defined.

(** ** What an upload leaves alone *)

Lemma write_file_keeps_stat t p data t' p' d' :
  FS.write_file t p data = inr t' ->
  FS.resolve t p <> FS.resolve t p' ->
  FS.stat t p' = Some (File d') ->
  FS.stat t' p' = Some (File d') /\ FS.resolve t' p <> FS.resolve t' p'.
Proof.
  intros Hw Hne Hst.
  destruct (FrameFacts.write_file_frame _ _ _ _ Hw) as (q & Hq & _ & _ & Hr & Hkeep).
  split; [|rewrite !Hr; exact Hne].
  unfold FS.stat in *. rewrite Hr.
  destruct (FS.resolve t p') as [q'|]; [|discriminate].
  apply Hkeep; [|exact Hst]. intro E. subst. contradiction.
Qed.

Lemma append_keeps_stat env dst p' d' bufs : forall w,
  FS.resolve (fs w) dst <> FS.resolve (fs w) p' ->
  FS.stat (fs w) p' = Some (File d') ->
  FS.stat (fs (snd (for_each bufs (append_data env dst) w))) p' = Some (File d').
Proof.
  induction bufs as [|b bufs IH]; intros w Hne Hst; [exact Hst|].
  simpl. unfold bind.
  destruct (append_data env dst b w) as [[[]|e] w1] eqn:Hstep.
  - unfold append_data, bind, faulty, lift_fs in Hstep.
    destruct (io_fault env (WriteData dst)); [discriminate|]. simpl in Hstep.
    destruct (FS.stat (fs w) dst) as [[d|es]|]; try discriminate.
    destruct (FS.write_file (fs w) dst (d ++ b)) as [e|t'] eqn:Hw; [discriminate|].
    inversion Hstep; subst w1; clear Hstep.
    destruct (write_file_keeps_stat _ _ _ _ _ _ Hw Hne Hst) as [Hst' Hne'].
    apply IH; assumption.
  - unfold append_data, bind, faulty, lift_fs in Hstep.
    destruct (io_fault env (WriteData dst)); simpl in Hstep.
    + inversion Hstep; subst. exact Hst.
    + destruct (FS.stat (fs w) dst) as [[d|es]|]; try (inversion Hstep; subst; exact Hst).
      destruct (FS.write_file (fs w) dst (d ++ b)); inversion Hstep; subst. exact Hst.
Qed.

(** RegisterLibrary changes no regular file but the one at its
    destination: whatever the upload and whether it succeeds or fails
    half-way, every regular file that resolves to another location on
    disk keeps its content. *)
Theorem upload_keeps_other_files env file w p' d' :
  FS.stat (fs w) p' = Some (File d') ->
  (forall name content, file = Some (name, content) ->
     FS.resolve (fs w) (os_path_join (LIBRARIES_DIR env) name) <> FS.resolve (fs w) p') ->
  FS.stat (fs (snd (UploadLibrary_post env file w))) p' = Some (File d').
Proof.
  intros Hst Hne. destruct file as [[name content]|]; [|exact Hst].
  specialize (Hne name content eq_refl).
  destruct (valid_library_name name) eqn:Hv.
  - rewrite (UploadLibrary_post_valid env name content w Hv).
    set (dst := os_path_join (LIBRARIES_DIR env) name) in *.
    assert (Hsave : FS.stat (fs (snd (FileStorage_save env dst content w))) p'
                    = Some (File d')).
    { unfold FileStorage_save, FileStorage_save_buffered, bind at 1.
      destruct (open_wb env dst w) as [[[]|e] w0] eqn:Ho.
      - unfold open_wb, bind, faulty, lift_fs in Ho.
        destruct (io_fault env (SaveUpload dst)); [discriminate|]. simpl in Ho.
        destruct (FS.write_file (fs w) dst "") as [e|t0] eqn:Hw; [discriminate|].
        inversion Ho; subst w0; clear Ho.
        destruct (write_file_keeps_stat _ _ _ _ _ _ Hw Hne Hst) as [Hst' Hne'].
        apply append_keeps_stat; assumption.
      - unfold open_wb, bind, faulty, lift_fs in Ho.
        destruct (io_fault env (SaveUpload dst)); simpl in Ho.
        + inversion Ho; subst. exact Hst.
        + destruct (FS.write_file (fs w) dst ""); inversion Ho; subst. exact Hst. }
    destruct (FileStorage_save env dst content w) as [[[]|e] w']; exact Hsave.
  - unfold valid_library_name in Hv. unfold UploadLibrary_post.
    destruct (String.eqb name ""); simpl in *; [exact Hst|]. rewrite Hv. exact Hst.
Qed.

Lemma upload_keeps_other_files_witness :
  FS.stat (fs (snd (UploadLibrary_post Scenario.env_good
                      (Some ("gear.scad", "module gear(){}")) Scenario.w0)))
          "/app/libraries/util.scad" = Some (File "module u(){}").
Proof.
  apply upload_keeps_other_files.
  - reflexivity.
  - intros name content E. inversion E; subst. vm_compute. discriminate.
Defined.

(** ** Artifacts the index does not know *)

Lemma valid_name_stl u : valid_name u = true -> valid_name (u ++ ".stl") = true.
Proof.
  intro Hv. destruct (WalkFacts.valid_name_inv u Hv) as (_ & _ & _ & Hs).
  unfold valid_name. rewrite PathFacts.has_sep_app, Hs.
  rewrite StrFacts.eqb_app_nonempty by discriminate.
  assert (Hlen : forall x, (String.length x < 4)%nat -> String.eqb (u ++ ".stl") x = false).
  { intros x Hx. apply String.eqb_neq. intro E. apply (f_equal String.length) in E.
    rewrite PathFacts.length_append in E. simpl in E. lia. }
  rewrite (Hlen "."), (Hlen "..") by (simpl; lia). reflexivity.
Qed.

(** The artifact path of a job lies two levels below the models root:
    in the directory named by the identifier, under the artifact id. *)
Lemma artifact_location env t locR esR data :
  valid_name (uuid4 env) = true ->
  FS.resolve t (MODELS_DIR env) = Some locR ->
  FS.get_node t locR = Some (Dir esR) ->
  FS.stat t (stl_file_path env) = Some (File data) ->
  FS.get_node (Dir esR) ([uuid4 env] ++ [artifact_id env]) = Some (File data).
Proof.
  intros Hv HR HgR Hst.
  destruct (WalkFacts.valid_name_inv _ Hv) as (_ & _ & _ & Hs).
  rewrite (PathFacts.artifact_id_eq env Hs).
  assert (HdR : FS.is_dir t locR = true) by (unfold FS.is_dir; rewrite HgR; reflexivity).
  assert (HM : FS.resolve t (model_dir env) = Some (locR ++ [uuid4 env])).
  { unfold model_dir.
    rewrite (WalkFacts.resolve_join t _ locR _ HR (MODELS_DIR_no_trailing_sep env) Hv), HdR.
    reflexivity. }
  assert (HeM : Str.endswith (model_dir env) "/" = false).
  { apply (WalkFacts.join_name (MODELS_DIR env) (uuid4 env)
             (WalkFacts.resolve_nonempty _ _ _ HR) (MODELS_DIR_no_trailing_sep env) Hv). }
  unfold FS.stat, stl_file_path in Hst.
  rewrite (WalkFacts.resolve_join t _ _ _ HM HeM (valid_name_stl _ Hv)) in Hst.
  destruct (FS.is_dir t (locR ++ [uuid4 env])); [|discriminate].
  rewrite <- app_assoc, WalkFacts.get_node_app, HgR in Hst. exact Hst.
Qed.

(** An artifact that lies at its job's artifact path is served under
    the job's artifact id by the scan alone: whenever the index has no
    entry for the id (after a restart, or for an artifact made by
    RenderAndFetch) and the models root is a well-formed directory,
    Fetch answers with a regular file of that name below the root. *)
Theorem unindexed_artifact_is_served env t cache locR esR data :
  valid_name (uuid4 env) = true ->
  FS.resolve t (MODELS_DIR env) = Some locR ->
  FS.get_node t locR = Some (Dir esR) ->
  wf_node (Dir esR) = true ->
  FS.stat t (stl_file_path env) = Some (File data) ->
  cache !! artifact_id env = None ->
  exists root rel data',
    FS.get_node (Dir esR) (rel ++ [artifact_id env]) = Some (File data') /\
    View3D_get env (Some (artifact_id env)) (World t cache)
      = (Returned (SendFile (os_path_join root (artifact_id env)) data'
                            "model/stl" false None), World t cache).
Proof.
  intros Hv HR HgR Hwf Hst Hc.
  pose proof (artifact_location env t locR esR data Hv HR HgR Hst) as Hloc.
  set (w := World t cache).
  destruct (scan_hit_complete env (artifact_id env) w locR (Dir esR) HR HgR
              [uuid4 env] data Hloc) as [root Hhit].
  destruct (scan_hit_served env (artifact_id env) w locR (Dir esR) HR HgR Hwf root Hhit)
    as (rel & data' & Hfile & Hserve).
  exists root, rel, data'. split; [exact Hfile|].
  rewrite (View3D_get_run env _ w (artifact_id_valid env)).
  unfold fetch_path. replace (stl_cache w !! artifact_id env) with (@None string) by (symmetry; exact Hc).
  rewrite Hhit, Hserve. reflexivity.
Qed.

Lemma unindexed_artifact_is_served_witness :
  let env := Scenario.env_good in
  let t := fs (snd (GetStl_post env Scenario.req0 Scenario.w0)) in
  exists root rel data',
    FS.get_node (Dir [("j1", Dir [("j1.scad", File "cube(1);"); ("j1.stl", File "solid")]);
                      (uuid4 env,
                       Dir [("util.scad", File "module u(){}");
                            ((uuid4 env ++ ".scad")%string, File "cube(2);");
                            ((uuid4 env ++ ".stl")%string, File "solid cube")])])
                (rel ++ [artifact_id env]) = Some (File data') /\
    View3D_get env (Some (artifact_id env)) (World t ∅)
      = (Returned (SendFile (os_path_join root (artifact_id env)) data'
                            "model/stl" false None), World t ∅).
Proof.
  intros env t.
  apply (unindexed_artifact_is_served env t ∅ ["tmp"; "openscad_models"] _ "solid cube").
  - reflexivity.
  - vm_compute. reflexivity.
  - vm_compute. reflexivity.
  - vm_compute. reflexivity.
  - vm_compute. reflexivity.
  - reflexivity.
Defined.

(** ** What a fresh workspace does not hold *)

Lemma sibling_unrelated {A} (l : list A) (x y : A) :
  x <> y -> forall r, l ++ [x] <> (l ++ [y]) ++ r.
Proof.
  intros Hne r E. rewrite <- app_assoc in E. apply app_inv_head in E.
  simpl in E. inversion E. contradiction.
Qed.

Section Absent.
Variable env : environment.
Variable tm : node.
Variables locL locM : list string.
Hypothesis HL : FS.resolve tm (LIBRARIES_DIR env) = Some locL.
Hypothesis HdL : FS.is_dir tm locL = true.
Hypothesis HM : FS.resolve tm (model_dir env) = Some locM.
Hypothesis HdM : FS.is_dir tm locM = true.
Hypothesis HeM : Str.endswith (model_dir env) "/" = false.
Hypothesis Hempty : forall n, FS.is_dir tm (locM ++ [n]) = false.
Hypothesis Hne : locL <> locM.

(** A write into the workspace leaves the other names of the workspace
    as they are, present or absent. *)
Lemma write_keeps_siblings t x data t' n :
  same_dirs_and_pool tm locL t -> valid_name x = true ->
  FS.write_file t (os_path_join (model_dir env) x) data = inr t' ->
  n <> x -> FS.get_node t' (locM ++ [n]) = FS.get_node t (locM ++ [n]).
Proof.
  intros Hinv Hv Hw Hnx.
  destruct (FSFacts.write_file_inv _ _ _ _ Hw) as (q & Hq & Hp & _).
  rewrite (resolve_in_workspace env tm locL locM HM HdM HeM t x Hinv Hv) in Hq.
  inversion Hq; subst q.
  apply (FrameFacts.put_get_other _ _ _ _ _ Hp).
  - apply sibling_unrelated. exact Hnx.
  - apply sibling_unrelated. congruence.
Qed.

Lemma copy_loop_absent names : forall w w' n,
  same_dirs_and_pool tm locL (fs w) -> Forall (fun x => valid_name x = true) names ->
  for_each names (copy_library env) w = (Returned tt, w') ->
  ~ (In n names /\ Str.endswith n ".scad" = true) ->
  FS.get_node (fs w') (locM ++ [n]) = FS.get_node (fs w) (locM ++ [n]).
Proof.
  induction names as [|x names IH]; intros w w' n Hinv Hval H Hn.
  - simpl in H. inversion H; subst. reflexivity.
  - simpl in H. unfold bind in H.
    destruct (copy_library env x w) as [[[]|e] wx] eqn:Hx; [|discriminate].
    inversion Hval as [|? ? Hvx Hval']; subst.
    destruct (copy_step env tm locL locM HL HdL HM HdM HeM Hempty Hne x w wx Hinv Hvx Hx)
      as (Hinvx & _).
    rewrite (IH wx w' n Hinvx Hval' H) by (intros [Hin Hs]; apply Hn; split; [right|]; assumption).
    unfold copy_library in Hx. destruct (Str.endswith x ".scad") eqn:Hsx.
    2:{ inversion Hx; subst. reflexivity. }
    assert (Hnx : n <> x).
    { intro E. subst. apply Hn. split; [left; reflexivity | exact Hsx]. }
    unfold shutil_copy2, bind, faulty in Hx.
    destruct (io_fault env (CopyFile _ _)); [discriminate|]. simpl in Hx.
    destruct (FS.stat (fs w) (os_path_join (LIBRARIES_DIR env) x)) as [[dx|es]|];
      try discriminate.
    assert (Hnd : FS.isdir (fs w) (os_path_join (model_dir env) x) = false).
    { unfold FS.isdir, FS.stat.
      rewrite (resolve_in_workspace env tm locL locM HM HdM HeM (fs w) x Hinv Hvx).
      destruct Hinv as (Hd & _ & _). specialize (Hd (locM ++ [x])).
      rewrite Hempty in Hd. unfold FS.is_dir in Hd.
      destruct (FS.get_node (fs w) (locM ++ [x])) as [[?|?]|];
        [reflexivity | discriminate | reflexivity]. }
    rewrite Hnd in Hx. unfold lift_fs in Hx.
    destruct (FS.write_file (fs w) (os_path_join (model_dir env) x) dx) as [e|t'] eqn:Hw;
      [discriminate|].
    inversion Hx; subst wx. simpl.
    apply (write_keeps_siblings (fs w) x dx t' n Hinv Hvx Hw Hnx).
Qed.

End Absent.

(** A freshly staged workspace holds nothing but the job's source file
    and the [".scad"] entries of the pool: under the conditions of the
    snapshot, any other legal name is absent from the workspace when
    staging has succeeded. *)
Theorem workspace_holds_only_source_and_libraries
    env body w w1 locR esR locL esL n :
  FS.resolve (fs w) (MODELS_DIR env) = Some locR ->
  FS.get_node (fs w) locR = Some (Dir esR) ->
  valid_name (uuid4 env) = true ->
  FS.lookup_entry (uuid4 env) esR = None ->
  FS.resolve (fs w) (LIBRARIES_DIR env) = Some locL ->
  FS.get_node (fs w) locL = Some (Dir esL) ->
  wf_node (Dir esL) = true ->
  (forall r, locR <> locL ++ r) ->
  valid_name n = true ->
  n <> (uuid4 env ++ ".scad")%string ->
  (Str.endswith n ".scad" = false \/ FS.lookup_entry n esL = None) ->
  stage env body w = (Returned tt, w1) ->
  FS.stat (fs w1) (os_path_join (model_dir env) n) = None.
Proof.
  intros HR HgR Hv Hfresh HL HgL Hwf Hout Hvn Hown Hnot Hstage.
  destruct (stage_inv env body w w1 Hstage)
    as (d & code & tm & names & wl & _ & _ & Hmk & Hls & Hloop & Hwt).
  assert (HdL : FS.is_dir (fs w) locL = true) by (unfold FS.is_dir; rewrite HgL; reflexivity).
  destruct (fresh_workspace env (fs w) locR esR locL (Dir esL) tm
              HR HgR Hv Hfresh HL HgL HdL Hout Hmk)
    as (HL' & HdL' & HM' & HdM' & HeM & Hempty & Hne & HgL' & HgM').
  set (locM := locR ++ [uuid4 env]) in *.
  destruct (WalkFacts.wf_dir_inv esL Hwf) as (_ & Hvalid & _).
  assert (Hnames : names = map fst esL).
  { unfold FS.listdir, FS.stat in Hls. rewrite HL', HgL' in Hls. inversion Hls. reflexivity. }
  assert (Hval : Forall (fun x => valid_name x = true) names).
  { subst names. apply List.Forall_forall. rewrite forallb_forall in Hvalid. exact Hvalid. }
  assert (Hbase : same_dirs_and_pool tm locL tm) by (split; [|split]; auto).
  assert (Hskip : ~ (In n names /\ Str.endswith n ".scad" = true)).
  { intros [Hin Hs]. destruct Hnot as [Hns|Hl]; [congruence|].
    subst names. apply in_map_iff in Hin as ([n' c] & E & Hin). simpl in E. subst n'.
    destruct (WalkFacts.wf_dir_inv esL Hwf) as (Hdist & _ & _).
    rewrite (WalkFacts.lookup_entry_In n c esL Hdist Hin) in Hl. discriminate. }
  destruct (copy_loop env tm locL locM HL' HdL' HM' HdM' HeM Hempty Hne names
              (World tm (stl_cache w)) wl Hbase Hval Hloop) as (Hinv & _).
  pose proof (copy_loop_absent env tm locL locM HL' HdL' HM' HdM' HeM Hempty Hne names
                (World tm (stl_cache w)) wl n Hbase Hval Hloop Hskip) as Hl.
  simpl in Hl.
  assert (Htm : FS.get_node tm (locM ++ [n]) = None).
  { rewrite WalkFacts.get_node_app, HgM'. reflexivity. }
  destruct (write_text_inv _ _ _ _ _ Hwt) as (s & t0 & t1 & _ & Hw0 & Hw1 & ->).
  pose proof (valid_name_ext _ Hv) as Hvs.
  unfold scad_file_path in Hw0, Hw1.
  destruct (write_in_workspace env tm locL locM HM' HdM' HeM Hne (fs wl) _ "" t0 Hinv Hvs Hw0)
    as (Hinv0 & _ & _).
  destruct (write_in_workspace env tm locL locM HM' HdM' HeM Hne t0 _ s t1 Hinv0 Hvs Hw1)
    as (Hinv1 & _ & _).
  simpl. unfold FS.stat.
  rewrite (resolve_in_workspace env tm locL locM HM' HdM' HeM t1 n Hinv1 Hvn).
  rewrite (write_keeps_siblings env tm locL locM HM' HdM' HeM t0 _ s t1 n Hinv0 Hvs Hw1 Hown).
  rewrite (write_keeps_siblings env tm locL locM HM' HdM' HeM (fs wl) _ "" t0 n Hinv Hvs Hw0 Hown).
  rewrite Hl. exact Htm.
Qed.

Lemma workspace_holds_only_source_and_libraries_witness :
  let w := World (Dir [("tmp", Dir [("openscad_models", Dir [])]);
                       ("app", Dir [("libraries",
                          Dir [("util.scad", File "module u(){}");
                               ("README.md", File "notes")])])]) ∅ in
  FS.stat (fs (snd (stage Scenario.env_good Scenario.req0 w)))
          (os_path_join (model_dir Scenario.env_good) "README.md") = None.
Proof.
  intro w.
  apply (workspace_holds_only_source_and_libraries Scenario.env_good Scenario.req0 w _
           ["tmp"; "openscad_models"] [] ["app"; "libraries"]
           [("util.scad", File "module u(){}"); ("README.md", File "notes")]).
  - reflexivity.
  - reflexivity.
  - reflexivity.
  - reflexivity.
  - reflexivity.
  - reflexivity.
  - reflexivity.
  - intros r E. discriminate.
  - reflexivity.
  - discriminate.
  - left. reflexivity.
  - vm_compute. reflexivity.
Defined.

(** ** Names with separators *)

Lemma wf_entry_name f rel : forall d x,
  wf_node d = true -> FS.get_node d (rel ++ [f]) = Some x -> valid_name f = true.
Proof.
  induction rel as [|n rel IH]; intros d x Hwf Hg; destruct d as [d0|es]; try discriminate.
  - simpl in Hg. destruct (FS.lookup_entry f es) as [m|] eqn:Hl; [|discriminate].
    destruct (WalkFacts.wf_dir_inv es Hwf) as (_ & Hvalid & _).
    rewrite forallb_forall in Hvalid. apply Hvalid.
    apply in_map_iff. exists (f, m). split; [reflexivity|].
    apply WalkFacts.lookup_entry_some. exact Hl.
  - simpl in Hg. destruct (FS.lookup_entry n es) as [c|] eqn:Hl; [|discriminate].
    destruct (WalkFacts.wf_dir_inv es Hwf) as (_ & _ & Hchildren).
    rewrite List.Forall_forall in Hchildren.
    apply (IH c x); [|exact Hg].
    apply (Hchildren (n, c)). apply WalkFacts.lookup_entry_some. exact Hl.
Qed.

(** A file parameter that contains a separator is never matched by the
    scan of the models root: unless the index knows it, it is answered
    from the parameter joined to the models root as it stands, and when
    it starts with a separator, from the parameter itself, whatever
    directory that is. *)
Theorem separator_in_file_parameter env filename w loc d :
  valid_filename filename = true ->
  Str.has_sep filename = true ->
  stl_cache w !! filename = None ->
  FS.resolve (fs w) (MODELS_DIR env) = Some loc ->
  FS.get_node (fs w) loc = Some d ->
  wf_node d = true ->
  View3D_get env (Some filename) w
    = (Returned (serve (os_path_join (MODELS_DIR env) filename) (fs w)), w) /\
  (Str.startswith filename "/" = true ->
   View3D_get env (Some filename) w = (Returned (serve filename (fs w)), w)).
Proof.
  intros Hv Hs Hc Hroot Hnode Hwf.
  assert (Hmiss : scan_hit env filename (fs w) = None).
  { destruct (scan_hit env filename (fs w)) as [root|] eqn:Hhit; [|reflexivity].
    destruct (scan_hit_served env filename w loc d Hroot Hnode Hwf root Hhit)
      as (rel & data & Hfile & _).
    pose proof (wf_entry_name filename rel d _ Hwf Hfile) as Hname.
    destruct (WalkFacts.valid_name_inv _ Hname) as (_ & _ & _ & Hns). congruence. }
  assert (Hrun : View3D_get env (Some filename) w
                 = (Returned (serve (os_path_join (MODELS_DIR env) filename) (fs w)), w)).
  { rewrite (View3D_get_run env filename w Hv). unfold fetch_path.
    rewrite Hc, Hmiss. reflexivity. }
  split; [exact Hrun|].
  intro Habs. rewrite Hrun. unfold os_path_join. rewrite Habs. reflexivity.
Qed.

Lemma separator_in_file_parameter_witness :
  let w := World (Dir [("tmp", Dir [("openscad_models", Dir [])]);
                       ("app", Dir [("libraries", Dir [("x.stl", File "not an artifact")])])]) ∅ in
  View3D_get Scenario.env_good (Some "/app/libraries/x.stl") w
  = (Returned (SendFile "/app/libraries/x.stl" "not an artifact" "model/stl" false None), w).
Proof.
  intro w.
  destruct (separator_in_file_parameter Scenario.env_good "/app/libraries/x.stl" w
              ["tmp"; "openscad_models"] (Dir [])) as [_ H].
  - reflexivity.
  - reflexivity.
  - apply lookup_empty.
  - reflexivity.
  - reflexivity.
  - reflexivity.
  - rewrite (H eq_refl). reflexivity.
Defined.

(** An upload whose file name starts with a separator is saved at that
    absolute path, not under the pool: when the handler reports success,
    the path named by the file name holds the uploaded bytes. *)
Theorem absolute_upload_name_leaves_pool env name content w wu :
  Str.startswith name "/" = true ->
  UploadLibrary_post env (Some (name, content)) w = (Returned (UploadOk name), wu) ->
  FS.stat (fs wu) name = Some (File content).
Proof.
  intros Habs Hup.
  destruct (UploadLibrary_post_ok env name content w wu Hup) as [_ Hst].
  unfold os_path_join in Hst. rewrite Habs in Hst. exact Hst.
Qed.

Lemma absolute_upload_name_leaves_pool_witness :
  FS.stat (fs (snd (UploadLibrary_post Scenario.env_good
                      (Some ("/tmp/x.scad", "cube(9);")) Scenario.w0)))
          "/tmp/x.scad" = Some (File "cube(9);").
Proof.
  apply (absolute_upload_name_leaves_pool Scenario.env_good "/tmp/x.scad" "cube(9);"
           Scenario.w0).
  - reflexivity.
  - vm_compute. reflexivity.
Defined.
